(** * Pixabay video downloader: the search / filter / download / zip run

    A shallow embedding of [src/app.py], the part of the script that runs
    when the "Search & Download Videos" button is clicked (lines 83-208),
    and the properties of that run.

    The script talks to the network and to the Streamlit widgets.  The
    network is an explicit parameter of the run (a [world]: what each
    [requests.get] answers), the widgets' calls are recorded in a trace of
    [event]s, and the run threads a [state] holding that trace, the
    session's [downloaded_files] and the entries written to the zip file. *)

From Stdlib Require Import ZArith List String Ascii Bool Lia Arith.
From Stdlib Require Import DecimalString DecimalZ.
Import ListNotations.

Local Open Scope string_scope.
Local Open Scope Z_scope.

(** ** Values decoded from JSON

    [response.json()] yields Python values built from [None], [bool],
    [int], [float], [str], [list] and [dict].  A dict is kept as an
    association list in insertion order; lookups take the first binding of
    a key.

    A float is an IEEE double: a finite one is [m * 2^e] for integers [m]
    and [e] (a zero of either sign has [m = 0]); the others are the two
    infinities and NaN, which the decoder accepts.  A float value comes
    with the text that [repr] writes for it (the shortest decimal that
    reads back as the same double); the run only copies that text.

    A string is a sequence of characters below U+0100, one [ascii] for
    each; texts with other characters are not among the values here. *)

#[local] Set Warnings "-register-all".

Inductive pyfloat : Type :=
| Finite (m e : Z)
| Infinity (negative : bool)
| NaN.

Inductive json : Type :=
| JNull
| JBool (b : bool)
| JNum (n : Z)
| JFloat (x : pyfloat) (text : string)
| JStr (s : string)
| JList (l : list json)
| JDict (d : list (string * json)).

(** Exceptions the run can meet.  [RequestException] stands for
    [requests.exceptions.RequestException] and its subclasses (connection
    errors, [HTTPError] from [raise_for_status], [MissingSchema], ...);
    every other constructor is an [Exception] that is not one. *)

Inductive exn : Type :=
| RequestException (e : string)
| KeyError (k : string)
| AttributeError
| TypeError
| OtherException (e : string).

Definition is_request_exception (e : exn) : bool :=
  match e with RequestException _ => true | _ => false end.

(** A computation that returns or raises. *)

Definition py (A : Type) : Type := (exn + A)%type.

Definition ret {A} (a : A) : py A := inr a.
Definition raise {A} (e : exn) : py A := inl e.
Definition bind {A B} (m : py A) (k : A -> py B) : py B :=
  match m with
  | inl e => inl e
  | inr a => k a
  end.

Notation "x <- m ;; k" := (bind m (fun x => k))
  (at level 100, m at next level, right associativity).

(** ** The Python operations the script applies to decoded values *)

Module Py.

Fixpoint lookup (d : list (string * json)) (k : string) : option json :=
  match d with
  | [] => None
  | (k', v) :: d' => if String.eqb k' k then Some v else lookup d' k
  end.

(** [v.get(k, default)]: only a dict has a [get] method. *)
Definition get_default (v : json) (k : string) (default : json) : py json :=
  match v with
  | JDict d => ret (match lookup d k with Some x => x | None => default end)
  | _ => raise AttributeError
  end.

(** [v.get(k)] *)
Definition get (v : json) (k : string) : py json := get_default v k JNull.

(** [v[k]] with a string key [k] *)
Definition getitem (v : json) (k : string) : py json :=
  match v with
  | JDict d => match lookup d k with Some x => ret x | None => raise (KeyError k) end
  | _ => raise TypeError
  end.

(** [len(v)] *)
Definition len (v : json) : py nat :=
  match v with
  | JStr s => ret (String.length s)
  | JList l => ret (List.length l)
  | JDict d => ret (List.length d)
  | _ => raise TypeError
  end.

(** truth value of [v], as [if v] and [not v] test it *)
Definition truthy (v : json) : bool :=
  match v with
  | JNull => false
  | JBool b => b
  | JNum n => negb (n =? 0)
  | JFloat (Finite m _) _ => negb (m =? 0)
  | JFloat _ _ => true
  | JStr s => negb (String.eqb s "")
  | JList l => match l with [] => false | _ => true end
  | JDict d => match d with [] => false | _ => true end
  end.

Fixpoint chars (s : string) : list json :=
  match s with
  | EmptyString => []
  | String c s' => JStr (String c "") :: chars s'
  end.

(** the items [for x in v] goes through: the elements of a list, the
    one-character strings of a string, the keys of a dict *)
Definition iter (v : json) : py (list json) :=
  match v with
  | JList l => ret l
  | JStr s => ret (chars s)
  | JDict d => ret (map (fun kv => JStr (fst kv)) d)
  | _ => raise TypeError
  end.

(** The values that compare with an int: an int, a bool (which counts as
    0 or 1) and a float; any other type raises. *)
Inductive number : Type :=
| Int (n : Z)
| Float (x : pyfloat).

Definition as_number (v : json) : py number :=
  match v with
  | JNum n => ret (Int n)
  | JBool b => ret (Int (if b then 1 else 0))
  | JFloat x _ => ret (Float x)
  | _ => raise TypeError
  end.

(** [lo <= n] and [n <= hi] for an int bound.  An int and a float compare
    by their exact values; NaN is neither below nor above anything. *)
Definition int_le_number (lo : Z) (n : number) : bool :=
  match n with
  | Int n => lo <=? n
  | Float (Finite m e) => if 0 <=? e then lo <=? m * 2 ^ e else lo * 2 ^ (- e) <=? m
  | Float (Infinity negative) => negb negative
  | Float NaN => false
  end.

Definition number_le_int (n : number) (hi : Z) : bool :=
  match n with
  | Int n => n <=? hi
  | Float (Finite m e) => if 0 <=? e then m * 2 ^ e <=? hi else m <=? hi * 2 ^ (- e)
  | Float (Infinity negative) => negative
  | Float NaN => false
  end.

Definition int_le (lo : Z) (v : json) : py bool :=
  n <- as_number v ;; ret (int_le_number lo n).

Definition le_int (v : json) (hi : Z) : py bool :=
  n <- as_number v ;; ret (number_le_int n hi).

(** [str(n)] for an int *)
Definition str_of_Z (n : Z) : string := NilZero.string_of_int (Z.to_int n).

Definition str_of_nat (n : nat) : string := str_of_Z (Z.of_nat n).

(** [repr(s)] for a string: quoted with ['], or with the double quote when
    [s] holds a ['] and no double quote; the quote and the backslash are
    escaped, tab, newline and carriage return are written [\t], [\n], [\r],
    and every other character that is not printable is written [\xhh]: the
    control characters below U+0020, U+007F to U+009F, the no-break space
    U+00A0 and the soft hyphen U+00AD. *)

Definition squote : ascii := ascii_of_nat 39.
Definition dquote : ascii := ascii_of_nat 34.
Definition backslash : ascii := ascii_of_nat 92.

Fixpoint contains (c : ascii) (s : string) : bool :=
  match s with
  | EmptyString => false
  | String c' s' => Ascii.eqb c c' || contains c s'
  end.

Definition hex_digit (n : nat) : ascii :=
  nth n (list_ascii_of_string "0123456789abcdef") "0"%char.

Definition repr_char (quote c : ascii) : string :=
  let n := nat_of_ascii c in
  if Ascii.eqb c quote || Ascii.eqb c backslash then String backslash (String c "")
  else if (n =? 9)%nat then "\t"
  else if (n =? 10)%nat then "\n"
  else if (n =? 13)%nat then "\r"
  else if (n <? 32)%nat || ((127 <=? n)%nat && (n <=? 160)%nat) || (n =? 173)%nat
       then "\x" ++ String (hex_digit (n / 16)) (String (hex_digit (n mod 16)) "")
  else String c "".

Fixpoint repr_chars (quote : ascii) (s : string) : string :=
  match s with
  | EmptyString => ""
  | String c s' => repr_char quote c ++ repr_chars quote s'
  end.

Definition repr_str (s : string) : string :=
  let quote := if contains squote s && negb (contains dquote s) then dquote else squote in
  String quote (repr_chars quote s ++ String quote "").

(** [repr(v)] *)
Fixpoint repr (v : json) : string :=
  match v with
  | JNull => "None"
  | JBool true => "True"
  | JBool false => "False"
  | JNum n => str_of_Z n
  | JFloat _ text => text
  | JStr s => repr_str s
  | JList l =>
      "[" ++ (fix items (first : bool) (l : list json) : string :=
                match l with
                | [] => ""
                | x :: l' => (if first then "" else ", ") ++ repr x ++ items false l'
                end) true l ++ "]"
  | JDict d =>
      "{" ++ (fix items (first : bool) (d : list (string * json)) : string :=
                match d with
                | [] => ""
                | (k, x) :: d' =>
                    (if first then "" else ", ") ++ repr_str k ++ ": " ++ repr x
                    ++ items false d'
                end) true d ++ "}"
  end.

(** [str(v)], what an f-string writes for [{v}] *)
Definition str (v : json) : string :=
  match v with
  | JStr s => s
  | _ => repr v
  end.

End Py.

Local Open Scope list_scope.

(** ** The form, the network and the widgets *)

(** The options of the "Preferred Video Quality" select box. *)
Inductive quality : Type := medium | small | tiny | large.

Definition quality_tag (q : quality) : string :=
  match q with
  | medium => "medium"
  | small => "small"
  | tiny => "tiny"
  | large => "large"
  end.

(** What the form holds when the button is clicked (lines 61-73). *)
Record criteria : Type := {
  search_keyword : string;
  min_duration : Z;
  max_duration : Z;
  video_quality : quality;
  num_videos_to_download : Z
}.

(** The widgets' own bounds: both number inputs have [min_value=1] and the
    slider ranges over 1..20. *)
Definition form_ok (c : criteria) : Prop :=
  1 <= min_duration c /\ 1 <= max_duration c /\
  1 <= num_videos_to_download c <= 20.

Definition content : Type := list Byte.byte.

(** The network as the run sees it.
    - [search_api q page] is lines 111-113 for the keyword [q] and the page
      [page]: the decoded body, or the exception raised by [requests.get],
      [raise_for_status] or [response.json()].
    - [video_host i url] is lines 162-177 for the [i]-th selected video and
      its URL: the whole streamed content, or the exception raised by the
      request, the status check, the content-length header or a chunk of the
      stream (the per-chunk progress display included). *)
Record world : Type := {
  search_api : string -> nat -> py json;
  video_host : nat -> string -> py content
}.

(** Texts shown in the status placeholder. *)
Inductive message : Type :=
| ErrDurations                 (* Minimum duration must be less than maximum duration. *)
| InfoStarting                 (* Starting video search and download process... *)
| ErrSearchRequest (e : exn)   (* Error fetching from Pixabay API: {e}. ... *)
| ErrSearchUnexpected (e : exn)(* An unexpected error occurred during search: {e} *)
| WarnNoVideos                 (* No videos found matching your criteria. *)
| InfoFound (n : nat)          (* Found {n} videos matching criteria. Starting download... *)
| ErrDownloadRequest (filename : string) (e : exn)
                               (* Error downloading {filename}: {e} *)
| ErrDownloadUnexpected (filename : string) (e : exn)
                               (* An unexpected error occurred during download of ... *)
| SuccessDownloaded (n : nat)  (* Successfully downloaded {n} videos! *)
| WarnNoneDownloaded.          (* No videos were successfully downloaded. *)

Inductive level : Type := LError | LWarning | LInfo | LSuccess.

Definition level_of (m : message) : level :=
  match m with
  | ErrDurations | ErrSearchRequest _ | ErrSearchUnexpected _
  | ErrDownloadRequest _ _ | ErrDownloadUnexpected _ _ => LError
  | WarnNoVideos | WarnNoneDownloaded => LWarning
  | InfoStarting | InfoFound _ => LInfo
  | SuccessDownloaded _ => LSuccess
  end.

(** What the run does that can be seen from outside, in order. *)
Inductive event : Type :=
| SearchRequest (q : string) (page : nat)   (* requests.get(PIXABAY_API_URL, params) *)
| DownloadRequest (i : nat) (download_url : json)
                                            (* requests.get(download_url, stream=True) *)
| Status (m : message)                      (* status_message.error / warning / info / ... *)
| DownloadButton (data : list (string * content))
                                            (* st.download_button(data=zip_buffer.getvalue()) *)
| Line (text : string).                     (* st.write(text) *)

Record state : Type := {
  trace : list event;
  downloaded_files : list string;          (* st.session_state.downloaded_files *)
  zip_file : list (string * content)       (* entries written to zip_file, in order *)
}.

Definition log (e : event) (st : state) : state :=
  {| trace := trace st ++ [e];
     downloaded_files := downloaded_files st;
     zip_file := zip_file st |}.

(** line 90 *)
Definition reset_downloaded_files (st : state) : state :=
  {| trace := trace st; downloaded_files := []; zip_file := zip_file st |}.

(** The name under which the archive files an entry: [zipfile] keeps of
    the name it is given what comes before the first NUL character.  (The
    script runs on a POSIX host, where no path separator is rewritten.) *)
Fixpoint arcname (filename : string) : string :=
  match filename with
  | EmptyString => EmptyString
  | String ch rest =>
      if Ascii.eqb ch Ascii.zero then EmptyString else String ch (arcname rest)
  end.

(** The length in bytes of a name in the archive: the name is written in
    ASCII, or in UTF-8 when it has a character above U+007F, which takes
    two bytes. *)
Fixpoint encoded_length (name : string) : N :=
  match name with
  | EmptyString => 0%N
  | String ch rest => ((if (N_of_ascii ch <? 128)%N then 1 else 2) + encoded_length rest)%N
  end.

(** What [zip_file.writestr(filename, data)] adds to the archive.  The
    header of an entry holds the length of its name in 16 bits: for a longer
    name packing the header raises [struct.error], before anything is
    written, and the archive stays as it was and usable.  (Every name here
    has an encoding, and a second entry of the same name is written like
    any other.) *)
Definition zip_entry (filename : string) (data : content) : py (string * content) :=
  let name := arcname filename in
  if (65535 <? encoded_length name)%N
  then raise (OtherException "ushort format requires 0 <= number <= 65535")
  else ret (name, data).

(** line 180 *)
Definition writestr (filename : string) (data : content) (st : state) : py state :=
  entry <- zip_entry filename data ;;
  ret {| trace := trace st;
         downloaded_files := downloaded_files st;
         zip_file := zip_file st ++ [entry] |}.

(** line 181 *)
Definition append_downloaded (filename : string) (st : state) : state :=
  {| trace := trace st;
     downloaded_files := downloaded_files st ++ [filename];
     zip_file := zip_file st |}.

(** ** The run (lines 83-208) *)

Section Run.

Variable c : criteria.
Variable w : world.

Definition enough (eligible_videos : list json) : bool :=
  num_videos_to_download c <=? Z.of_nat (List.length eligible_videos).

(** line 123: [duration is not None and min_duration <= duration <= max_duration] *)
Definition duration_in_range (duration : json) : py bool :=
  match duration with
  | JNull => ret false
  | _ =>
      above <- Py.int_le (min_duration c) duration ;;
      if above then Py.le_int duration (max_duration c) else ret false
  end.

(** lines 122-125: the two tests a hit goes through before it is appended *)
Definition keeps (video : json) : py bool :=
  duration <- Py.get video "duration" ;;
  in_range <- duration_in_range duration ;;
  if in_range then
    videos <- Py.getitem video "videos" ;;
    rendition <- Py.get videos (quality_tag (video_quality c)) ;;
    ret (Py.truthy rendition)
  else ret false.

(** lines 121-128: the loop over one page's hits, with its [break] *)
Fixpoint filter_loop (hits eligible_videos : list json) : py (list json) :=
  match hits with
  | [] => ret eligible_videos
  | video :: hits' =>
      keep <- keeps video ;;
      if keep then
        let eligible_videos := eligible_videos ++ [video] in
        if enough eligible_videos then ret eligible_videos
        else filter_loop hits' eligible_videos
      else filter_loop hits' eligible_videos
  end.

(** lines 111-128, the body of the [try]: the flag tells whether the page
    loop is left by the [break] of line 118 *)
Definition search_page (page : nat) (eligible_videos : list json)
  : py (bool * list json) :=
  data <- search_api w (search_keyword c) page ;;
  counted <- Py.get_default data "hits" (JList []) ;;
  _ <- Py.len counted ;;
  hits <- Py.get data "hits" ;;
  if negb (Py.truthy hits) then ret (true, eligible_videos)
  else
    hits <- Py.getitem data "hits" ;;
    items <- Py.iter hits ;;
    eligible_videos <- filter_loop items eligible_videos ;;
    ret (false, eligible_videos).

Definition search_error (e : exn) : message :=
  if is_request_exception e then ErrSearchRequest e else ErrSearchUnexpected e.

(** lines 108-138: the loop over the pages; [inl e] is the [st.stop()] of
    the two handlers *)
Fixpoint page_loop (pages : list nat) (eligible_videos : list json) (st : state)
  : py (list json) * state :=
  match pages with
  | [] => (ret eligible_videos, st)
  | page :: pages' =>
      let st := log (SearchRequest (search_keyword c) page) st in
      match search_page page eligible_videos with
      | inl e => (raise e, log (Status (search_error e)) st)
      | inr (true, eligible_videos) => (ret eligible_videos, st)
      | inr (false, eligible_videos) =>
          if enough eligible_videos then (ret eligible_videos, st)
          else page_loop pages' eligible_videos st
      end
  end.

Definition total_pages_to_check : nat := 2.

(** line 156 *)
Definition download_url (video : json) : py json :=
  videos <- Py.getitem video "videos" ;;
  rendition <- Py.getitem videos (quality_tag (video_quality c)) ;;
  Py.getitem rendition "url".

(** line 157 *)
Definition video_id (i : nat) (video : json) : py json :=
  Py.get_default video "id" (JStr ("unknown_id_" ++ Py.str_of_nat i)%string).

(** line 159 *)
Definition filename_of (id : json) : string :=
  ("pixabay_video_" ++ Py.str id ++ ".mp4")%string.

(** lines 162-177.  [requests] turns the URL into a string and refuses one
    without a scheme before anything is sent; the empty string is such a
    URL.  Every other URL is the network's to answer. *)
Definition fetch (i : nat) (download_url : json) : py content :=
  let url := Py.str download_url in
  if String.eqb url ""
  then raise (RequestException "Invalid URL '': No scheme supplied. Perhaps you meant https://?")
  else video_host w i url.

Definition download_error (filename : string) (e : exn) : message :=
  if is_request_exception e then ErrDownloadRequest filename e
  else ErrDownloadUnexpected filename e.

(** line 153 *)
Definition enough_downloaded (st : state) : bool :=
  num_videos_to_download c <=? Z.of_nat (List.length (downloaded_files st)).

(** lines 162-181, the body of the [try]: the fetch, the write into the
    archive and the note of the file name, in that order *)
Definition download (i : nat) (url : json) (filename : string) (st : state) : py state :=
  data <- fetch i url ;;
  st <- writestr filename data st ;;
  ret (append_downloaded filename st).

(** lines 152-188: the loop over the selected videos; [inl e] is an
    exception that no handler catches (lines 156-159 are outside the [try]) *)
Fixpoint download_loop (i : nat) (videos : list json) (st : state)
  : py unit * state :=
  match videos with
  | [] => (ret tt, st)
  | video :: videos' =>
      if enough_downloaded st then (ret tt, st)
      else
        match (url <- download_url video ;; id <- video_id i video ;; ret (url, id)) with
        | inl e => (raise e, st)
        | inr (url, id) =>
            let filename := filename_of id in
            let st := log (DownloadRequest i url) st in
            match download i url filename st with
            | inr st => download_loop (S i) videos' st
            | inl e => download_loop (S i) videos' (log (Status (download_error filename e)) st)
            end
        end
  end.

(** How a run ends. *)
Inductive outcome : Type :=
| InvalidInput            (* st.stop() of line 87 *)
| SearchFailed (e : exn)  (* st.stop() of line 132 or 135 *)
| NoVideosFound           (* st.stop() of line 143 *)
| Uncaught (e : exn)      (* an exception leaves the script *)
| Finished.               (* the script reaches its last line *)

(** The session before the click: [files] is what an earlier run left in
    [st.session_state.downloaded_files]. *)
Definition session (files : list string) : state :=
  {| trace := []; downloaded_files := files; zip_file := [] |}.

(** lines 205-206 *)
Definition list_names (filenames : list string) (st : state) : state :=
  fold_left (fun st filename => log (Line ("- " ++ filename)%string) st) filenames st.

(** lines 193-208 *)
Definition summary (st : state) : state :=
  match downloaded_files st with
  | [] => log (Status WarnNoneDownloaded) st
  | _ :: _ =>
      let st := log (DownloadButton (zip_file st)) st in
      let st := log (Line "---") st in
      let st := log (Line "You can also view individual video details below:") st in
      list_names (downloaded_files st) st
  end.

(** lines 89-92 *)
Definition started (files : list string) : state :=
  log (Status InfoStarting) (reset_downloaded_files (session files)).

(** lines 103-138 *)
Definition search (st : state) : py (list json) * state :=
  page_loop (seq 1 total_pages_to_check) [] st.

(** lines 85-208 *)
Definition run (files : list string) : outcome * state :=
  if max_duration c <=? min_duration c
  then (InvalidInput, log (Status ErrDurations) (session files))
  else
    match search (started files) with
    | (inl e, st) => (SearchFailed e, st)
    | (inr [], st) => (NoVideosFound, log (Status WarnNoVideos) st)
    | (inr eligible_videos, st) =>
        let st := log (Status (InfoFound (List.length eligible_videos))) st in
        match download_loop 0 eligible_videos st with
        | (inl e, st) => (Uncaught e, st)
        | (inr _, st) =>
            let st := log (Status (SuccessDownloaded (List.length (downloaded_files st)))) st in
            (Finished, summary st)
        end
    end.

(** ** What the properties speak about *)

(** The hit passes both tests of the filter (and neither raises). *)
Definition kept (video : json) : bool :=
  match keeps video with
  | inr true => true
  | _ => false
  end.

(** The hit records of a page, in the order line 121 goes through them
    (none when the page cannot be fetched or has no iterable [hits]). *)
Definition page_items (page : nat) : list json :=
  match (data <- search_api w (search_keyword c) page ;;
         hits <- Py.getitem data "hits" ;;
         Py.iter hits) with
  | inr items => items
  | inl _ => []
  end.

(** [enumerate(videos)], counting from [i] *)
Definition enumerate_from (i : nat) (videos : list json) : list (nat * json) :=
  combine (seq i (List.length videos)) videos.

(** What lines 156-180 come to for the [i]-th selected video: the URL, the
    file name and what the [try] gives, the entry written to the archive or
    the exception of the fetch or of the write, unless line 156 or 157
    raises. *)
Definition attempt (iv : nat * json) : py (json * string * py (string * content)) :=
  url <- download_url (snd iv) ;;
  id <- video_id (fst iv) (snd iv) ;;
  ret (url, filename_of id,
       (data <- fetch (fst iv) url ;; zip_entry (filename_of id) data)).

(** The Fetcher succeeded for the video: lines 162-177 gave its content. *)
Definition fetched (iv : nat * json) : bool :=
  match download_url (snd iv) with
  | inr url => match fetch (fst iv) url with
               | inr _ => true
               | inl _ => false
               end
  | inl _ => false
  end.

(** The video was fetched and written to the archive: the body of the
    [try] went through. *)
Definition archived (iv : nat * json) : bool :=
  match attempt iv with
  | inr (_, _, inr _) => true
  | _ => false
  end.

(** The file name lines 157-159 give to the video (a hit that is not a
    dict has no [get] and no name). *)
Definition name_of (iv : nat * json) : string :=
  match video_id (fst iv) (snd iv) with
  | inr id => filename_of id
  | inl _ => ""
  end.

(** The identifier the hit record carries, if it does. *)
Definition identifier (video : json) : option json :=
  match video with
  | JDict d => Py.lookup d "id"
  | _ => None
  end.

(** The archive entries that a list of videos leaves, in order. *)
Definition entries (ivs : list (nat * json)) : list (string * content) :=
  flat_map (fun iv => match attempt iv with
                      | inr (_, _, inr entry) => [entry]
                      | _ => []
                      end) ivs.

(** The file names that a list of videos leaves in the session, in order. *)
Definition noted (ivs : list (nat * json)) : list string :=
  map name_of (filter archived ivs).

(** What lines 196-206 show: the offer of the archive, a rule, a caption
    and one line for each file name. *)
Definition offer (data : list (string * content)) (filenames : list string) : list event :=
  DownloadButton data :: Line "---"
  :: Line "You can also view individual video details below:"
  :: map (fun filename => Line ("- " ++ filename)%string) filenames.

(** The events that a list of videos leaves, in order. *)
Definition attempt_events (ivs : list (nat * json)) : list event :=
  flat_map (fun iv => match attempt iv with
                      | inr (url, filename, inr _) => [DownloadRequest (fst iv) url]
                      | inr (url, filename, inl e) =>
                          [DownloadRequest (fst iv) url; Status (download_error filename e)]
                      | inl _ => []
                      end) ivs.

End Run.

(** The number lies within the two bounds: [lo <= n <= hi] for an int,
    [lo <= m * 2^e <= hi] for a finite float (both sides multiplied by the
    power of two that clears a negative exponent), and never for an
    infinity or NaN. *)
Definition between (lo hi : Z) (n : Py.number) : Prop :=
  match n with
  | Py.Int n => lo <= n <= hi
  | Py.Float (Finite m e) =>
      lo * 2 ^ Z.max 0 (- e) <= m * 2 ^ Z.max 0 e <= hi * 2 ^ Z.max 0 (- e)
  | Py.Float _ => False
  end.

(** Readings of a trace. *)

Definition is_request (ev : event) : bool :=
  match ev with
  | SearchRequest _ _ | DownloadRequest _ _ => true
  | _ => false
  end.

Definition is_download_request (ev : event) : bool :=
  match ev with
  | DownloadRequest _ _ => true
  | _ => false
  end.

Definition is_download_button (ev : event) : bool :=
  match ev with
  | DownloadButton _ => true
  | _ => false
  end.

Definition is_search_event (ev : event) : bool :=
  match ev with
  | SearchRequest _ _ | Status _ => true
  | _ => false
  end.

Definition search_requests (tr : list event) : list nat :=
  flat_map (fun ev => match ev with SearchRequest _ page => [page] | _ => [] end) tr.

Definition download_requests (tr : list event) : list (nat * json) :=
  flat_map (fun ev => match ev with DownloadRequest i url => [(i, url)] | _ => [] end) tr.

(** No network call is made. *)
Definition no_request (tr : list event) : Prop :=
  forallb (fun ev => negb (is_request ev)) tr = true.

(** No video is fetched. *)
Definition no_download (tr : list event) : Prop :=
  forallb (fun ev => negb (is_download_request ev)) tr = true.

(** No archive is offered for download. *)
Definition no_archive (tr : list event) : Prop :=
  forallb (fun ev => negb (is_download_button ev)) tr = true.

(** The last thing shown is a warning. *)
Definition ends_with_warning (tr : list event) : Prop :=
  exists tr' m, tr = tr' ++ [Status m] /\ level_of m = LWarning.

Definition is_download_event (ev : event) : bool :=
  match ev with
  | DownloadRequest _ _ | Status _ => true
  | _ => false
  end.

(** ** Sample data

    Records shaped like the search API's: every hit carries an identifier,
    a duration and the four renditions; a rendition that the API does not
    have for a video is reported with an empty URL and zero sizes. *)

Module Sample.

Definition video_url (id : Z) (tag : string) : string :=
  ("https://cdn.pixabay.com/video/" ++ Py.str_of_Z id ++ "_" ++ tag ++ ".mp4")%string.

Definition rendition (id : Z) (tag : string) : json :=
  JDict [("url", JStr (video_url id tag)); ("width", JNum 1280);
         ("height", JNum 720); ("size", JNum 4096)].

Definition unavailable : json :=
  JDict [("url", JStr ""); ("width", JNum 0); ("height", JNum 0); ("size", JNum 0)].

Definition hit_with (id duration : Z) (large_rendition : json) : json :=
  JDict [("id", JNum id); ("duration", JNum duration);
         ("videos", JDict [("large", large_rendition);
                           ("medium", rendition id "medium");
                           ("small", rendition id "small");
                           ("tiny", rendition id "tiny")])].

Definition hit (id duration : Z) : json := hit_with id duration (rendition id "large").

(** a hit without a large rendition *)
Definition hit_no_large (id duration : Z) : json := hit_with id duration unavailable.

(** a record without the [videos] mapping *)
Definition hit_no_videos (id duration : Z) : json :=
  JDict [("id", JNum id); ("duration", JNum duration)].

Definition body (hits : list json) : json :=
  JDict [("total", JNum 1000); ("totalHits", JNum 500); ("hits", JList hits)].

Definition nature (q : quality) (count : Z) : criteria :=
  {| search_keyword := "nature"; min_duration := 10; max_duration := 30;
     video_quality := q; num_videos_to_download := count |}.

Definition mp4 : content := [Byte.x00; Byte.x00; Byte.x00; Byte.x18].

Definition host_ok : nat -> string -> py content := fun _ _ => inr mp4.

(** the host fails on the [k]-th selected video *)
Definition host_failing (k : nat) : nat -> string -> py content :=
  fun i _ => if (i =? k)%nat then inl (RequestException "Connection aborted.") else inr mp4.

(** the host is down *)
Definition host_down : nat -> string -> py content :=
  fun _ _ => inl (RequestException "Connection refused.").

(** a network where the search has the two given pages (and no hits after
    them) *)
Definition net (page1 page2 : py json) (host : nat -> string -> py content) : world :=
  {| search_api := fun _ page =>
       match page with
       | 1%nat => page1
       | 2%nat => page2
       | _ => inr (body [])
       end;
     video_host := host |}.

(** eight hits, five of them lasting 10 to 30 seconds *)
Definition eight_hits : list json :=
  [hit 101 12; hit 102 45; hit 103 20; hit 104 8;
   hit 105 15; hit 106 30; hit 107 10; hit 108 60].

(** the eight hits on the first page, nothing on the second *)
Definition one_page (host : nat -> string -> py content) : world :=
  net (inr (body eight_hits)) (inr (body [])) host.

(** the five of the eight hits that last 10 to 30 seconds *)
Definition five_hits : list json :=
  [hit 101 12; hit 103 20; hit 105 15; hit 106 30; hit 107 10].

(** one hit on the first page; the second page answers HTTP 500 *)
Definition second_page_down : world :=
  net (inr (body [hit 101 12]))
      (inl (RequestException "500 Server Error: Internal Server Error"))
      host_ok.

(** no hit lasts 10 to 30 seconds *)
Definition nothing_in_range : world :=
  net (inr (body [hit 102 45; hit 104 8; hit 108 60])) (inr (body [])) host_ok.

(** the only hit has no large rendition *)
Definition no_large_rendition : world :=
  net (inr (body [hit_no_large 31377 12])) (inr (body [])) host_ok.

(** the second page lists the video of the first page again *)
Definition listed_twice : world :=
  net (inr (body [hit 101 12])) (inr (body [hit 101 12])) host_ok.

(** a record without [videos] between two well-formed hits *)
Definition malformed_second : world :=
  net (inr (body [hit 101 12; hit_no_videos 109 20; hit 103 20])) (inr (body [])) host_ok.

End Sample.

(** ** Statements the code does not meet as they are worded *)



(** "The names of the archive's entries are, in order, the file names of
    the selected videos whose download succeeded." *)
Definition entry_names_those_fetched : Prop :=
  forall (c : criteria) (w : world) (files : list string) (eligible : list json)
         (st1 : state),
    form_ok c ->
    search c w (started files) = (inr eligible, st1) ->
    fst (run c w files) = Finished ->
    map fst (zip_file (snd (run c w files)))
    = map name_of (filter (fetched c w) (enumerate_from 0 eligible)).

(** "Every file name is unique within a run." *)
Definition names_always_unique : Prop :=
  forall (c : criteria) (w : world) (files : list string),
    form_ok c ->
    NoDup (map fst (zip_file (snd (run c w files)))).

(** "If any record of a fetched page has its duration in the range and no
    [videos] mapping, the run ends in the search's exception handler." *)
Definition any_record_without_videos_is_fatal : Prop :=
  forall (c : criteria) (w : world) (files : list string) (page : nat)
         (d : list (string * json)) (duration : json),
    form_ok c ->
    min_duration c < max_duration c ->
    In page (search_requests (trace (snd (run c w files)))) ->
    In (JDict d) (page_items c w page) ->
    Py.lookup d "duration" = Some duration ->
    duration_in_range c duration = inr true ->
    Py.lookup d "videos" = None ->
    exists e, fst (run c w files) = SearchFailed e.

(** ** The script around the run (lines 18-83)

    Streamlit runs the whole script again on every interaction, with the
    session's state and the widgets' values as they are then.  A script
    run takes the stored session, the secrets of the deployment and the
    widgets' values; it ends in one of the ways of [script_end], leaves a
    session and has shown a list of things. *)

(** [st.session_state] when a script run starts: a key is absent until a
    run has set it. *)
Record session_state : Type := {
  stored_downloaded_files : option (list string);
  stored_authenticated : option bool
}.

(** The session once lines 19-22 have run. *)
Record app_session : Type := {
  files : list string;        (* st.session_state.downloaded_files *)
  authenticated : bool        (* st.session_state.authenticated *)
}.

(** lines 19-22 *)
Definition init_session (stored : session_state) : app_session :=
  {| files := match stored_downloaded_files stored with
              | Some l => l
              | None => []
              end;
     authenticated := match stored_authenticated stored with
                      | Some b => b
                      | None => false
                      end |}.

(** what the next script run of the session finds *)
Definition store (ss : app_session) : session_state :=
  {| stored_downloaded_files := Some (files ss);
     stored_authenticated := Some (authenticated ss) |}.

(** The names under which lines 27 and 53 look the two secrets up. *)
Definition access_key_name : string := "uchennA4326".
Definition api_key_name : string := "24264058-740cd5f093abc58aab8f8ddb4".

(** [st.secrets[name]]: the secrets are a mapping from names to values. *)
Definition secret (secrets : list (string * json)) (name : string) : py json :=
  Py.getitem (JDict secrets) name.

(** [s == v] for a string [s]: a string equals strings only. *)
Definition str_equals (s : string) (v : json) : bool :=
  match v with
  | JStr s' => String.eqb s s'
  | _ => false
  end.

(** The values of the widgets in a script run. *)
Record widgets : Type := {
  user_key_input : string;            (* line 31 *)
  login_clicked : bool;               (* line 36 *)
  form : criteria;                    (* lines 61-73 *)
  download_button_clicked : bool      (* line 75 *)
}.

(** Texts of the sidebar. *)
Inductive notice : Type :=
| LoggedIn            (* Logged in successfully! *)
| InvalidAccessKey    (* Invalid access key. Please try again. *)
| ApiKeyLoaded        (* Pixabay API Key loaded! *)
| ApiKeyMissing.      (* Pixabay API Key not found in Streamlit secrets. ... *)

Inductive shown : Type :=
| Sidebar (n : notice)
| Main (ev : event).   (* what the body of the click does *)

Inductive script_end : Type :=
| Raised (e : exn)     (* an exception leaves the script before the click is looked at *)
| Rerun                (* st.rerun() of line 40 *)
| Stopped              (* st.stop() of line 43 or 57 *)
| Idle                 (* the button was not clicked *)
| Ran (o : outcome).   (* the body of the click ran *)

Section Script.

Variable secrets : list (string * json).

(** The network reached with a given API key. *)
Variable net : json -> world.

(** lines 18-208 *)
Definition script (stored : session_state) (wd : widgets)
  : script_end * app_session * list shown :=
  let ss := init_session stored in
  match secret secrets access_key_name with
  | inl e => (Raised e, ss, [])
  | inr VALID_USER_KEY =>
      if negb (authenticated ss) then
        if login_clicked wd then
          if str_equals (user_key_input wd) VALID_USER_KEY
          then (Rerun, {| files := files ss; authenticated := true |}, [Sidebar LoggedIn])
          else (Stopped, ss, [Sidebar InvalidAccessKey])
        else (Stopped, ss, [])
      else
        match secret secrets api_key_name with
        | inl (KeyError _) => (Stopped, ss, [Sidebar ApiKeyMissing])
        | inl e => (Raised e, ss, [])
        | inr current_api_key =>
            if download_button_clicked wd then
              let r := run (form wd) (net current_api_key) (files ss) in
              (Ran (fst r),
               {| files := downloaded_files (snd r); authenticated := authenticated ss |},
               Sidebar ApiKeyLoaded :: map Main (trace (snd r)))
            else (Idle, ss, [Sidebar ApiKeyLoaded])
        end
  end.

End Script.

(** The login holds: the session is not yet authenticated, the button is
    clicked and the text typed is the string stored as the access key. *)
Definition login_succeeds (secrets : list (string * json)) (stored : session_state)
           (wd : widgets) : Prop :=
  stored_authenticated stored <> Some true /\
  login_clicked wd = true /\
  Py.lookup secrets access_key_name = Some (JStr (user_key_input wd)).

(** The value is a dict. *)
Definition is_dict (v : json) : bool :=
  match v with
  | JDict _ => true
  | _ => false
  end.

(** The integer identifiers that a list of hits carries, in order. *)
Definition integer_ids (videos : list json) : list Z :=
  flat_map (fun video => match identifier video with
                         | Some (JNum n) => [n]
                         | _ => []
                         end) videos.

(** The shape of a hit's identifier that the names can tell apart: the
    hit is a dict with an integer identifier or with none. *)
Definition plain_id (video : json) : Prop :=
  is_dict video = true /\
  (identifier video = None \/ exists n, identifier video = Some (JNum n)).

(** More sample data. *)

Module Scenario.

Definition secrets : list (string * json) :=
  [(access_key_name, JStr "open sesame"); (api_key_name, JStr "0123-abcdef")].

Definition new_session : session_state :=
  {| stored_downloaded_files := None; stored_authenticated := None |}.

Definition typing (key : string) (login : bool) (count : Z) (download : bool) : widgets :=
  {| user_key_input := key; login_clicked := login;
     form := Sample.nature medium count; download_button_clicked := download |}.

(** the second of two hits carries no identifier *)
Definition hit_no_id (duration : Z) : json :=
  JDict [("duration", JNum duration);
         ("videos", JDict [("medium", Sample.rendition 0 "medium")])].

(** a medium rendition that has sizes and no URL *)
Definition hit_no_url (id duration : Z) : json :=
  JDict [("id", JNum id); ("duration", JNum duration);
         ("videos", JDict [("medium", JDict [("width", JNum 1280); ("height", JNum 720)])])].

(** a hit whose identifier is a text *)
Definition hit_text_id (id : string) (duration : Z) : json :=
  JDict [("id", JStr id); ("duration", JNum duration);
         ("videos", JDict [("medium", Sample.rendition 0 "medium")])].

(** an identifier of 65536 characters *)
Definition long_id : string := N.iter 65536 (String "a"%char) ""%string.

(** an identifier with a NUL character in it *)
Definition nul_id : string := ("7" ++ String Ascii.zero "8")%string.

(** a hit that lasts 15.5 seconds *)
Definition hit_float_duration (id : Z) : json :=
  JDict [("id", JNum id); ("duration", JFloat (Finite 31 (-1)) "15.5");
         ("videos", JDict [("medium", Sample.rendition id "medium")])].

(** a record whose duration is a string *)
Definition hit_text_duration (id : Z) : json :=
  JDict [("id", JNum id); ("duration", JStr "12");
         ("videos", JDict [("medium", Sample.rendition id "medium")])].

(** three pages of hits; only the first two are ever asked for *)
Definition three_pages (third : py json) : world :=
  {| search_api := fun _ page =>
       match page with
       | 1%nat => inr (Sample.body [Sample.hit 101 12])
       | 2%nat => inr (Sample.body [Sample.hit 102 45; Sample.hit 103 20])
       | _ => third
       end;
     video_host := Sample.host_ok |}.

(** a page with the given record between two well-formed hits *)
Definition with_record (record : json) : world :=
  Sample.net (inr (Sample.body [Sample.hit 101 12; record; Sample.hit 103 20]))
             (inr (Sample.body [])) Sample.host_ok.

(** a body that reports an error and has no [hits] *)
Definition no_hits_key : world :=
  Sample.net (inr (JDict [("error", JStr "API rate limit exceeded")]))
             (inr (Sample.body [])) Sample.host_ok.

(** two of three hits carry no identifier *)
Definition two_without_id : world :=
  Sample.net (inr (Sample.body [Sample.hit 101 12; hit_no_id 15; hit_no_id 20]))
             (inr (Sample.body [])) Sample.host_ok.

(** the only hit has a name too long for the archive *)
Definition long_named : world :=
  Sample.net (inr (Sample.body [hit_text_id long_id 12])) (inr (Sample.body []))
             Sample.host_ok.

(** a hit after whose NUL the name is cut, a hit with a name too long for
    the archive, and a well-formed hit *)
Definition odd_named : world :=
  Sample.net (inr (Sample.body [hit_text_id nul_id 12; hit_text_id long_id 15;
                                Sample.hit 103 20]))
             (inr (Sample.body [])) Sample.host_ok.


Definition logged_in (l : list string) : session_state :=
  store {| files := l; authenticated := true |}.

End Scenario.

(** ** The filter loop *)

Section Filter.

Variable c : criteria.
Variable w : world.

Lemma enough_app_length (acc more : list json) :
  enough c (acc ++ more) = (num_videos_to_download c <=? Z.of_nat (List.length acc + List.length more)).
Proof. unfold enough. now rewrite length_app. Qed.

Lemma kept_true (video : json) : kept c video = true <-> keeps c video = inr true.
Proof.
  unfold kept. destruct (keeps c video) as [e | [ | ]]; split; congruence.
Qed.

(** A hit that is kept is a dict whose duration passes the test of line
    123 and which has a true-valued entry under the quality tag. *)
Lemma kept_inv (video : json) :
  kept c video = true ->
  exists d duration videos rendition,
    video = JDict d /\
    Py.lookup d "duration" = Some duration /\
    duration_in_range c duration = inr true /\
    Py.lookup d "videos" = Some (JDict videos) /\
    Py.lookup videos (quality_tag (video_quality c)) = Some rendition /\
    Py.truthy rendition = true.
Proof.
  rewrite kept_true. unfold keeps, Py.get, Py.get_default.
  destruct video as [ | | | | | | d]; try discriminate. cbn [bind ret].
  destruct (Py.lookup d "duration") as [duration | ] eqn:Hd; [ | discriminate].
  destruct (duration_in_range c duration) as [e | [ | ]] eqn:Hrange; cbn [bind];
    try discriminate.
  unfold Py.getitem.
  destruct (Py.lookup d "videos") as [vs | ] eqn:Hv; [ | discriminate]. cbn [bind ret].
  destruct vs as [ | | | | | | videos]; try discriminate. cbn [bind ret].
  destruct (Py.lookup videos (quality_tag (video_quality c))) as [r | ] eqn:Hr;
    [ | discriminate].
  intros [= Ht]. exists d, duration, videos, r. repeat split; assumption.
Qed.

(** The loop returns the list it was given followed by the kept hits of a
    prefix of the page; it went through the whole page unless it stopped
    with enough videos. *)
Lemma filter_loop_prefix (hits acc res : list json) :
  filter_loop c hits acc = inr res ->
  exists k, (k <= List.length hits)%nat /\
            res = acc ++ filter (kept c) (firstn k hits) /\
            (enough c res = false -> k = List.length hits).
Proof.
  revert acc. induction hits as [ | video hits IH]; intros acc H; cbn in H.
  - injection H as <-. exists 0%nat. cbn. rewrite app_nil_r. auto.
  - destruct (keeps c video) as [e | keep] eqn:Hk; [discriminate | ]. cbn [bind] in H.
    destruct keep.
    + assert (Hkept : kept c video = true) by now apply kept_true.
      destruct (enough c (acc ++ [video])) eqn:He.
      * injection H as <-. exists 1%nat. cbn. rewrite Hkept.
        repeat split; [lia | congruence].
      * destruct (IH _ H) as (k & Hle & -> & Hall).
        rewrite <- app_assoc in Hall. cbn in Hall.
        exists (S k). cbn. rewrite Hkept, <- app_assoc. cbn.
        repeat split; [lia | ]. intros Hn. now rewrite (Hall Hn).
    + assert (Hkept : kept c video = false) by (unfold kept; now rewrite Hk).
      destruct (IH _ H) as (k & Hle & -> & Hall).
      exists (S k). cbn. rewrite Hkept.
      repeat split; [lia | ]. intros Hn. now rewrite (Hall Hn).
Qed.

(** The loop never goes past the requested number. *)
Lemma filter_loop_length (hits acc res : list json) :
  Z.of_nat (List.length acc) < num_videos_to_download c ->
  filter_loop c hits acc = inr res ->
  Z.of_nat (List.length res) <= num_videos_to_download c.
Proof.
  revert acc. induction hits as [ | video hits IH]; intros acc Hacc H; cbn in H.
  - injection H as <-. lia.
  - destruct (keeps c video) as [e | keep]; [discriminate | ]. cbn [bind] in H.
    destruct keep; [ | now apply (IH acc)].
    destruct (enough c (acc ++ [video])) eqn:He.
    + injection H as <-. rewrite length_app. cbn. lia.
    + apply (IH (acc ++ [video])); [ | assumption].
      unfold enough in He. apply Z.leb_gt in He. assumption.
Qed.

(** While fewer than the requested number of hits are kept, the loop goes
    on: it reaches a record that raises, and raises (that record's
    exception, when no record before it raises). *)
Lemma filter_loop_raises (pre post acc : list json) (bad : json) (e : exn) :
  keeps c bad = inl e ->
  Z.of_nat (List.length acc + List.length (filter (kept c) pre)) < num_videos_to_download c ->
  exists e', filter_loop c (pre ++ bad :: post) acc = inl e' /\
             ((forall video, In video pre -> exists b, keeps c video = inr b) -> e' = e).
Proof.
  intros Hbad. revert acc. induction pre as [ | video pre IH]; intros acc Hlt; cbn.
  - rewrite Hbad. now exists e.
  - destruct (keeps c video) as [e1 | keep] eqn:Hk.
    { exists e1. split; [reflexivity | ]. intros Hclean.
      destruct (Hclean video (or_introl eq_refl)) as [b Hb]. congruence. }
    cbn [bind]. cbn [filter] in Hlt. unfold kept in Hlt at 1. rewrite Hk in Hlt.
    assert (Hstep : forall acc',
               Z.of_nat (List.length acc' + List.length (filter (kept c) pre))
               < num_videos_to_download c ->
               exists e', filter_loop c (pre ++ bad :: post) acc' = inl e' /\
                 ((forall v, In v (video :: pre) -> exists b, keeps c v = inr b) -> e' = e)).
    { intros acc' Hacc'. destruct (IH acc' Hacc') as (e' & He' & Hclean).
      exists e'. split; [exact He' | ]. intros Hall. apply Hclean.
      intros v Hv. apply Hall. now right. }
    destruct keep.
    + replace (enough c (acc ++ [video])) with false.
      * apply Hstep. rewrite length_app. cbn in *. lia.
      * symmetry. rewrite enough_app_length. apply Z.leb_gt. cbn in *. lia.
    + now apply Hstep.
Qed.

End Filter.

(** ** The page loop *)

Section Search.

Variable c : criteria.
Variable w : world.

Lemma search_requests_app (tr1 tr2 : list event) :
  search_requests (tr1 ++ tr2) = search_requests tr1 ++ search_requests tr2.
Proof. apply flat_map_app. Qed.

Lemma search_requests_log (ev : event) (st : state) :
  search_requests (trace (log ev st))
  = search_requests (trace st) ++ search_requests [ev].
Proof. cbn [log trace]. apply search_requests_app. Qed.

(** A page either ends the paging at line 118 and leaves the list as it
    was, or hands its hits to the filter loop. *)
Lemma search_page_inv (page : nat) (acc res : list json) (stop : bool) :
  search_page c w page acc = inr (stop, res) ->
  (stop = true /\ res = acc) \/
  (stop = false /\ filter_loop c (page_items c w page) acc = inr res).
Proof.
  unfold search_page, page_items.
  destruct (search_api w (search_keyword c) page) as [e | data]; [discriminate | ].
  cbn [bind].
  destruct data as [ | | | | | | d]; try discriminate.
  unfold Py.get, Py.get_default, Py.getitem. cbn [bind ret].
  destruct (Py.lookup d "hits") as [hits | ].
  - destruct (Py.len hits) as [e | n]; [discriminate | ]. cbn [bind].
    destruct (Py.truthy hits); cbn [negb bind ret].
    + destruct (Py.iter hits) as [e | items]; [discriminate | ]. cbn [bind].
      destruct (filter_loop c items acc) as [e | res']; [discriminate | ].
      cbn [bind ret]. intros [= <- <-]. now right.
    + intros [= <- <-]. now left.
  - cbn. intros [= <- <-]. now left.
Qed.

(** A page with hit records hands them to the filter loop. *)
Lemma search_page_items (page : nat) (acc : list json) :
  page_items c w page <> [] ->
  search_page c w page acc
  = (res <- filter_loop c (page_items c w page) acc ;; ret (false, res)).
Proof.
  unfold search_page, page_items.
  destruct (search_api w (search_keyword c) page) as [e | data]; [now intros [] | ].
  cbn [bind].
  destruct data as [ | | | | | | d]; try (now intros []).
  unfold Py.get, Py.get_default, Py.getitem. cbn [bind ret].
  destruct (Py.lookup d "hits") as [hits | ]; [ | now intros []].
  cbn [bind ret].
  destruct hits as [ | | | | s | l | d']; cbn; try (now intros []).
  - destruct s; [now intros [] | reflexivity].
  - destruct l; [now intros [] | reflexivity].
  - destruct d'; [now intros [] | reflexivity].
Qed.

Lemma search_page_fetch_error (page : nat) (acc : list json) (e : exn) :
  search_api w (search_keyword c) page = inl e ->
  search_page c w page acc = inl e.
Proof. unfold search_page. now intros ->. Qed.

Lemma search_page_prefix (page : nat) (acc res : list json) (stop : bool) :
  search_page c w page acc = inr (stop, res) ->
  exists k, (k <= List.length (page_items c w page))%nat /\
            res = acc ++ filter (kept c) (firstn k (page_items c w page)) /\
            (stop = false -> enough c res = false ->
             k = List.length (page_items c w page)).
Proof.
  intros H. destruct (search_page_inv _ _ _ _ H) as [[-> ->] | [-> Hf]].
  - exists 0%nat. cbn. rewrite app_nil_r. repeat split; [lia | discriminate].
  - destruct (filter_loop_prefix c _ _ _ Hf) as (k & Hk & Hres & Hall).
    exists k. auto.
Qed.

Lemma search_page_length (page : nat) (acc res : list json) (stop : bool) :
  Z.of_nat (List.length acc) < num_videos_to_download c ->
  search_page c w page acc = inr (stop, res) ->
  Z.of_nat (List.length res) <= num_videos_to_download c.
Proof.
  intros Hacc H. destruct (search_page_inv _ _ _ _ H) as [[-> ->] | [-> Hf]].
  - lia.
  - now apply (filter_loop_length c _ _ _ Hacc Hf).
Qed.

(** Once a page leaves enough videos (or has no hits), the loop returns:
    the request for that page is the last one. *)
Lemma page_loop_stops (page : nat) (pages : list nat) (acc res : list json)
      (stop : bool) (st : state) :
  search_page c w page acc = inr (stop, res) ->
  stop = true \/ enough c res = true ->
  page_loop c w (page :: pages) acc st
  = (inr res, log (SearchRequest (search_keyword c) page) st).
Proof.
  intros H Hstop. cbn. rewrite H.
  destruct stop; [reflexivity | ].
  destruct Hstop as [Hs | ->]; [discriminate | reflexivity].
Qed.

Lemma page_loop_length (pages : list nat) (acc res : list json) (st st' : state) :
  Z.of_nat (List.length acc) < num_videos_to_download c ->
  page_loop c w pages acc st = (inr res, st') ->
  Z.of_nat (List.length res) <= num_videos_to_download c.
Proof.
  revert acc st. induction pages as [ | page pages IH]; intros acc st Hacc H; cbn in H.
  - injection H as <- <-. lia.
  - destruct (search_page c w page acc) as [e | [stop el]] eqn:Hp; [discriminate | ].
    pose proof (search_page_length _ _ _ _ Hacc Hp) as Hle.
    destruct stop; [injection H as <- <-; assumption | ].
    destruct (enough c el) eqn:He; [injection H as <- <-; assumption | ].
    refine (IH el _ _ H).
    unfold enough in He. now apply Z.leb_gt in He.
Qed.

(** The search touches nothing but the trace, where it leaves page
    requests and status texts only. *)
Lemma page_loop_state (pages : list nat) (acc : list json) (st st' : state)
      (r : py (list json)) :
  page_loop c w pages acc st = (r, st') ->
  downloaded_files st' = downloaded_files st /\
  zip_file st' = zip_file st /\
  exists evs, trace st' = trace st ++ evs /\ forallb is_search_event evs = true.
Proof.
  revert acc st. induction pages as [ | page pages IH]; intros acc st H; cbn in H.
  - injection H as <- <-. repeat split. exists []. now rewrite app_nil_r.
  - set (st1 := log (SearchRequest (search_keyword c) page) st) in *.
    assert (Hone : downloaded_files st1 = downloaded_files st /\
                   zip_file st1 = zip_file st /\
                   exists evs, trace st1 = trace st ++ evs /\
                               forallb is_search_event evs = true).
    { repeat split. now exists [SearchRequest (search_keyword c) page]. }
    destruct (search_page c w page acc) as [e | [stop el]].
    + injection H as <- <-. repeat split.
      exists [SearchRequest (search_keyword c) page; Status (search_error e)].
      split; [ | reflexivity]. cbn. now rewrite <- app_assoc.
    + destruct stop; [injection H as <- <-; exact Hone | ].
      destruct (enough c el); [injection H as <- <-; exact Hone | ].
      destruct (IH _ _ H) as (Hd & Hz & evs & Ht & Hall).
      repeat split; [exact Hd | exact Hz | ].
      exists (SearchRequest (search_keyword c) page :: evs). split.
      * rewrite Ht. cbn. now rewrite <- app_assoc.
      * exact Hall.
Qed.

(** A page whose fetch fails, once requested, ends the search there. *)
Lemma page_loop_fetch_error (pages : list nat) (acc : list json) (st st' : state)
      (r : py (list json)) (page : nat) (e : exn) :
  page_loop c w pages acc st = (r, st') ->
  search_api w (search_keyword c) page = inl e ->
  In page (search_requests (trace st')) ->
  ~ In page (search_requests (trace st)) ->
  r = inl e /\
  exists tr, trace st'
             = tr ++ [SearchRequest (search_keyword c) page; Status (search_error e)].
Proof.
  intros H Hapi. revert acc st H.
  induction pages as [ | p pages IH]; intros acc st H Hin Hnot; cbn in H.
  - injection H as <- <-. contradiction.
  - set (st1 := log (SearchRequest (search_keyword c) p) st) in *.
    assert (Hst1 : search_requests (trace st1) = search_requests (trace st) ++ [p])
      by apply search_requests_log.
    destruct (Nat.eq_dec p page) as [-> | Hne].
    + rewrite (search_page_fetch_error _ _ _ Hapi) in H.
      injection H as <- <-. split; [reflexivity | ].
      exists (trace st). cbn. now rewrite <- app_assoc.
    + assert (Hnot1 : ~ In page (search_requests (trace st1))).
      { rewrite Hst1, in_app_iff. cbn. intuition. }
      destruct (search_page c w p acc) as [e' | [stop el]].
      * injection H as <- <-. exfalso. apply Hnot1.
        rewrite search_requests_log, app_nil_r in Hin. exact Hin.
      * destruct stop; [injection H as <- <-; contradiction | ].
        destruct (enough c el); [injection H as <- <-; contradiction | ].
        now apply (IH el st1).
Qed.

(** The videos the search returns are the kept hits of a prefix of the
    pages' records, in the order the pages list them. *)
Lemma page_loop_prefix (pages : list nat) (acc res : list json) (st st' : state) :
  page_loop c w pages acc st = (inr res, st') ->
  exists k, res = acc ++ filter (kept c) (firstn k (flat_map (page_items c w) pages)).
Proof.
  revert acc st. induction pages as [ | page pages IH]; intros acc st H; cbn in H.
  - injection H as <- <-. exists 0%nat. cbn. now rewrite app_nil_r.
  - destruct (search_page c w page acc) as [e | [stop el]] eqn:Hp; [discriminate | ].
    destruct (search_page_prefix _ _ _ _ Hp) as (k & Hk & Hel & Hall).
    assert (Hhere : el = acc ++ filter (kept c)
                                  (firstn k (flat_map (page_items c w) (page :: pages)))).
    { cbn [flat_map]. rewrite firstn_app.
      replace (k - List.length (page_items c w page))%nat with 0%nat by lia.
      cbn. now rewrite app_nil_r. }
    destruct stop; [injection H as <- <-; now exists k | ].
    destruct (enough c el) eqn:He; [injection H as <- <-; now exists k | ].
    destruct (IH _ _ H) as (k2 & Hres).
    exists (List.length (page_items c w page) + k2)%nat.
    cbn [flat_map]. rewrite firstn_app_2, filter_app, app_assoc, Hres, Hel.
    rewrite (Hall eq_refl eq_refl), firstn_all. reflexivity.
Qed.

(** The pages requested are the first ones of the range; a page after the
    first is requested only while the earlier pages left fewer videos than
    requested; and a requested page with a record that raises, reached
    before the videos suffice, ends the search with an exception. *)
Lemma page_loop_requests (len first : nat) (acc : list json) (st st' : state)
      (r : py (list json)) :
  page_loop c w (seq first len) acc st = (r, st') ->
  exists n,
    (n <= len)%nat /\
    search_requests (trace st') = search_requests (trace st) ++ seq first n /\
    (forall page, (first < page < first + n)%nat ->
       Z.of_nat (List.length acc
                 + List.length (filter (kept c)
                     (flat_map (page_items c w) (seq first (page - first)))))
       < num_videos_to_download c) /\
    (forall page pre bad post e, (first <= page < first + n)%nat ->
       page_items c w page = pre ++ bad :: post ->
       keeps c bad = inl e ->
       Z.of_nat (List.length acc
                 + List.length (filter (kept c)
                     (flat_map (page_items c w) (seq first (page - first)) ++ pre)))
       < num_videos_to_download c ->
       exists e', r = inl e' /\
                  ((forall video, In video pre -> exists b, keeps c video = inr b) ->
                   e' = e)).
Proof.
  revert first acc st. induction len as [ | len IH]; intros first acc st H; cbn in H.
  - injection H as <- <-. exists 0%nat. cbn. rewrite app_nil_r.
    repeat split; [lia | | ]; intros; lia.
  - set (st1 := log (SearchRequest (search_keyword c) first) st) in *.
    assert (Hst1 : search_requests (trace st1) = search_requests (trace st) ++ [first])
      by apply search_requests_log.
    (* what the first page does when it holds a record that raises *)
    assert (Hbad : forall pre bad post e,
               page_items c w first = pre ++ bad :: post ->
               keeps c bad = inl e ->
               Z.of_nat (List.length acc + List.length (filter (kept c) pre))
               < num_videos_to_download c ->
               exists e', search_page c w first acc = inl e' /\
                 ((forall video, In video pre -> exists b, keeps c video = inr b) ->
                  e' = e)).
    { intros pre bad post e Hitems Hk Hlt.
      rewrite search_page_items by (rewrite Hitems; now destruct pre).
      rewrite Hitems.
      destruct (filter_loop_raises c pre post acc bad e Hk Hlt) as (e' & -> & Hc).
      now exists e'. }
    (* the loop ends with the first page *)
    assert (Hlast : forall (r0 : py (list json)) (st0 : state),
               search_requests (trace st0) = search_requests (trace st1) ->
               (forall e', search_page c w first acc = inl e' -> r0 = inl e') ->
               exists n,
                 (n <= S len)%nat /\
                 search_requests (trace st0) = search_requests (trace st) ++ seq first n /\
                 (forall page, (first < page < first + n)%nat ->
                    Z.of_nat (List.length acc
                              + List.length (filter (kept c)
                                  (flat_map (page_items c w) (seq first (page - first)))))
                    < num_videos_to_download c) /\
                 (forall page pre bad post e, (first <= page < first + n)%nat ->
                    page_items c w page = pre ++ bad :: post ->
                    keeps c bad = inl e ->
                    Z.of_nat (List.length acc
                              + List.length (filter (kept c)
                                  (flat_map (page_items c w) (seq first (page - first))
                                   ++ pre)))
                    < num_videos_to_download c ->
                    exists e', r0 = inl e' /\
                      ((forall video, In video pre -> exists b, keeps c video = inr b) ->
                       e' = e))).
    { intros r0 st0 Htr Hr0. exists 1%nat. rewrite Htr, Hst1.
      repeat split; [lia | intros; lia | ].
      intros page pre bad post e Hpage Hitems Hk Hlt.
      assert (page = first) as -> by lia.
      rewrite Nat.sub_diag in Hlt. cbn in Hlt.
      destruct (Hbad pre bad post e Hitems Hk Hlt) as (e' & Hp & Hc).
      exists e'. split; [now apply Hr0 | exact Hc]. }
    destruct (search_page c w first acc) as [e0 | [stop el]] eqn:Hp.
    + injection H as <- <-. apply Hlast.
      * now rewrite search_requests_log, app_nil_r.
      * now intros e' [= ->].
    + destruct stop; [injection H as <- <-; apply Hlast; [reflexivity | discriminate] | ].
      destruct (enough c el) eqn:He;
        [injection H as <- <-; apply Hlast; [reflexivity | discriminate] | ].
      destruct (search_page_prefix _ _ _ _ Hp) as (k & _ & Hel & Hall).
      rewrite (Hall eq_refl He), firstn_all in Hel.
      assert (Hlen : List.length el
                     = (List.length acc
                        + List.length (filter (kept c) (page_items c w first)))%nat)
        by (rewrite Hel; apply length_app).
      assert (Hfew : Z.of_nat (List.length el) < num_videos_to_download c)
        by (unfold enough in He; now apply Z.leb_gt in He).
      destruct (IH _ _ _ H) as (n & Hn & Htr & Hcount & Hraise).
      exists (S n). repeat split.
      * lia.
      * rewrite Htr, Hst1, <- app_assoc. reflexivity.
      * intros page Hpage.
        replace (page - first)%nat with (S (page - S first)) by lia.
        cbn [seq flat_map]. rewrite filter_app, length_app.
        destruct (Nat.eq_dec page (S first)) as [-> | Hne].
        -- rewrite Nat.sub_diag. cbn. lia.
        -- specialize (Hcount page ltac:(lia)). lia.
      * intros page pre bad post e Hpage Hitems Hk Hlt.
        destruct (Nat.eq_dec page first) as [-> | Hne].
        -- rewrite Nat.sub_diag in Hlt. cbn in Hlt.
           destruct (Hbad pre bad post e Hitems Hk Hlt) as (e' & He' & _). discriminate.
        -- apply (Hraise page pre bad post e ltac:(lia) Hitems Hk).
           replace (page - first)%nat with (S (page - S first)) in Hlt by lia.
           cbn [seq flat_map] in Hlt.
           rewrite <- app_assoc, filter_app, length_app in Hlt. lia.
Qed.

End Search.

(** ** The download loop *)

Section Download.

Variable c : criteria.
Variable w : world.

Lemma enumerate_from_cons (i : nat) (video : json) (videos : list json) :
  enumerate_from i (video :: videos) = (i, video) :: enumerate_from (S i) videos.
Proof. reflexivity. Qed.

Lemma attempt_eq (i : nat) (video url id : json) :
  download_url c video = inr url ->
  video_id i video = inr id ->
  attempt c w (i, video)
  = inr (url, filename_of id,
         (data <- fetch w i url ;; zip_entry (filename_of id) data)).
Proof. unfold attempt. cbn [fst snd]. now intros -> ->. Qed.

Lemma attempt_raises (i : nat) (video : json) (e : exn) :
  (url <- download_url c video ;; id <- video_id i video ;; ret (url, id)) = inl e ->
  attempt c w (i, video) = inl e.
Proof.
  unfold attempt, bind, ret. cbn [fst snd].
  destruct (download_url c video); [now intros [= ->] | ].
  destruct (video_id i video); [now intros [= ->] | discriminate].
Qed.

(** The body of the [try] either raises and leaves the state as it was,
    or adds one entry to the archive and the file name to the session's
    list. *)
Lemma download_eq (i : nat) (url : json) (filename : string) (st : state) :
  download w i url filename st
  = match (data <- fetch w i url ;; zip_entry filename data) with
    | inl e => inl e
    | inr entry =>
        inr {| trace := trace st;
               downloaded_files := downloaded_files st ++ [filename];
               zip_file := zip_file st ++ [entry] |}
    end.
Proof.
  unfold download, writestr. destruct (fetch w i url) as [e | data]; [reflexivity | ].
  cbn [bind]. now destruct (zip_entry filename data).
Qed.

Lemma entries_cons (iv : nat * json) (ivs : list (nat * json)) :
  entries c w (iv :: ivs)
  = match attempt c w iv with
    | inr (_, _, inr entry) => [entry]
    | _ => []
    end ++ entries c w ivs.
Proof. reflexivity. Qed.

Lemma noted_cons (iv : nat * json) (ivs : list (nat * json)) :
  noted c w (iv :: ivs)
  = (if archived c w iv then [name_of iv] else []) ++ noted c w ivs.
Proof. unfold noted. cbn [filter]. now destruct (archived c w iv). Qed.

Lemma attempt_events_cons (iv : nat * json) (ivs : list (nat * json)) :
  attempt_events c w (iv :: ivs)
  = match attempt c w iv with
    | inr (url, filename, inr _) => [DownloadRequest (fst iv) url]
    | inr (url, filename, inl e) =>
        [DownloadRequest (fst iv) url; Status (download_error filename e)]
    | inl _ => []
    end ++ attempt_events c w ivs.
Proof. reflexivity. Qed.

(** As long as the videos left cannot fill the requested number, the guard
    of line 153 lets every one through: the loop attempts the videos in
    order until it has gone through all of them or an exception leaves it,
    and the state it reaches holds an entry and a file name for each video
    that was fetched and written. *)
Lemma download_loop_inv (videos : list json) (i : nat) (st st' : state) (r : py unit) :
  Z.of_nat (List.length (downloaded_files st) + List.length videos)
  <= num_videos_to_download c ->
  download_loop c w i videos st = (r, st') ->
  exists k,
    (k <= List.length videos)%nat /\
    match r with
    | inr _ => k = List.length videos
    | inl e => exists video, nth_error videos k = Some video /\
                             attempt c w ((i + k)%nat, video) = inl e
    end /\
    zip_file st' = zip_file st ++ entries c w (enumerate_from i (firstn k videos)) /\
    downloaded_files st'
    = downloaded_files st ++ noted c w (enumerate_from i (firstn k videos)) /\
    trace st' = trace st ++ attempt_events c w (enumerate_from i (firstn k videos)) /\
    Forall (fun iv => exists x, attempt c w iv = inr x)
           (enumerate_from i (firstn k videos)).
Proof.
  revert i st. induction videos as [ | video videos IH]; intros i st Hroom H;
    cbn [download_loop] in H.
  - injection H as <- <-. exists 0%nat. cbn. rewrite !app_nil_r. repeat split; constructor.
  - replace (enough_downloaded c st) with false in H.
    2:{ symmetry. apply Z.leb_gt. cbn [List.length] in Hroom. lia. }
    destruct (url <- download_url c video ;; id <- video_id i video ;; ret (url, id))
      as [e | [url id]] eqn:Hline.
    + injection H as <- <-. exists 0%nat. cbn. rewrite !app_nil_r.
      repeat split; [lia | | constructor]. exists video. split; [reflexivity | ].
      rewrite Nat.add_0_r. now apply attempt_raises.
    + assert (Hurl : download_url c video = inr url /\ video_id i video = inr id).
      { destruct (download_url c video); [discriminate | ]. cbn [bind] in Hline.
        destruct (video_id i video); [discriminate | ]. cbn in Hline.
        now injection Hline as -> ->. }
      destruct Hurl as [Hurl Hid].
      pose proof (attempt_eq i video url id Hurl Hid) as Hat.
      assert (Hname : name_of (i, video) = filename_of id)
        by (unfold name_of; cbn [fst snd]; now rewrite Hid).
      rewrite download_eq in H. cbn [log trace downloaded_files zip_file] in H.
      destruct (data <- fetch w i url ;; zip_entry (filename_of id) data)
        as [e | entry] eqn:Htry.
      * apply IH in H; [ | cbn in *; lia].
        destruct H as (k & Hk & Hr & Hz & Hd & Ht & Hok).
        exists (S k). cbn [firstn].
        rewrite enumerate_from_cons, entries_cons, noted_cons, attempt_events_cons.
        unfold archived. rewrite Hat. cbn [fst app].
        repeat split.
        -- cbn. lia.
        -- destruct r; [ | now rewrite Hr].
           destruct Hr as (v & Hnth & Hv). exists v. split; [exact Hnth | ].
           now rewrite Nat.add_succ_r.
        -- exact Hz.
        -- exact Hd.
        -- rewrite Ht. cbn. now rewrite <- !app_assoc.
        -- constructor; [rewrite Hat; eexists; reflexivity | exact Hok].
      * apply IH in H; [ | cbn in *; rewrite length_app; cbn in *; lia].
        destruct H as (k & Hk & Hr & Hz & Hd & Ht & Hok).
        exists (S k). cbn [firstn].
        rewrite enumerate_from_cons, entries_cons, noted_cons, attempt_events_cons.
        unfold archived. rewrite Hat, Hname. cbn [fst app].
        repeat split.
        -- cbn. lia.
        -- destruct r; [ | now rewrite Hr].
           destruct Hr as (v & Hnth & Hv). exists v. split; [exact Hnth | ].
           now rewrite Nat.add_succ_r.
        -- rewrite Hz. cbn. now rewrite <- app_assoc.
        -- rewrite Hd. cbn. now rewrite <- app_assoc.
        -- rewrite Ht. cbn. now rewrite <- !app_assoc.
        -- constructor; [rewrite Hat; eexists; reflexivity | exact Hok].
Qed.

End Download.

(** ** Whole runs *)

Section Runs.

Variable c : criteria.
Variable w : world.

Lemma forallb_weaken {A} (f g : A -> bool) (l : list A) :
  (forall x, f x = true -> g x = true) ->
  forallb f l = true -> forallb g l = true.
Proof.
  intros Hfg. rewrite !forallb_forall. auto.
Qed.

Lemma search_events_quiet (evs : list event) :
  forallb is_search_event evs = true ->
  no_download evs /\ no_archive evs /\ download_requests evs = [].
Proof.
  intros H. repeat split.
  - revert H. apply forallb_weaken. now intros [].
  - revert H. apply forallb_weaken. now intros [].
  - induction evs as [ | ev evs IH]; [reflexivity | ].
    cbn in H. apply andb_prop in H as [Hev Hevs].
    destruct ev; try discriminate; cbn; auto.
Qed.

Lemma download_events_quiet (evs : list event) :
  forallb is_download_event evs = true ->
  no_archive evs /\ search_requests evs = [].
Proof.
  intros H. split.
  - revert H. apply forallb_weaken. now intros [].
  - induction evs as [ | ev evs IH]; [reflexivity | ].
    cbn in H. apply andb_prop in H as [Hev Hevs].
    destruct ev; try discriminate; cbn; auto.
Qed.

Lemma attempt_events_download (ivs : list (nat * json)) :
  forallb is_download_event (attempt_events c w ivs) = true.
Proof.
  induction ivs as [ | iv ivs IH]; [reflexivity | ].
  unfold attempt_events. cbn [flat_map]. rewrite forallb_app.
  fold (attempt_events c w ivs). rewrite IH, andb_true_r.
  destruct (attempt c w iv) as [e | [[url name] [e | data]]]; reflexivity.
Qed.

(** The loop over the videos leaves requests for videos and status texts
    in the trace, whatever the requested number is. *)
Lemma download_loop_events (videos : list json) (i : nat) (st st' : state) (r : py unit) :
  download_loop c w i videos st = (r, st') ->
  exists evs, trace st' = trace st ++ evs /\ forallb is_download_event evs = true.
Proof.
  revert i st. induction videos as [ | video videos IH]; intros i st H;
    cbn [download_loop] in H.
  - injection H as <- <-. exists []. now rewrite app_nil_r.
  - destruct (enough_downloaded c st).
    { injection H as <- <-. exists []. now rewrite app_nil_r. }
    destruct (url <- download_url c video ;; id <- video_id i video ;; ret (url, id))
      as [e | [url id]].
    { injection H as <- <-. exists []. now rewrite app_nil_r. }
    rewrite download_eq in H.
    destruct (data <- fetch w i url ;; zip_entry (filename_of id) data) as [e | entry];
      apply IH in H; destruct H as (evs & Ht & Hall); cbn in Ht.
    + exists (DownloadRequest i url :: Status (download_error (filename_of id) e) :: evs).
      split; [ | exact Hall]. rewrite Ht, <- !app_assoc. reflexivity.
    + exists (DownloadRequest i url :: evs).
      split; [ | exact Hall]. rewrite Ht, <- !app_assoc. reflexivity.
Qed.

(** The loop of lines 205-206 adds one line for each name and nothing
    else. *)
Lemma list_names_eq (filenames : list string) (st : state) :
  list_names filenames st
  = {| trace := trace st ++ map (fun filename => Line ("- " ++ filename)%string) filenames;
       downloaded_files := downloaded_files st;
       zip_file := zip_file st |}.
Proof.
  revert st. induction filenames as [ | filename filenames IH]; intros st.
  - cbn. rewrite app_nil_r. now destruct st.
  - cbn [list_names fold_left]. fold (list_names filenames (log (Line ("- " ++ filename)%string) st)).
    rewrite IH. cbn [log trace downloaded_files zip_file map].
    now rewrite <- app_assoc.
Qed.

(** Lines 193-208 change neither the archive nor the session's list; they
    show the warning, or the offer and the names. *)
Lemma summary_eq (st : state) :
  summary st
  = {| trace := trace st ++ match downloaded_files st with
                            | [] => [Status WarnNoneDownloaded]
                            | _ :: _ => offer (zip_file st) (downloaded_files st)
                            end;
       downloaded_files := downloaded_files st;
       zip_file := zip_file st |}.
Proof.
  unfold summary, offer. destruct (downloaded_files st) as [ | name names] eqn:Hfiles.
  - unfold log. now rewrite Hfiles.
  - rewrite list_names_eq. cbn [log trace downloaded_files zip_file].
    rewrite Hfiles, <- !app_assoc. reflexivity.
Qed.

Lemma started_eq (files : list string) :
  started files
  = {| trace := [Status InfoStarting]; downloaded_files := []; zip_file := [] |}.
Proof. reflexivity. Qed.

(** What the search leaves of a started run. *)
Lemma search_started (files : list string) (r : py (list json)) (st1 : state) :
  search c w (started files) = (r, st1) ->
  downloaded_files st1 = [] /\ zip_file st1 = [] /\
  exists evs, trace st1 = Status InfoStarting :: evs /\
              forallb is_search_event evs = true.
Proof.
  intros H. apply page_loop_state in H. destruct H as (Hd & Hz & evs & Ht & Hall).
  repeat split; [exact Hd | exact Hz | ]. exists evs. split; [exact Ht | exact Hall].
Qed.

Lemma search_length (st st' : state) (eligible : list json) :
  1 <= num_videos_to_download c ->
  search c w st = (inr eligible, st') ->
  Z.of_nat (List.length eligible) <= num_videos_to_download c.
Proof.
  intros Hnum H. unfold search in H.
  refine (page_loop_length c w _ [] _ _ _ _ H). cbn. lia.
Qed.

Lemma run_invalid (files : list string) :
  max_duration c <= min_duration c ->
  run c w files = (InvalidInput, log (Status ErrDurations) (session files)).
Proof.
  intros H. unfold run. apply Z.leb_le in H. now rewrite H.
Qed.

Lemma run_search_failed (files : list string) (e : exn) (st1 : state) :
  min_duration c < max_duration c ->
  search c w (started files) = (inl e, st1) ->
  run c w files = (SearchFailed e, st1).
Proof.
  intros Hv H. unfold run. apply Z.leb_gt in Hv. now rewrite Hv, H.
Qed.

Lemma run_no_videos (files : list string) (st1 : state) :
  min_duration c < max_duration c ->
  search c w (started files) = (inr [], st1) ->
  run c w files = (NoVideosFound, log (Status WarnNoVideos) st1).
Proof.
  intros Hv H. unfold run. apply Z.leb_gt in Hv. now rewrite Hv, H.
Qed.

Lemma run_downloads (files : list string) (eligible : list json) (st1 : state) :
  min_duration c < max_duration c ->
  search c w (started files) = (inr eligible, st1) ->
  eligible <> [] ->
  run c w files
  = match download_loop c w 0 eligible
            (log (Status (InfoFound (List.length eligible))) st1) with
    | (inl e, st2) => (Uncaught e, st2)
    | (inr _, st2) =>
        (Finished,
         summary (log (Status (SuccessDownloaded (List.length (downloaded_files st2)))) st2))
    end.
Proof.
  intros Hv H Hne. unfold run. apply Z.leb_gt in Hv. rewrite Hv, H.
  destruct eligible; [contradiction | reflexivity].
Qed.

(** The page requests of a run are those of its search. *)
Lemma run_search_requests (files : list string) :
  min_duration c < max_duration c ->
  search_requests (trace (snd (run c w files)))
  = search_requests (trace (snd (search c w (started files)))).
Proof.
  intros Hv. destruct (search c w (started files)) as [[e | eligible] st1] eqn:Hs.
  - now rewrite (run_search_failed _ _ _ Hv Hs).
  - destruct eligible as [ | video eligible].
    + rewrite (run_no_videos _ _ Hv Hs). cbn [snd].
      now rewrite search_requests_log, app_nil_r.
    + rewrite (run_downloads _ _ _ Hv Hs) by discriminate.
      set (st := log _ st1).
      assert (Hst : search_requests (trace st) = search_requests (trace st1))
        by (unfold st; now rewrite search_requests_log, app_nil_r).
      destruct (download_loop c w 0 (video :: eligible) st) as [[e | u] st2] eqn:Hd;
        destruct (download_loop_events _ _ _ _ _ Hd) as (evs & Ht & Hall);
        apply download_events_quiet in Hall as [_ Hnone]; cbn [snd].
      * now rewrite Ht, search_requests_app, Hnone, app_nil_r.
      * rewrite summary_eq. cbn [downloaded_files log trace].
        assert (Hlast : forall names,
                   search_requests
                     match names with
                     | [] => [Status WarnNoneDownloaded]
                     | _ :: _ => offer (zip_file st2) names
                     end = []).
        { intros [ | name names]; [reflexivity | ].
          unfold offer, search_requests. cbn [flat_map app].
          induction (name :: names) as [ | n ns IHn]; [reflexivity | exact IHn]. }
        rewrite !search_requests_app, Hlast, Ht, search_requests_app, Hnone, Hst.
        cbn [search_requests flat_map app]. now rewrite !app_nil_r.
Qed.

Lemma attempt_inv (iv : nat * json) (url : json) (filename : string)
      (res : py (string * content)) :
  attempt c w iv = inr (url, filename, res) ->
  download_url c (snd iv) = inr url /\
  name_of iv = filename /\
  res = (data <- fetch w (fst iv) url ;; zip_entry filename data).
Proof.
  unfold attempt, name_of.
  destruct (download_url c (snd iv)) as [e | u]; [discriminate | ]. cbn [bind].
  destruct (video_id (fst iv) (snd iv)) as [e | id]; [discriminate | ]. cbn [bind ret].
  now intros [= -> -> ->].
Qed.

(** An entry goes by the file name cut at its first NUL character. *)
Lemma zip_entry_name (filename : string) (data : content) (entry : string * content) :
  zip_entry filename data = inr entry -> entry = (arcname filename, data).
Proof.
  unfold zip_entry. destruct (65535 <? encoded_length (arcname filename))%N;
    [discriminate | now intros [= <-]].
Qed.

(** The entries are those of the videos that were fetched and written,
    each under its file name cut at the first NUL character. *)
Lemma entries_names (ivs : list (nat * json)) :
  map fst (entries c w ivs)
  = map (fun iv => arcname (name_of iv)) (filter (archived c w) ivs).
Proof.
  induction ivs as [ | iv ivs IH]; [reflexivity | ].
  rewrite entries_cons, map_app, IH. cbn [filter]. unfold archived at 2.
  destruct (attempt c w iv) as [e | [[url name] [e | entry]]] eqn:Ha; try reflexivity.
  apply attempt_inv in Ha as (_ & <- & Hres). symmetry in Hres.
  destruct (fetch w (fst iv) url) as [e | data]; [discriminate | ]. cbn [bind] in Hres.
  apply zip_entry_name in Hres as ->. reflexivity.
Qed.

Lemma entries_length (ivs : list (nat * json)) :
  List.length (entries c w ivs) = List.length (filter (archived c w) ivs).
Proof.
  rewrite <- (length_map fst), entries_names. apply length_map.
Qed.

(** The names noted in the session are as many as the entries, and each
    entry goes by the noted name cut at its first NUL character. *)
Lemma noted_entries (ivs : list (nat * json)) :
  map fst (entries c w ivs) = map arcname (noted c w ivs).
Proof. unfold noted. now rewrite entries_names, map_map. Qed.

Lemma enumerate_from_length (i : nat) (videos : list json) :
  List.length (enumerate_from i videos) = List.length videos.
Proof.
  unfold enumerate_from. rewrite length_combine, length_seq. apply Nat.min_id.
Qed.

(** When no attempt raises, the videos are requested one after the other,
    each at its own URL. *)
Lemma attempt_requests (ivs : list (nat * json)) :
  Forall (fun iv => exists x, attempt c w iv = inr x) ivs ->
  Forall2 (fun req iv => fst req = fst iv /\ download_url c (snd iv) = inr (snd req))
          (download_requests (attempt_events c w ivs)) ivs.
Proof.
  induction 1 as [ | iv ivs [[[url name] res] Ha] Hall IH]; [constructor | ].
  unfold attempt_events. cbn [flat_map]. rewrite Ha.
  fold (attempt_events c w ivs).
  apply attempt_inv in Ha as (Hurl & _ & _).
  destruct res; cbn; constructor; auto.
Qed.

Lemma download_requests_app (tr1 tr2 : list event) :
  download_requests (tr1 ++ tr2) = download_requests tr1 ++ download_requests tr2.
Proof. apply flat_map_app. Qed.

(** With the form's bounds, the videos the search returned all fit the
    requested number, and the loop over them is never cut by its guard. *)
Lemma run_download_inv (files : list string) (eligible : list json) (st1 st2 : state)
      (r : py unit) :
  form_ok c ->
  search c w (started files) = (inr eligible, st1) ->
  download_loop c w 0 eligible (log (Status (InfoFound (List.length eligible))) st1)
  = (r, st2) ->
  exists k,
    (k <= List.length eligible)%nat /\
    match r with
    | inr _ => k = List.length eligible
    | inl e => exists video, nth_error eligible k = Some video /\
                             attempt c w (k, video) = inl e
    end /\
    zip_file st2 = entries c w (enumerate_from 0 (firstn k eligible)) /\
    downloaded_files st2 = noted c w (enumerate_from 0 (firstn k eligible)) /\
    trace st2 = trace st1 ++ Status (InfoFound (List.length eligible))
                          :: attempt_events c w (enumerate_from 0 (firstn k eligible)) /\
    Forall (fun iv => exists x, attempt c w iv = inr x)
           (enumerate_from 0 (firstn k eligible)).
Proof.
  intros (_ & _ & Hnum & _) Hs Hd.
  destruct (search_started _ _ _ Hs) as (Hfiles & Hzip & _).
  pose proof (search_length _ _ _ Hnum Hs) as Hlen.
  apply download_loop_inv in Hd; [ | cbn [log downloaded_files]; rewrite Hfiles; cbn; lia].
  destruct Hd as (k & Hk & Hr & Hz & Hdl & Ht & Hok).
  cbn [log zip_file downloaded_files trace] in Hz, Hdl, Ht.
  rewrite Hzip in Hz. rewrite Hfiles in Hdl. cbn [app] in Hz, Hdl.
  exists k. repeat split; try assumption.
  rewrite Ht, <- app_assoc. reflexivity.
Qed.

(** A run that reaches its last line went through every video the search
    returned. *)
Lemma run_finished_inv (files : list string) (eligible : list json) (st1 st : state) :
  form_ok c ->
  search c w (started files) = (inr eligible, st1) ->
  run c w files = (Finished, st) ->
  zip_file st = entries c w (enumerate_from 0 eligible) /\
  downloaded_files st = noted c w (enumerate_from 0 eligible) /\
  Forall (fun iv => exists x, attempt c w iv = inr x) (enumerate_from 0 eligible) /\
  trace st = trace st1
             ++ Status (InfoFound (List.length eligible))
                :: attempt_events c w (enumerate_from 0 eligible)
             ++ Status (SuccessDownloaded (List.length (downloaded_files st)))
                :: match downloaded_files st with
                   | [] => [Status WarnNoneDownloaded]
                   | _ :: _ => offer (zip_file st) (downloaded_files st)
                   end.
Proof.
  intros Hform Hs Hrun.
  destruct (Z.le_gt_cases (max_duration c) (min_duration c)) as [Hbad | Hv].
  { rewrite (run_invalid _ Hbad) in Hrun. discriminate. }
  destruct eligible as [ | video eligible].
  { rewrite (run_no_videos _ _ Hv Hs) in Hrun. discriminate. }
  rewrite (run_downloads _ _ _ Hv Hs) in Hrun by discriminate.
  destruct (download_loop c w 0 (video :: eligible) _) as [[e | u] st2] eqn:Hd;
    [discriminate | ].
  destruct (run_download_inv _ _ _ _ _ Hform Hs Hd) as (k & _ & -> & Hz & Hdl & Ht & Hok).
  rewrite firstn_all in Hz, Hdl, Ht, Hok.
  injection Hrun as <-.
  rewrite summary_eq. cbn [log downloaded_files zip_file trace].
  repeat split; try assumption.
  rewrite Ht, <- !app_assoc. reflexivity.
Qed.

Lemma no_archive_not_in (tr : list event) (data : list (string * content)) :
  no_archive tr -> ~ In (DownloadButton data) tr.
Proof.
  unfold no_archive. rewrite forallb_forall. intros H Hin.
  specialize (H _ Hin). discriminate.
Qed.

(** What lines 196-206 show has no request in it, and offers the archive
    once. *)
Lemma offer_events (data : list (string * content)) (filenames : list string) :
  download_requests (offer data filenames) = [] /\
  (forall data', In (DownloadButton data') (offer data filenames) -> data' = data).
Proof.
  unfold offer. split.
  - unfold download_requests. cbn [flat_map app].
    induction filenames as [ | name names IH]; [reflexivity | exact IH].
  - intros data' [[= <-] | [H | [H | H]]]; try reflexivity; try discriminate.
    apply in_map_iff in H as (name & H & _). discriminate.
Qed.

(** A run with valid durations whose search returns: it ends on the
    warning that no video was found, by an exception of line 156 on the
    [k]-th selected video, or at its last line, having gone through the
    first [k] selected videos (all of them, at the last line). *)
Lemma run_shape (files : list string) (eligible : list json) (st1 : state) :
  form_ok c ->
  min_duration c < max_duration c ->
  search c w (started files) = (inr eligible, st1) ->
  exists k,
    (k <= List.length eligible)%nat /\
    zip_file (snd (run c w files)) = entries c w (enumerate_from 0 (firstn k eligible)) /\
    downloaded_files (snd (run c w files))
    = noted c w (enumerate_from 0 (firstn k eligible)) /\
    Forall (fun iv => exists x, attempt c w iv = inr x)
           (enumerate_from 0 (firstn k eligible)) /\
    ((fst (run c w files) = NoVideosFound /\ eligible = [] /\
      trace (snd (run c w files)) = trace st1 ++ [Status WarnNoVideos]) \/
     (exists e video,
        fst (run c w files) = Uncaught e /\
        nth_error eligible k = Some video /\
        attempt c w (k, video) = inl e /\
        trace (snd (run c w files))
        = trace st1 ++ Status (InfoFound (List.length eligible))
                    :: attempt_events c w (enumerate_from 0 (firstn k eligible))) \/
     (fst (run c w files) = Finished /\
      k = List.length eligible /\
      trace (snd (run c w files))
      = trace st1 ++ Status (InfoFound (List.length eligible))
                  :: attempt_events c w (enumerate_from 0 (firstn k eligible))
                  ++ Status (SuccessDownloaded
                               (List.length (downloaded_files (snd (run c w files)))))
                     :: match downloaded_files (snd (run c w files)) with
                        | [] => [Status WarnNoneDownloaded]
                        | _ :: _ => offer (zip_file (snd (run c w files)))
                                          (downloaded_files (snd (run c w files)))
                        end)).
Proof.
  intros Hform Hv Hs.
  destruct (search_started _ _ _ Hs) as (Hfiles & Hzip & _).
  destruct eligible as [ | video eligible].
  { exists 0%nat. rewrite (run_no_videos _ _ Hv Hs). cbn [fst snd log trace zip_file
      downloaded_files firstn]. rewrite Hfiles, Hzip.
    repeat split; [constructor | constructor | ]. left. repeat split. }
  rewrite (run_downloads _ _ _ Hv Hs) by discriminate.
  destruct (download_loop c w 0 (video :: eligible) _) as [r st2] eqn:Hd.
  destruct (run_download_inv _ _ _ _ _ Hform Hs Hd) as (k & Hk & Hr & Hz & Hdl & Ht & Hok).
  exists k. destruct r as [e | u]; cbn [fst snd].
  - repeat split; try assumption. right. left.
    destruct Hr as (bad & Hnth & Hbad). exists e, bad. repeat split; assumption.
  - rewrite summary_eq. cbn [log trace downloaded_files zip_file].
    repeat split; try assumption. right. right.
    repeat split; [exact Hr | ]. rewrite Ht, <- !app_assoc. reflexivity.
Qed.

(** The requests for videos that a run makes are those of the attempts of
    the videos it went through, and the archive it offers, if it offers
    one, is the one it built. *)
Lemma run_shape_events (files : list string) (eligible : list json) (st1 : state)
      (k : nat) :
  search c w (started files) = (inr eligible, st1) ->
  (fst (run c w files) = NoVideosFound /\ eligible = [] /\
   trace (snd (run c w files)) = trace st1 ++ [Status WarnNoVideos]) \/
  (exists e video,
     fst (run c w files) = Uncaught e /\
     nth_error eligible k = Some video /\
     attempt c w (k, video) = inl e /\
     trace (snd (run c w files))
     = trace st1 ++ Status (InfoFound (List.length eligible))
                 :: attempt_events c w (enumerate_from 0 (firstn k eligible))) \/
  (fst (run c w files) = Finished /\
   k = List.length eligible /\
   trace (snd (run c w files))
   = trace st1 ++ Status (InfoFound (List.length eligible))
               :: attempt_events c w (enumerate_from 0 (firstn k eligible))
               ++ Status (SuccessDownloaded
                            (List.length (downloaded_files (snd (run c w files)))))
                  :: match downloaded_files (snd (run c w files)) with
                     | [] => [Status WarnNoneDownloaded]
                     | _ :: _ => offer (zip_file (snd (run c w files)))
                                       (downloaded_files (snd (run c w files)))
                     end) ->
  download_requests (trace (snd (run c w files)))
  = download_requests (attempt_events c w (enumerate_from 0 (firstn k eligible))) /\
  (forall data, In (DownloadButton data) (trace (snd (run c w files))) ->
     data = zip_file (snd (run c w files)) /\
     fst (run c w files) = Finished /\
     downloaded_files (snd (run c w files)) <> []).
Proof.
  intros Hs Hend.
  destruct (search_started _ _ _ Hs) as (_ & _ & evs & Hevs & Hall).
  apply search_events_quiet in Hall as (_ & Hquiet & Hnone).
  assert (Hreq1 : download_requests (trace st1) = []) by (rewrite Hevs; exact Hnone).
  assert (Hbtn1 : forall data, ~ In (DownloadButton data) (trace st1)).
  { intros data. apply no_archive_not_in. rewrite Hevs. exact Hquiet. }
  assert (Hbtn2 : forall ivs data, ~ In (DownloadButton data) (attempt_events c w ivs)).
  { intros ivs data. apply no_archive_not_in.
    now apply download_events_quiet, attempt_events_download. }
  destruct Hend as [(_ & -> & Ht) | [(e & bad & _ & _ & _ & Ht) | (Hfin & _ & Ht)]];
    rewrite Ht; clear Ht.
  - rewrite download_requests_app, Hreq1. rewrite firstn_nil. split; [reflexivity | ].
    intros data Hin. apply in_app_or in Hin as [Hin | [Hin | []]]; [ | discriminate].
    now apply Hbtn1 in Hin.
  - rewrite download_requests_app, Hreq1. split; [reflexivity | ].
    intros data Hin. apply in_app_or in Hin as [Hin | [Hin | Hin]]; [ | discriminate | ].
    + now apply Hbtn1 in Hin.
    + now apply Hbtn2 in Hin.
  - rewrite download_requests_app, Hreq1. cbn [app download_requests flat_map].
    fold (download_requests
            (attempt_events c w (enumerate_from 0 (firstn k eligible))
             ++ Status (SuccessDownloaded
                          (List.length (downloaded_files (snd (run c w files)))))
                :: match downloaded_files (snd (run c w files)) with
                   | [] => [Status WarnNoneDownloaded]
                   | _ :: _ => offer (zip_file (snd (run c w files)))
                                     (downloaded_files (snd (run c w files)))
                   end)).
    rewrite download_requests_app. split.
    + replace (download_requests (Status _ :: _)) with (@nil (nat * json));
        [now rewrite app_nil_r | ].
      cbn [download_requests flat_map app].
      destruct (downloaded_files (snd (run c w files))); [reflexivity | ].
      symmetry. apply offer_events.
    + intros data Hin. apply in_app_or in Hin as [Hin | [Hin | Hin]];
        [now apply Hbtn1 in Hin | discriminate | ].
      apply in_app_or in Hin as [Hin | [Hin | Hin]];
        [now apply Hbtn2 in Hin | discriminate | ].
      destruct (downloaded_files (snd (run c w files))) as [ | name names] eqn:Hnames.
      * destruct Hin as [Hin | []]. discriminate.
      * apply offer_events in Hin. repeat split; [exact Hin | exact Hfin | discriminate].
Qed.

End Runs.

(** ** File names *)

Section Names.

Lemma string_length_app (a b : string) :
  String.length (a ++ b)%string = (String.length a + String.length b)%nat.
Proof. induction a as [ | ch a IH]; cbn; [reflexivity | now rewrite IH]. Qed.

Lemma string_app_inv_head (s a b : string) :
  (s ++ a)%string = (s ++ b)%string -> a = b.
Proof. induction s as [ | ch s IH]; cbn; [trivial | intros [= H]; auto]. Qed.

Lemma string_app_inv_tail (s a b : string) :
  (a ++ s)%string = (b ++ s)%string -> a = b.
Proof.
  revert b. induction a as [ | ch a IH]; intros [ | ch' b] H; cbn in H.
  - reflexivity.
  - apply (f_equal String.length) in H. cbn in H. rewrite string_length_app in H. lia.
  - apply (f_equal String.length) in H. cbn in H. rewrite string_length_app in H. lia.
  - injection H as -> H. f_equal. now apply IH.
Qed.

(** [str] is one-to-one on the integers. *)
Lemma str_of_Z_inj (a b : Z) : Py.str_of_Z a = Py.str_of_Z b -> a = b.
Proof.
  unfold Py.str_of_Z. intros H. apply DecimalZ.to_int_inj.
  assert (Hn : forall n, Z.to_int n <> Decimal.Pos Decimal.Nil /\
                         Z.to_int n <> Decimal.Neg Decimal.Nil).
  { intros [ | p | p]; cbn; split; try discriminate; intros [= Hp];
      now apply (DecimalPos.Unsigned.to_uint_nonnil p). }
  destruct (Hn a) as [Ha1 Ha2]. destruct (Hn b) as [Hb1 Hb2].
  pose proof (NilZero.isi _ Ha1 Ha2) as Ia.
  pose proof (NilZero.isi _ Hb1 Hb2) as Ib.
  rewrite H in Ia. congruence.
Qed.

Lemma filename_of_inj (a b : Z) :
  filename_of (JNum a) = filename_of (JNum b) -> a = b.
Proof.
  unfold filename_of. cbn [Py.str Py.repr]. intros H.
  apply string_app_inv_head, string_app_inv_tail in H. now apply str_of_Z_inj.
Qed.

Lemma name_of_identifier (i : nat) (video : json) (id : json) :
  identifier video = Some id -> name_of (i, video) = filename_of id.
Proof.
  unfold identifier, name_of, video_id, Py.get_default. cbn [fst snd].
  destruct video as [ | | | | | | d]; try discriminate. now intros ->.
Qed.

(** Videos that carry the integer identifiers [ns] get the names made of
    them, in order. *)
Lemma names_of_ids (videos : list json) (ns : list Z) (i : nat) :
  map identifier videos = map (fun n => Some (JNum n)) ns ->
  map name_of (enumerate_from i videos) = map (fun n => filename_of (JNum n)) ns.
Proof.
  revert ns i. induction videos as [ | video videos IH]; intros [ | n ns] i H;
    try discriminate; [reflexivity | ].
  cbn in H. injection H as Hid H.
  rewrite enumerate_from_cons. cbn [map]. f_equal.
  - now apply name_of_identifier.
  - now apply IH.
Qed.

(** A name without a NUL character is filed as it is. *)
Lemma arcname_no_nul (s : string) :
  Py.contains Ascii.zero s = false -> arcname s = s.
Proof.
  induction s as [ | ch s IH]; cbn [Py.contains arcname]; [reflexivity | ].
  rewrite Ascii.eqb_sym. destruct (Ascii.eqb ch Ascii.zero); [discriminate | ].
  cbn [orb]. intros H. now rewrite IH.
Qed.

Lemma contains_app (ch : ascii) (a b : string) :
  Py.contains ch (a ++ b)%string = Py.contains ch a || Py.contains ch b.
Proof.
  induction a as [ | ch' a IH]; cbn; [reflexivity | ]. now rewrite IH, orb_assoc.
Qed.

(** The decimal writing of an integer has no NUL character. *)
Lemma str_of_Z_no_nul (n : Z) : Py.contains Ascii.zero (Py.str_of_Z n) = false.
Proof.
  assert (Hdigits : forall d, Py.contains Ascii.zero (NilEmpty.string_of_uint d) = false)
    by (induction d; cbn; auto).
  assert (Huint : forall d, Py.contains Ascii.zero (NilZero.string_of_uint d) = false)
    by (intros d; destruct d; first [reflexivity | apply Hdigits]).
  unfold Py.str_of_Z, NilZero.string_of_int.
  destruct (Z.to_int n) as [d | d]; [apply Huint | ]. cbn. apply Huint.
Qed.

(** The name made of an integer identifier, and the name given in place
    of a missing one, are filed as they are. *)
Lemma arcname_int_name (n : Z) : arcname (filename_of (JNum n)) = filename_of (JNum n).
Proof.
  apply arcname_no_nul. unfold filename_of. cbn [Py.str Py.repr].
  now rewrite !contains_app, str_of_Z_no_nul.
Qed.

Lemma arcname_fallback_name (i : nat) :
  arcname (filename_of (JStr ("unknown_id_" ++ Py.str_of_nat i)%string))
  = filename_of (JStr ("unknown_id_" ++ Py.str_of_nat i)%string).
Proof.
  apply arcname_no_nul. unfold filename_of, Py.str_of_nat. cbn [Py.str].
  now rewrite !contains_app, str_of_Z_no_nul.
Qed.

(** The first [k] elements of a list are elements of it, and are distinct
    when the list's are. *)
Lemma firstn_incl_NoDup {A} (k : nat) (l : list A) :
  incl (firstn k l) l /\ (NoDup l -> NoDup (firstn k l)).
Proof.
  revert l. induction k as [ | k IH]; intros [ | a l]; cbn;
    try (split; [easy | constructor]).
  destruct (IH l) as [Hincl Hnd]. split.
  - intros x [-> | Hx]; [now left | right; now apply Hincl].
  - intros H. apply NoDup_cons_iff in H as [Hnot Hl]. constructor; [ | now apply Hnd].
    intros Hin. apply Hnot. now apply Hincl.
Qed.

End Names.

(** ** The properties of the run *)

Section Claims.

Variable c : criteria.
Variable w : world.

(** What the filter lets through, in general: every video the search
    returns passed both tests of lines 123 and 125. *)
Lemma search_returns_kept (st st' : state) (eligible : list json) :
  search c w st = (inr eligible, st') ->
  Forall (fun video => kept c video = true) eligible.
Proof.
  intros H. apply page_loop_prefix in H as (k & ->). cbn [app].
  apply Forall_forall. intros video Hin. now apply filter_In in Hin.
Qed.

(** C2: the search returns at most the requested number of videos, and it
    requests page 2 (any page after the first) only while the pages before
    it left fewer videos than requested: once the number is reached no
    further page is requested. *)
Theorem search_stops_at_count (st st' : state) (r : py (list json)) :
  form_ok c ->
  search c w st = (r, st') ->
  (forall eligible, r = inr eligible ->
     Z.of_nat (List.length eligible) <= num_videos_to_download c) /\
  exists n,
    (n <= total_pages_to_check)%nat /\
    search_requests (trace st') = search_requests (trace st) ++ seq 1 n /\
    forall page, (1 <= page <= n)%nat ->
      Z.of_nat (List.length (filter (kept c)
                  (flat_map (page_items c w) (seq 1 (page - 1)))))
      < num_videos_to_download c.
Proof.
  intros (_ & _ & Hnum & _) H. split.
  - intros eligible ->. now apply (search_length c w _ _ _ Hnum H).
  - unfold search in H.
    destruct (page_loop_requests c w _ _ _ _ _ _ H) as (n & Hn & Htr & Hcount & _).
    exists n. repeat split; [exact Hn | exact Htr | ].
    intros page Hpage. destruct (Nat.eq_dec page 1) as [-> | Hne].
    + cbn. lia.
    + specialize (Hcount page ltac:(lia)). cbn [List.length Nat.add] in Hcount. exact Hcount.
Qed.





(** C9 (amended): the videos are taken in the order of the search results
    and fetched and archived in that order: the selected videos are the kept
    records of a prefix of the pages' records; the run requests the first
    [k] of them one after the other (all of them when it reaches its last
    line); and the entries of the archive are, in order, those of the
    requested videos that were fetched and written, each under its file name
    cut at the first NUL character, the session's list holding the file
    names themselves. *)
Theorem archive_follows_search_order (files : list string) (eligible : list json)
        (st1 : state) :
  form_ok c ->
  min_duration c < max_duration c ->
  search c w (started files) = (inr eligible, st1) ->
  (exists n, eligible
             = filter (kept c)
                 (firstn n (flat_map (page_items c w) (seq 1 total_pages_to_check)))) /\
  exists k,
    (k <= List.length eligible)%nat /\
    (fst (run c w files) = Finished -> k = List.length eligible) /\
    Forall2 (fun req iv => fst req = fst iv /\ download_url c (snd iv) = inr (snd req))
            (download_requests (trace (snd (run c w files))))
            (enumerate_from 0 (firstn k eligible)) /\
    map fst (zip_file (snd (run c w files)))
    = map (fun iv => arcname (name_of iv))
          (filter (archived c w) (enumerate_from 0 (firstn k eligible))) /\
    downloaded_files (snd (run c w files))
    = map name_of (filter (archived c w) (enumerate_from 0 (firstn k eligible))).
Proof.
  intros Hform Hv Hs. split.
  { pose proof Hs as Hp. apply page_loop_prefix in Hp as (n & Hn). now exists n. }
  destruct (run_shape c w _ _ _ Hform Hv Hs) as (k & Hk & Hz & Hd & Hok & Hend).
  destruct (run_shape_events c w _ _ _ k Hs Hend) as [Hreq _].
  exists k. repeat split.
  - exact Hk.
  - intros Hfin. rewrite Hfin in Hend.
    destruct Hend as [(H & _) | [(e & bad & H & _) | (_ & H & _)]];
      [discriminate | discriminate | exact H].
  - rewrite Hreq. now apply attempt_requests.
  - rewrite Hz. apply entries_names.
  - exact Hd.
Qed.

(** One turn of the loop on a video whose fetch raises: the request and
    the error text go to the trace, and the loop goes on with the next
    video from the same archive and the same list of downloaded files. *)
Lemma download_loop_skips (i : nat) (video : json) (videos : list json)
      (st : state) (url id : json) (e : exn) :
  enough_downloaded c st = false ->
  download_url c video = inr url ->
  video_id i video = inr id ->
  fetch w i url = inl e ->
  let st' := log (Status (download_error (filename_of id) e))
                 (log (DownloadRequest i url) st) in
  download_loop c w i (video :: videos) st = download_loop c w (S i) videos st' /\
  zip_file st' = zip_file st /\
  downloaded_files st' = downloaded_files st /\
  enough_downloaded c st' = false.
Proof.
  intros Hguard Hurl Hid Hfetch. cbn zeta. repeat split; [ | exact Hguard].
  cbn [download_loop]. rewrite Hguard, Hurl. cbn [bind]. rewrite Hid. cbn [bind ret].
  unfold download. now rewrite Hfetch.
Qed.

Lemma enumerate_from_app (i : nat) (l1 l2 : list json) :
  enumerate_from i (l1 ++ l2)
  = enumerate_from i l1 ++ enumerate_from (i + List.length l1) l2.
Proof.
  revert i. induction l1 as [ | video l1 IH]; intros i.
  - cbn [app List.length]. now rewrite Nat.add_0_r.
  - cbn [app List.length]. rewrite !enumerate_from_cons, IH, Nat.add_succ_r. reflexivity.
Qed.

Lemma enumerate_from_nth (i j : nat) (videos : list json) (video : json) :
  nth_error videos j = Some video -> In ((i + j)%nat, video) (enumerate_from i videos).
Proof.
  revert i j. induction videos as [ | v videos IH]; intros i [ | j] H; try discriminate.
  - injection H as ->. rewrite Nat.add_0_r. now left.
  - rewrite enumerate_from_cons, Nat.add_succ_r. right. now apply (IH (S i) j).
Qed.




Lemma search_request_in (tr : list event) (q : string) (page : nat) :
  In (SearchRequest q page) tr -> In page (search_requests tr).
Proof.
  intros Hin. unfold search_requests. apply in_flat_map.
  exists (SearchRequest q page). split; [exact Hin | now left].
Qed.

(** A search that raises ends the run: nothing is fetched, no archive is
    made or offered, and the error text is the last thing shown. *)
Lemma failed_search_ends_run (files : list string) (e : exn) (st1 : state) :
  min_duration c < max_duration c ->
  search c w (started files) = (inl e, st1) ->
  run c w files = (SearchFailed e, st1) /\
  no_download (trace st1) /\
  no_archive (trace st1) /\
  zip_file st1 = [] /\
  downloaded_files st1 = [].
Proof.
  intros Hv Hs.
  destruct (search_started c w _ _ _ Hs) as (Hd & Hz & evs & Hevs & Hall).
  apply search_events_quiet in Hall as (Hq1 & Hq2 & _).
  repeat split; try assumption.
  - now apply run_search_failed.
  - rewrite Hevs. exact Hq1.
  - rewrite Hevs. exact Hq2.
Qed.

(** C5: when the fetch of a search page fails (the request, the status
    check or the decoding of the body raises), the run stops there: the
    search returns no list, the error text is the last thing the run does,
    no video is fetched and no archive is made or offered. *)
Theorem search_failure_is_fatal (files : list string) (page : nat) (e : exn) :
  min_duration c < max_duration c ->
  In (SearchRequest (search_keyword c) page) (trace (snd (run c w files))) ->
  search_api w (search_keyword c) page = inl e ->
  fst (run c w files) = SearchFailed e /\
  fst (search c w (started files)) = inl e /\
  (exists tr, trace (snd (run c w files))
              = tr ++ [SearchRequest (search_keyword c) page; Status (search_error e)]) /\
  no_download (trace (snd (run c w files))) /\
  no_archive (trace (snd (run c w files))) /\
  zip_file (snd (run c w files)) = [].
Proof.
  intros Hv Hin Hapi.
  apply search_request_in in Hin. rewrite (run_search_requests c w _ Hv) in Hin.
  destruct (search c w (started files)) as [r st1] eqn:Hs. cbn [snd] in Hin.
  pose proof Hs as Hloop. unfold search in Hloop.
  destruct (page_loop_fetch_error c w _ _ _ _ _ _ _ Hloop Hapi Hin) as (-> & tr & Htr).
  { cbn. tauto. }
  destruct (failed_search_ends_run _ _ _ Hv Hs) as (Hrun & Hq1 & Hq2 & Hz & _).
  rewrite Hrun. cbn [fst snd]. repeat split; try assumption. now exists tr.
Qed.

(** C6: with a minimum duration that is not below the maximum, the run
    shows the validation error and stops: no request is made, and the
    session is as it was before the click. *)
Theorem invalid_durations_abort (files : list string) :
  min_duration c >= max_duration c ->
  fst (run c w files) = InvalidInput /\
  trace (snd (run c w files)) = [Status ErrDurations] /\
  no_request (trace (snd (run c w files))) /\
  downloaded_files (snd (run c w files)) = files /\
  zip_file (snd (run c w files)) = [].
Proof.
  intros H. rewrite (run_invalid c w files ltac:(lia)). now cbn.
Qed.

(** C7: when the search finds no video, and likewise when the run ends
    with no downloaded file, no archive is offered; and the run that found
    no video, or reached its last line with no downloaded file, ends on a
    warning, by neither exception handler of the search nor an uncaught
    exception. *)
Theorem empty_results_warn (files : list string) :
  min_duration c < max_duration c ->
  fst (search c w (started files)) = inr [] \/
  downloaded_files (snd (run c w files)) = [] ->
  no_archive (trace (snd (run c w files))) /\
  (fst (search c w (started files)) = inr [] \/ fst (run c w files) = Finished ->
   ends_with_warning (trace (snd (run c w files))) /\
   (fst (run c w files) = NoVideosFound \/ fst (run c w files) = Finished)).
Proof.
  intros Hv H.
  destruct (search c w (started files)) as [r st1] eqn:Hs.
  destruct (search_started c w _ _ _ Hs) as (_ & _ & evs & Hevs & Hall).
  apply search_events_quiet in Hall as (_ & Hquiet & _).
  assert (Hst1 : no_archive (trace st1)) by (rewrite Hevs; exact Hquiet).
  cbn [fst] in *.
  destruct r as [e | [ | video eligible]].
  - rewrite (run_search_failed c w _ _ _ Hv Hs). cbn [fst snd].
    split; [exact Hst1 | ]. intros [Hnone | Hfin]; discriminate.
  - rewrite (run_no_videos c w _ _ Hv Hs). cbn [fst snd log trace]. split.
    + unfold no_archive in *. now rewrite forallb_app, Hst1.
    + intros _. split; [now exists (trace st1), WarnNoVideos | now left].
  - destruct H as [H | Hnone]; [discriminate | ].
    rewrite (run_downloads c w _ _ _ Hv Hs) in * by discriminate.
    destruct (download_loop c w 0 (video :: eligible) _) as [[e | u] st2] eqn:Hd;
      destruct (download_loop_events c w _ _ _ _ _ Hd) as (evs2 & Ht & Hall2);
      apply download_events_quiet in Hall2 as [Hquiet2 _];
      cbn [fst snd] in *.
    + split; [ | intros [Hno | Hfin]; discriminate].
      unfold no_archive in *. rewrite Ht. cbn [log trace].
      rewrite !forallb_app, Hst1, Hquiet2. reflexivity.
    + rewrite summary_eq in *. cbn [log downloaded_files trace] in *.
      rewrite Hnone. split.
      * unfold no_archive in *. rewrite !forallb_app, Ht. cbn [log trace].
        rewrite !forallb_app, Hst1, Hquiet2. reflexivity.
      * intros _. split; [ | now right].
        now exists (trace st2 ++ [Status (SuccessDownloaded (List.length (@nil string)))]),
                   WarnNoneDownloaded.
Qed.

(** Leaving out the videos that were not written keeps the names of the
    entries distinct. *)
Lemma archived_names_distinct (ivs : list (nat * json)) :
  NoDup (map (fun iv => arcname (name_of iv)) ivs) ->
  NoDup (map (fun iv => arcname (name_of iv)) (filter (archived c w) ivs)).
Proof.
  induction ivs as [ | iv ivs IH]; intros Hnames; cbn in *; [constructor | ].
  apply NoDup_cons_iff in Hnames as [Hfresh Hrest].
  destruct (archived c w iv); [ | auto].
  cbn. constructor; [ | auto].
  rewrite in_map_iff. intros (other & Hsame & Hin).
  apply filter_In in Hin as [Hin _].
  apply Hfresh. rewrite <- Hsame.
  now apply (in_map (fun iv => arcname (name_of iv))).
Qed.

(** The archive of a run with valid durations whose search returns holds
    the entries of the first [k] selected videos, for some [k]. *)
Lemma run_entries (files : list string) (eligible : list json) (st1 : state) :
  form_ok c ->
  search c w (started files) = (inr eligible, st1) ->
  exists k,
    map fst (zip_file (snd (run c w files)))
    = map (fun iv => arcname (name_of iv))
          (filter (archived c w) (enumerate_from 0 (firstn k eligible))).
Proof.
  intros Hform Hs.
  destruct (Z.le_gt_cases (max_duration c) (min_duration c)) as [Hbad | Hv].
  { exists 0%nat. now rewrite (run_invalid c w _ Hbad). }
  destruct (run_shape c w _ _ _ Hform Hv Hs) as (k & _ & Hz & _).
  exists k. rewrite Hz. apply entries_names.
Qed.

(** C8 (amended): a file name is made of the video's identifier, and the
    names written to the archive are pairwise distinct when the selected
    videos carry pairwise distinct integer identifiers. *)
Theorem distinct_ids_give_distinct_names (files : list string) (eligible : list json)
        (st1 : state) (ns : list Z) :
  form_ok c ->
  search c w (started files) = (inr eligible, st1) ->
  map identifier eligible = map (fun n => Some (JNum n)) ns ->
  NoDup ns ->
  NoDup (map fst (zip_file (snd (run c w files)))) /\
  (forall name, In name (map fst (zip_file (snd (run c w files)))) ->
     exists n, In n ns /\ name = filename_of (JNum n)).
Proof.
  intros Hform Hs Hids Hns.
  destruct (run_entries _ _ _ Hform Hs) as (k & ->).
  assert (Hnames : map (fun iv => arcname (name_of iv))
                       (enumerate_from 0 (firstn k eligible))
                   = map (fun n => filename_of (JNum n)) (firstn k ns)).
  { rewrite <- (map_map name_of arcname).
    rewrite (names_of_ids (firstn k eligible) (firstn k ns))
      by (now rewrite <- !firstn_map, Hids).
    rewrite map_map. apply map_ext. intros n. apply arcname_int_name. }
  split.
  - apply archived_names_distinct. rewrite Hnames.
    apply NoDup_map_NoDup_ForallPairs; [ | now apply firstn_incl_NoDup].
    intros a b _ _. apply filename_of_inj.
  - intros name Hin. apply in_map_iff in Hin as (iv & <- & Hin).
    apply filter_In in Hin as [Hin _].
    assert (Hname : In (arcname (name_of iv))
                       (map (fun iv => arcname (name_of iv))
                            (enumerate_from 0 (firstn k eligible))))
      by now apply (in_map (fun iv => arcname (name_of iv))).
    rewrite Hnames in Hname. apply in_map_iff in Hname as (n & <- & Hn).
    exists n. split; [now apply (proj1 (firstn_incl_NoDup k ns)) | reflexivity].
Qed.

Lemma keeps_without_videos (d : list (string * json)) (duration : json) :
  Py.lookup d "duration" = Some duration ->
  duration_in_range c duration = inr true ->
  Py.lookup d "videos" = None ->
  keeps c (JDict d) = inl (KeyError "videos").
Proof.
  intros Hd Hr Hv. unfold keeps, Py.get, Py.get_default, Py.getitem.
  cbn [bind ret]. rewrite Hd, Hr. cbn [bind]. now rewrite Hv.
Qed.

Lemma page_loop_error_last (pages : list nat) (acc : list json) (st st' : state)
      (e : exn) :
  page_loop c w pages acc st = (inl e, st') ->
  exists tr, trace st' = tr ++ [Status (search_error e)].
Proof.
  revert acc st. induction pages as [ | page pages IH]; intros acc st H; cbn in H.
  - discriminate.
  - destruct (search_page c w page acc) as [e' | [stop el]].
    + injection H as -> <-. cbn. eauto.
    + destruct stop; [discriminate | ].
      destruct (enough c el); [discriminate | ]. now apply IH in H.
Qed.

(** C10 (amended): a record with its duration in the range and no
    [videos] mapping, on a page that is fetched and with fewer kept records
    before it (on the earlier pages and on its own) than the requested
    number, ends the run in the search's exception handler: the record is
    not skipped, nothing is fetched and no archive is made or offered.  The
    exception is the [KeyError] of that record when no record before it on
    its page raises. *)
Theorem record_without_videos_is_fatal (files : list string) (page : nat)
        (pre post : list json) (d : list (string * json)) (duration : json) :
  min_duration c < max_duration c ->
  In page (search_requests (trace (snd (run c w files)))) ->
  page_items c w page = pre ++ JDict d :: post ->
  Py.lookup d "duration" = Some duration ->
  duration_in_range c duration = inr true ->
  Py.lookup d "videos" = None ->
  Z.of_nat (List.length (filter (kept c)
              (flat_map (page_items c w) (seq 1 (page - 1)) ++ pre)))
  < num_videos_to_download c ->
  exists e,
    fst (run c w files) = SearchFailed e /\
    ((forall video, In video pre -> exists b, keeps c video = inr b) ->
     e = KeyError "videos") /\
    (exists tr, trace (snd (run c w files)) = tr ++ [Status (search_error e)]) /\
    no_download (trace (snd (run c w files))) /\
    no_archive (trace (snd (run c w files))) /\
    zip_file (snd (run c w files)) = [].
Proof.
  intros Hv Hin Hitems Hdur Hrange Hvideos Hfew.
  pose proof (keeps_without_videos d duration Hdur Hrange Hvideos) as Hbad.
  rewrite (run_search_requests c w _ Hv) in Hin.
  destruct (search c w (started files)) as [r st1] eqn:Hs. cbn [snd] in Hin.
  pose proof Hs as Hloop. unfold search in Hloop.
  destruct (page_loop_requests c w _ _ _ _ _ _ Hloop) as (n & _ & Htr & _ & Hraise).
  rewrite Htr in Hin. cbn [started log trace search_requests flat_map app] in Hin.
  apply in_seq in Hin.
  destruct (Hraise page pre (JDict d) post _ Hin Hitems Hbad Hfew) as (e & -> & Hclean).
  exists e.
  destruct (failed_search_ends_run _ _ _ Hv Hs) as (Hrun & Hq1 & Hq2 & Hz & _).
  apply page_loop_error_last in Hloop.
  rewrite Hrun. cbn [fst snd]. repeat split; assumption.
Qed.

End Claims.

(** ** The properties on the sample data *)

Example repr_nested :
  Py.repr (JDict [("a", JList [JNum (-3); JStr "it's"; JNull]); ("b", JBool true)])
  = ("{'a': [-3, " ++ String Py.dquote ("it's" ++ String Py.dquote ", None], 'b': True}"))%string.
Proof. reflexivity. Qed.

Example str_int : Py.str (JNum 1234) = "1234".
Proof. reflexivity. Qed.

(** The no-break space is escaped, the letter after it is not. *)
Example repr_not_printable :
  Py.repr (JStr (String (ascii_of_nat 160) (String (ascii_of_nat 233) "")))
  = ("'\xa0" ++ String (ascii_of_nat 233) "'")%string.
Proof. reflexivity. Qed.

(** A hit that lasts 15.5 seconds is kept for 10 to 30 seconds, and not
    for 16 to 30. *)
Example float_duration_is_kept :
  kept (Sample.nature medium 5) (Scenario.hit_float_duration 120) = true /\
  kept {| search_keyword := "nature"; min_duration := 16; max_duration := 30;
          video_quality := medium; num_videos_to_download := 5 |}
       (Scenario.hit_float_duration 120) = false.
Proof. split; reflexivity. Qed.

(** Five of the eight hits last 10 to 30 seconds and have a medium
    rendition: the run ends with five entries, named after the hits. *)
Example five_of_eight :
  let r := run (Sample.nature medium 5) (Sample.one_page Sample.host_ok) [] in
  fst r = Finished /\
  map fst (zip_file (snd r))
  = ["pixabay_video_101.mp4"; "pixabay_video_103.mp4"; "pixabay_video_105.mp4";
     "pixabay_video_106.mp4"; "pixabay_video_107.mp4"] /\
  In (DownloadButton (zip_file (snd r))) (trace (snd r)).
Proof. vm_compute. repeat split. do 9 right. now left. Qed.

(** Two videos are downloaded: the run ends with the offer of the
    archive, the rule, the caption and the two names. *)
Example listing_after_offer :
  let r := run (Sample.nature medium 2) (Sample.one_page Sample.host_ok) [] in
  exists tr,
    trace (snd r)
    = tr ++ [Status (SuccessDownloaded 2); DownloadButton (zip_file (snd r)); Line "---";
             Line "You can also view individual video details below:";
             Line "- pixabay_video_101.mp4"; Line "- pixabay_video_103.mp4"].
Proof.
  vm_compute.
  exists ([Status InfoStarting; SearchRequest "nature" 1; Status (InfoFound 2);
           DownloadRequest 0 (JStr (Sample.video_url 101 "medium"));
           DownloadRequest 1 (JStr (Sample.video_url 103 "medium"))]).
  reflexivity.
Qed.

(** The only selected video is fetched, but its name is longer than the
    archive takes: the handler of line 186 reports it and the run ends with
    an empty archive, which it does not offer. *)
Example long_name_is_reported :
  let r := run (Sample.nature medium 1) Scenario.long_named [] in
  fst r = Finished /\
  List.length (download_requests (trace (snd r))) = 1%nat /\
  existsb (fun ev => match ev with
                     | Status (ErrDownloadUnexpected _ (OtherException _)) => true
                     | _ => false
                     end) (trace (snd r)) = true /\
  zip_file (snd r) = [] /\
  downloaded_files (snd r) = [] /\
  no_archive (trace (snd r)).
Proof. vm_compute. repeat split. Qed.

(** The download of the third of five selected videos fails: the archive
    has the four others. *)
Example third_download_fails :
  let r := run (Sample.nature medium 5) (Sample.one_page (Sample.host_failing 2)) [] in
  fst r = Finished /\
  map fst (zip_file (snd r))
  = ["pixabay_video_101.mp4"; "pixabay_video_103.mp4";
     "pixabay_video_106.mp4"; "pixabay_video_107.mp4"].
Proof. vm_compute. now split. Qed.

(** Every download fails: the run reaches its last line with an empty
    archive, which it does not offer. *)
Example all_downloads_fail :
  let r := run (Sample.nature medium 2) (Sample.one_page Sample.host_down) [] in
  fst r = Finished /\
  zip_file (snd r) = [] /\
  no_archive (trace (snd r)) /\
  exists tr, trace (snd r) = tr ++ [Status (SuccessDownloaded 0); Status WarnNoneDownloaded].
Proof.
  vm_compute. repeat split.
  exists ([Status InfoStarting; SearchRequest "nature" 1; Status (InfoFound 2);
           DownloadRequest 0 (JStr (Sample.video_url 101 "medium"));
           Status (ErrDownloadRequest "pixabay_video_101.mp4"
                     (RequestException "Connection refused."));
           DownloadRequest 1 (JStr (Sample.video_url 103 "medium"));
           Status (ErrDownloadRequest "pixabay_video_103.mp4"
                     (RequestException "Connection refused."))]).
  reflexivity.
Qed.

(** The search endpoint answers HTTP 500: the run stops in the handler of
    line 130. *)
Example search_http_500 :
  run (Sample.nature medium 5)
      (Sample.net (inl (RequestException "500 Server Error: Internal Server Error"))
                  (inr (Sample.body [])) Sample.host_ok) []
  = (SearchFailed (RequestException "500 Server Error: Internal Server Error"),
     {| trace := [Status InfoStarting; SearchRequest "nature" 1;
                  Status (ErrSearchRequest
                            (RequestException "500 Server Error: Internal Server Error"))];
        downloaded_files := [];
        zip_file := [] |}).
Proof. reflexivity. Qed.

(** C1: the filter tests the entry under the quality tag, not the URL in
    it.  A hit whose large rendition the API reports as unavailable (an
    empty URL) is returned by the search for the large quality; line 156
    then reads the empty URL, the request for it is refused, and the run
    ends with nothing downloaded. *)
Theorem empty_url_is_kept :
  let c := Sample.nature large 1 in
  let w := Sample.no_large_rendition in
  min_duration c < max_duration c /\
  fst (search c w (started [])) = inr [Sample.hit_no_large 31377 12] /\
  download_url c (Sample.hit_no_large 31377 12) = inr (JStr "") /\
  run c w []
  = (Finished,
     {| trace :=
          [Status InfoStarting; SearchRequest "nature" 1; Status (InfoFound 1);
           DownloadRequest 0 (JStr "");
           Status (ErrDownloadRequest "pixabay_video_31377.mp4"
                     (RequestException
                        "Invalid URL '': No scheme supplied. Perhaps you meant https://?"));
           Status (SuccessDownloaded 0); Status WarnNoneDownloaded];
        downloaded_files := [];
        zip_file := [] |}).
Proof. cbv zeta. repeat split. Qed.

Ltac form_bounds := unfold form_ok; cbn; lia.

Ltac distinct :=
  repeat (constructor; [cbn; intuition discriminate | ]); constructor.

Lemma search_stops_at_count_witness :
  let c := Sample.nature medium 2 in
  let w := Sample.net (inr (Sample.body Sample.eight_hits))
                      (inr (Sample.body Sample.eight_hits)) Sample.host_ok in
  let st := started [] in
  let r := inr [Sample.hit 101 12; Sample.hit 103 20] in
  let st' := log (SearchRequest "nature" 1) st in
  form_ok c /\
  search c w st = (r, st') /\
  ((forall eligible, r = inr eligible ->
      Z.of_nat (List.length eligible) <= num_videos_to_download c) /\
   exists n,
     (n <= total_pages_to_check)%nat /\
     search_requests (trace st') = search_requests (trace st) ++ seq 1 n /\
     forall page, (1 <= page <= n)%nat ->
       Z.of_nat (List.length (filter (kept c)
                   (flat_map (page_items c w) (seq 1 (page - 1)))))
       < num_videos_to_download c).
Proof.
  cbv zeta. split; [form_bounds | ]. split; [reflexivity | ].
  apply search_stops_at_count; [form_bounds | reflexivity].
Defined.


Lemma archive_follows_search_order_witness :
  let c := Sample.nature medium 5 in
  let w := Sample.one_page (Sample.host_failing 2) in
  let st1 := snd (search c w (started [])) in
  form_ok c /\
  min_duration c < max_duration c /\
  search c w (started []) = (inr Sample.five_hits, st1) /\
  (exists n, Sample.five_hits
             = filter (kept c)
                 (firstn n (flat_map (page_items c w) (seq 1 total_pages_to_check)))) /\
  exists k,
    (k <= List.length Sample.five_hits)%nat /\
    (fst (run c w []) = Finished -> k = List.length Sample.five_hits) /\
    Forall2 (fun req iv => fst req = fst iv /\ download_url c (snd iv) = inr (snd req))
            (download_requests (trace (snd (run c w []))))
            (enumerate_from 0 (firstn k Sample.five_hits)) /\
    map fst (zip_file (snd (run c w [])))
    = map (fun iv => arcname (name_of iv))
          (filter (archived c w) (enumerate_from 0 (firstn k Sample.five_hits))) /\
    downloaded_files (snd (run c w []))
    = map name_of (filter (archived c w) (enumerate_from 0 (firstn k Sample.five_hits))).
Proof.
  cbv zeta. split; [form_bounds | ]. split; [reflexivity | ]. split; [reflexivity | ].
  apply (archive_follows_search_order _ _ [] Sample.five_hits
           (snd (search (Sample.nature medium 5)
                        (Sample.one_page (Sample.host_failing 2)) (started []))));
    [form_bounds | reflexivity | reflexivity].
Defined.


Lemma search_failure_is_fatal_witness :
  let c := Sample.nature medium 5 in
  let w := Sample.second_page_down in
  let e := RequestException "500 Server Error: Internal Server Error" in
  min_duration c < max_duration c /\
  In (SearchRequest (search_keyword c) 2) (trace (snd (run c w []))) /\
  search_api w (search_keyword c) 2 = inl e /\
  fst (run c w []) = SearchFailed e /\
  fst (search c w (started [])) = inl e /\
  (exists tr, trace (snd (run c w []))
              = tr ++ [SearchRequest (search_keyword c) 2; Status (search_error e)]) /\
  no_download (trace (snd (run c w []))) /\
  no_archive (trace (snd (run c w []))) /\
  zip_file (snd (run c w [])) = [].
Proof.
  cbv zeta. split; [reflexivity | ].
  split; [vm_compute; do 2 right; now left | ]. split; [reflexivity | ].
  apply (search_failure_is_fatal (Sample.nature medium 5) Sample.second_page_down [] 2);
    [reflexivity | vm_compute; do 2 right; now left | reflexivity].
Defined.

Lemma invalid_durations_abort_witness :
  let c := {| search_keyword := "nature"; min_duration := 30; max_duration := 10;
              video_quality := medium; num_videos_to_download := 5 |} in
  let w := Sample.one_page Sample.host_ok in
  let files := ["pixabay_video_101.mp4"] in
  min_duration c >= max_duration c /\
  fst (run c w files) = InvalidInput /\
  trace (snd (run c w files)) = [Status ErrDurations] /\
  no_request (trace (snd (run c w files))) /\
  downloaded_files (snd (run c w files)) = files /\
  zip_file (snd (run c w files)) = [].
Proof.
  cbv zeta. split; [cbn; lia | ].
  apply invalid_durations_abort. cbn. lia.
Defined.

Lemma empty_results_warn_witness :
  let c := Sample.nature medium 5 in
  let w := Sample.nothing_in_range in
  min_duration c < max_duration c /\
  (fst (search c w (started [])) = inr [] \/ downloaded_files (snd (run c w [])) = []) /\
  no_archive (trace (snd (run c w []))) /\
  (fst (search c w (started [])) = inr [] \/ fst (run c w []) = Finished ->
   ends_with_warning (trace (snd (run c w []))) /\
   (fst (run c w []) = NoVideosFound \/ fst (run c w []) = Finished)).
Proof.
  cbv zeta. split; [reflexivity | ]. split; [left; reflexivity | ].
  apply empty_results_warn; [reflexivity | left; reflexivity].
Defined.

Lemma distinct_ids_give_distinct_names_witness :
  let c := Sample.nature medium 5 in
  let w := Sample.one_page Sample.host_ok in
  let st1 := snd (search c w (started [])) in
  let ns := [101; 103; 105; 106; 107] in
  form_ok c /\
  search c w (started []) = (inr Sample.five_hits, st1) /\
  map identifier Sample.five_hits = map (fun n => Some (JNum n)) ns /\
  NoDup ns /\
  NoDup (map fst (zip_file (snd (run c w [])))) /\
  (forall name, In name (map fst (zip_file (snd (run c w [])))) ->
     exists n, In n ns /\ name = filename_of (JNum n)).
Proof.
  cbv zeta. split; [form_bounds | ]. split; [reflexivity | ]. split; [reflexivity | ].
  split; [distinct | ].
  apply (distinct_ids_give_distinct_names _ _ [] Sample.five_hits
           (snd (search (Sample.nature medium 5)
                        (Sample.one_page Sample.host_ok) (started []))));
    [form_bounds | reflexivity | reflexivity | distinct].
Defined.

Lemma record_without_videos_is_fatal_witness :
  let c := Sample.nature medium 5 in
  let w := Sample.malformed_second in
  let d := [("id", JNum 109); ("duration", JNum 20)] in
  let pre := [Sample.hit 101 12] in
  let post := [Sample.hit 103 20] in
  min_duration c < max_duration c /\
  In 1%nat (search_requests (trace (snd (run c w [])))) /\
  page_items c w 1 = pre ++ JDict d :: post /\
  Py.lookup d "duration" = Some (JNum 20) /\
  duration_in_range c (JNum 20) = inr true /\
  Py.lookup d "videos" = None /\
  Z.of_nat (List.length (filter (kept c)
              (flat_map (page_items c w) (seq 1 (1 - 1)) ++ pre)))
  < num_videos_to_download c /\
  exists e,
    fst (run c w []) = SearchFailed e /\
    ((forall video, In video pre -> exists b, keeps c video = inr b) ->
     e = KeyError "videos") /\
    (exists tr, trace (snd (run c w [])) = tr ++ [Status (search_error e)]) /\
    no_download (trace (snd (run c w []))) /\
    no_archive (trace (snd (run c w []))) /\
    zip_file (snd (run c w [])) = [].
Proof.
  cbv zeta. split; [reflexivity | ]. split; [vm_compute; now left | ].
  do 5 (split; [reflexivity | ]).
  apply (record_without_videos_is_fatal (Sample.nature medium 5) Sample.malformed_second
           [] 1 [Sample.hit 101 12] [Sample.hit 103 20]
           [("id", JNum 109); ("duration", JNum 20)] (JNum 20));
    try reflexivity.
  vm_compute. now left.
Defined.



(** C9, as worded: the first selected video is fetched and written, but
    the archive files it under its name cut at the NUL character; the
    second is fetched and not written, its name being too long. *)
Lemma entry_name_cut_at_nul : ~ entry_names_those_fetched.
Proof.
  intros H.
  specialize (H (Sample.nature medium 5) Scenario.odd_named []
                [Scenario.hit_text_id Scenario.nul_id 12;
                 Scenario.hit_text_id Scenario.long_id 15; Sample.hit 103 20]
                (snd (search (Sample.nature medium 5) Scenario.odd_named (started [])))
                ltac:(form_bounds) eq_refl ltac:(vm_compute; reflexivity)).
  apply (f_equal (hd ""%string)) in H. vm_compute in H. discriminate.
Qed.

(** The same run: two entries, the first under the cut name; the session
    lists the two file names in full. *)
Example names_in_archive_and_session :
  let r := run (Sample.nature medium 5) Scenario.odd_named [] in
  fst r = Finished /\
  map fst (zip_file (snd r)) = ["pixabay_video_7"; "pixabay_video_103.mp4"] /\
  downloaded_files (snd r)
  = [("pixabay_video_7" ++ String Ascii.zero "8.mp4")%string; "pixabay_video_103.mp4"] /\
  List.length (download_requests (trace (snd r))) = 3%nat.
Proof. vm_compute. repeat split. Qed.

(** C8, as worded: the second page lists the video of the first page
    again, both copies are selected, and the archive gets two entries of
    the same name. *)
Lemma names_not_always_unique : ~ names_always_unique.
Proof.
  intros H.
  specialize (H (Sample.nature medium 2) Sample.listed_twice [] ltac:(form_bounds)).
  vm_compute in H. apply NoDup_cons_iff in H as [Hnot _].
  apply Hnot. now left.
Qed.

(** C10, as worded: with one video requested, the record without [videos]
    comes after the hit that fills the request; the loop has stopped before
    it, and the run goes on to download. *)
Lemma record_after_count_is_not_fatal : ~ any_record_without_videos_is_fatal.
Proof.
  intros H.
  destruct (H (Sample.nature medium 1) Sample.malformed_second [] 1%nat
              [("id", JNum 109); ("duration", JNum 20)] (JNum 20))
    as [e He].
  - form_bounds.
  - reflexivity.
  - vm_compute. now left.
  - vm_compute. right. now left.
  - reflexivity.
  - reflexivity.
  - reflexivity.
  - vm_compute in He. discriminate.
Qed.

(** ** The script: the access gate, the API key and the click *)

Section ScriptFacts.

Variable secrets : list (string * json).
Variable net : json -> world.

Lemma str_equals_true (s : string) (v : json) :
  str_equals s v = true <-> v = JStr s.
Proof.
  destruct v; cbn; try (split; [discriminate | intros [=]]).
  rewrite String.eqb_eq. split; [now intros -> | now intros [= ->]].
Qed.

Lemma init_authenticated (stored : session_state) :
  authenticated (init_session stored) = true <-> stored_authenticated stored = Some true.
Proof.
  unfold init_session. cbn.
  destruct (stored_authenticated stored) as [[ | ] | ]; split; congruence.
Qed.

Lemma secret_lookup (name : string) :
  secret secrets name
  = match Py.lookup secrets name with
    | Some v => inr v
    | None => inl (KeyError name)
    end.
Proof. reflexivity. Qed.

(** A valid run starts from an empty list of downloaded files, whatever an
    earlier run left. *)
Lemma run_fresh (c : criteria) (w : world) (l : list string) :
  min_duration c < max_duration c ->
  run c w l = run c w [].
Proof.
  intros Hv. unfold run. apply Z.leb_gt in Hv. now rewrite Hv.
Qed.

(** X1: the script does the body of the click (and so makes a request,
    shows a status text or offers an archive) only in a session that is
    already authenticated, with both secrets configured and the button
    clicked; what it does then is the run with the form's values on the
    network reached with the stored API key. *)
Theorem main_needs_login_key_click (stored : session_state) (wd : widgets) (ev : event) :
  In (Main ev) (snd (script secrets net stored wd)) ->
  stored_authenticated stored = Some true /\
  (exists v, Py.lookup secrets access_key_name = Some v) /\
  download_button_clicked wd = true /\
  exists key,
    Py.lookup secrets api_key_name = Some key /\
    fst (fst (script secrets net stored wd))
    = Ran (fst (run (form wd) (net key) (files (init_session stored)))) /\
    In ev (trace (snd (run (form wd) (net key) (files (init_session stored))))).
Proof.
  unfold script. rewrite !secret_lookup.
  destruct (Py.lookup secrets access_key_name) as [valid | ] eqn:Hvalid;
    [ | intros []].
  destruct (authenticated (init_session stored)) eqn:Hauth; cbn [negb].
  2:{ destruct (login_clicked wd); [ | intros []].
      destruct (str_equals (user_key_input wd) valid); cbn;
        intros [H | []]; discriminate. }
  apply init_authenticated in Hauth.
  destruct (Py.lookup secrets api_key_name) as [key | ] eqn:Hkey.
  2:{ cbn. intros [H | []]. discriminate. }
  destruct (download_button_clicked wd); [ | cbn; intros [H | []]; discriminate].
  cbn [fst snd]. intros [H | Hin]; [discriminate | ].
  apply in_map_iff in Hin as (ev' & [= ->] & Hin).
  repeat split; [exact Hauth | now exists valid | ].
  exists key. repeat split. exact Hin.
Qed.

(** X2: the script reruns exactly when the login holds (the session is
    not authenticated, the login button is clicked and the text typed is
    the string stored as the access key); and the session it leaves is
    authenticated exactly when it already was or the login holds: nothing
    else sets the flag and nothing clears it. *)
Theorem login_sets_the_flag (stored : session_state) (wd : widgets) :
  (fst (fst (script secrets net stored wd)) = Rerun <-> login_succeeds secrets stored wd) /\
  (authenticated (snd (fst (script secrets net stored wd))) = true <->
   stored_authenticated stored = Some true \/ login_succeeds secrets stored wd).
Proof.
  unfold script, login_succeeds. rewrite !secret_lookup.
  pose proof (init_authenticated stored) as Hinit.
  destruct (Py.lookup secrets access_key_name) as [valid | ] eqn:Hvalid.
  2:{ cbn [fst snd]. split; [split; [discriminate | intros (_ & _ & H); discriminate] | ].
      rewrite Hinit. split; [now left | ]. intros [H | (_ & _ & H)]; [exact H | discriminate]. }
  destruct (authenticated (init_session stored)) eqn:Hauth; cbn [negb].
  - assert (Hs : stored_authenticated stored = Some true) by now apply Hinit.
    destruct (Py.lookup secrets api_key_name) as [key | ];
      [destruct (download_button_clicked wd) | ]; cbn [fst snd authenticated];
      (split; [split; [discriminate | intros (H & _); contradiction] | ]);
      rewrite ?Hauth; (split; [now left | reflexivity]).
  - assert (Hs : stored_authenticated stored <> Some true).
    { intros H. apply Hinit in H. discriminate. }
    destruct (login_clicked wd).
    + destruct (str_equals (user_key_input wd) valid) eqn:Heq; cbn [fst snd authenticated].
      * apply str_equals_true in Heq. subst valid.
        split; [split; [now intros _ | reflexivity] | ].
        split; [now right | reflexivity].
      * assert (Hne : Some valid <> Some (JStr (user_key_input wd))).
        { intros [= H]. apply str_equals_true in H. congruence. }
        split; [split; [discriminate | intros (_ & _ & H); contradiction] | ].
        rewrite Hauth. split; [discriminate | ].
        intros [H | (_ & _ & H)]; contradiction.
    + cbn [fst snd]. split; [split; [discriminate | intros (_ & H & _); discriminate] | ].
      rewrite Hauth. split; [discriminate | ].
      intros [H | (_ & H & _)]; [contradiction | discriminate].
Qed.

(** X3: after a login that holds, the rerun of the script with the
    download button clicked gets through the gate and does the run with
    the form's values: the two script runs compose to the run. *)
Theorem login_then_download (stored : session_state) (wd1 wd2 : widgets) (key : json) :
  login_succeeds secrets stored wd1 ->
  Py.lookup secrets api_key_name = Some key ->
  download_button_clicked wd2 = true ->
  let first := script secrets net stored wd1 in
  let r := run (form wd2) (net key) (files (init_session stored)) in
  first = (Rerun,
           {| files := files (init_session stored); authenticated := true |},
           [Sidebar LoggedIn]) /\
  script secrets net (store (snd (fst first))) wd2
  = (Ran (fst r),
     {| files := downloaded_files (snd r); authenticated := true |},
     Sidebar ApiKeyLoaded :: map Main (trace (snd r))).
Proof.
  intros (Hnot & Hclick & Hvalid) Hkey Hdl. cbn zeta.
  assert (Hfirst : script secrets net stored wd1
                   = (Rerun,
                      {| files := files (init_session stored); authenticated := true |},
                      [Sidebar LoggedIn])).
  { unfold script. rewrite secret_lookup, Hvalid.
    replace (authenticated (init_session stored)) with false.
    - cbn [negb]. rewrite Hclick.
      now rewrite (proj2 (str_equals_true _ _) eq_refl).
    - symmetry. destruct (authenticated (init_session stored)) eqn:Ha; [ | reflexivity].
      apply init_authenticated in Ha. contradiction. }
  split; [exact Hfirst | ].
  rewrite Hfirst. cbn [fst snd]. unfold script. rewrite !secret_lookup, Hvalid, Hkey.
  cbn. now rewrite Hdl.
Qed.

(** X4: the session's list of downloaded files is replaced only by the
    body of the click with durations that pass the validation, and then by
    the list of a run that started from an empty one; every other script
    run (the gate, a missing secret, no click, invalid durations) leaves
    the list as it was. *)
Theorem files_replaced_only_by_valid_run (stored : session_state) (wd : widgets) :
  files (snd (fst (script secrets net stored wd))) <> files (init_session stored) ->
  stored_authenticated stored = Some true /\
  download_button_clicked wd = true /\
  min_duration (form wd) < max_duration (form wd) /\
  exists key,
    Py.lookup secrets api_key_name = Some key /\
    files (snd (fst (script secrets net stored wd)))
    = downloaded_files (snd (run (form wd) (net key) [])).
Proof.
  unfold script. rewrite !secret_lookup.
  destruct (Py.lookup secrets access_key_name) as [valid | ]; [ | now intros []].
  destruct (authenticated (init_session stored)) eqn:Hauth; cbn [negb].
  2:{ destruct (login_clicked wd); [ | now intros []].
      destruct (str_equals (user_key_input wd) valid); cbn; now intros []. }
  apply init_authenticated in Hauth.
  destruct (Py.lookup secrets api_key_name) as [key | ]; [ | now intros []].
  destruct (download_button_clicked wd); [ | now intros []].
  cbn [fst snd files]. intros Hnew.
  destruct (Z.le_gt_cases (max_duration (form wd)) (min_duration (form wd))) as [Hbad | Hv].
  { rewrite (run_invalid _ _ _ Hbad) in Hnew. now cbn in Hnew. }
  repeat split; [exact Hauth | exact Hv | ].
  exists key. split; [reflexivity | ]. now rewrite (run_fresh _ _ _ Hv).
Qed.

End ScriptFacts.

(** ** More on the search *)

Section SearchMore.

Variable c : criteria.
Variable w : world.

(** A page that ends the paging at line 118 has no hit records. *)
Lemma search_page_stop (page : nat) (acc res : list json) :
  search_page c w page acc = inr (true, res) ->
  page_items c w page = [] /\ res = acc.
Proof.
  unfold search_page, page_items.
  destruct (search_api w (search_keyword c) page) as [e | data]; [discriminate | ].
  cbn [bind].
  destruct data as [ | | | | | | d]; try discriminate.
  unfold Py.get, Py.get_default, Py.getitem. cbn [bind ret].
  destruct (Py.lookup d "hits") as [hits | ]; [ | cbn; now intros [= <-]].
  destruct (Py.len hits) as [e | n]; [discriminate | ]. cbn [bind].
  destruct (Py.truthy hits) eqn:Ht; cbn [negb bind ret].
  - destruct (Py.iter hits) as [e | items]; [discriminate | ]. cbn [bind].
    destruct (filter_loop c items acc); discriminate.
  - intros [= <-]. split; [ | reflexivity].
    destruct hits as [ | | | | text | l | d']; cbn in *; try reflexivity.
    + destruct text; [reflexivity | discriminate].
    + destruct l; [reflexivity | discriminate].
    + destruct d'; [reflexivity | discriminate].
Qed.

(** A page whose hits go to the filter loop has hit records. *)
Lemma search_page_continue (page : nat) (acc res : list json) :
  search_page c w page acc = inr (false, res) ->
  page_items c w page <> [].
Proof.
  unfold search_page, page_items.
  destruct (search_api w (search_keyword c) page) as [e | data]; [discriminate | ].
  cbn [bind].
  destruct data as [ | | | | | | d]; try discriminate.
  unfold Py.get, Py.get_default, Py.getitem. cbn [bind ret].
  destruct (Py.lookup d "hits") as [hits | ]; [ | cbn; discriminate].
  destruct (Py.len hits) as [e | n] eqn:Hlen; [discriminate | ]. cbn [bind].
  destruct (Py.truthy hits) eqn:Ht; cbn [negb bind ret]; [ | discriminate].
  intros _.
  destruct hits as [ | | | | text | l | d']; cbn in *; try discriminate.
  - destruct text; [discriminate | intros [=]].
  - destruct l; [discriminate | intros [=]].
  - destruct d'; [discriminate | intros [=]].
Qed.

(** The loop over a page returns the list it was given followed by the
    first kept records of the page, as many as were still wanted. *)
Lemma filter_loop_first (hits acc res : list json) :
  Z.of_nat (List.length acc) < num_videos_to_download c ->
  filter_loop c hits acc = inr res ->
  res = acc ++ firstn (Z.to_nat (num_videos_to_download c) - List.length acc)
                      (filter (kept c) hits).
Proof.
  revert acc. induction hits as [ | video hits IH]; intros acc Hacc H; cbn in H.
  - injection H as <-. cbn. rewrite firstn_nil. now rewrite app_nil_r.
  - destruct (keeps c video) as [e | keep] eqn:Hk; [discriminate | ]. cbn [bind] in H.
    cbn [filter]. unfold kept at 1. rewrite Hk.
    destruct keep; [ | now apply IH].
    replace (Z.to_nat (num_videos_to_download c) - List.length acc)%nat
      with (S (Z.to_nat (num_videos_to_download c) - List.length (acc ++ [video])))
      by (rewrite length_app; cbn; lia).
    cbn [firstn].
    destruct (enough c (acc ++ [video])) eqn:He.
    + injection H as <-. unfold enough in He. apply Z.leb_le in He.
      replace (Z.to_nat (num_videos_to_download c) - List.length (acc ++ [video]))%nat
        with 0%nat by lia.
      reflexivity.
    + unfold enough in He. apply Z.leb_gt in He.
      rewrite (IH _ He H), <- app_assoc. reflexivity.
Qed.

(** The pages requested are the first [n] of the range; each of them but
    the last had hit records; and the videos returned are the first kept
    records of those pages, as many as were still wanted. *)
Lemma page_loop_pages (len first : nat) (acc : list json) (st st' : state)
      (r : py (list json)) :
  page_loop c w (seq first len) acc st = (r, st') ->
  exists n,
    (n <= len)%nat /\
    search_requests (trace st') = search_requests (trace st) ++ seq first n /\
    (forall page, (first <= page)%nat -> (S page < first + n)%nat ->
                  page_items c w page <> []) /\
    (Z.of_nat (List.length acc) < num_videos_to_download c ->
     forall res, r = inr res ->
       res = acc ++ firstn (Z.to_nat (num_videos_to_download c) - List.length acc)
                           (filter (kept c) (flat_map (page_items c w) (seq first n)))).
Proof.
  revert first acc st. induction len as [ | len IH]; intros first acc st H; cbn in H.
  - injection H as <- <-. exists 0%nat. cbn. rewrite app_nil_r.
    repeat split; [lia | intros; lia | ].
    intros _ res [= <-]. rewrite firstn_nil. now rewrite app_nil_r.
  - set (st1 := log (SearchRequest (search_keyword c) first) st) in *.
    assert (Hst1 : search_requests (trace st1) = search_requests (trace st) ++ [first])
      by apply search_requests_log.
    destruct (search_page c w first acc) as [e | [stop el]] eqn:Hp.
    + injection H as <- <-. exists 1%nat.
      rewrite search_requests_log, app_nil_r, Hst1.
      repeat split; [lia | intros; lia | ]. intros _ res [=].
    + assert (Hone : forall st0,
                 search_requests (trace st0) = search_requests (trace st1) ->
                 (stop = true \/ enough c el = true) ->
                 exists n,
                   (n <= S len)%nat /\
                   search_requests (trace st0) = search_requests (trace st) ++ seq first n /\
                   (forall page, (first <= page)%nat -> (S page < first + n)%nat ->
                                 page_items c w page <> []) /\
                   (Z.of_nat (List.length acc) < num_videos_to_download c ->
                    forall res, (inr el : py (list json)) = inr res ->
                      res = acc ++ firstn (Z.to_nat (num_videos_to_download c)
                                           - List.length acc)
                                          (filter (kept c)
                                             (flat_map (page_items c w) (seq first n))))).
      { intros st0 Htr Hend. exists 1%nat. rewrite Htr, Hst1.
        repeat split; [lia | intros; lia | ].
        intros Hacc res [= <-]. cbn [seq flat_map]. rewrite app_nil_r.
        destruct stop.
        - apply search_page_stop in Hp as [-> ->]. cbn. rewrite firstn_nil.
          now rewrite app_nil_r.
        - apply search_page_inv in Hp as [[Hp _] | [_ Hp]]; [discriminate | ].
          now apply filter_loop_first. }
      destruct stop; [injection H as <- <-; apply Hone; [reflexivity | now left] | ].
      destruct (enough c el) eqn:He;
        [injection H as <- <-; apply Hone; [reflexivity | now right] | ].
      clear Hone.
      pose proof (search_page_continue _ _ _ Hp) as Hitems.
      destruct (search_page_prefix c w _ _ _ _ Hp) as (k & _ & Hel & Hall).
      rewrite (Hall eq_refl He), firstn_all in Hel.
      assert (Hfew : Z.of_nat (List.length el) < num_videos_to_download c)
        by (unfold enough in He; now apply Z.leb_gt in He).
      destruct (IH _ _ _ H) as (n & Hn & Htr & Hpages & Hres).
      exists (S n). repeat split.
      * lia.
      * rewrite Htr, Hst1, <- app_assoc. reflexivity.
      * intros page Hlo Hhi. destruct (Nat.eq_dec page first) as [-> | Hne];
          [exact Hitems | apply Hpages; lia].
      * intros Hacc res Hr. rewrite (Hres Hfew res Hr).
        cbn [seq flat_map]. rewrite filter_app, firstn_app.
        assert (Hlen : List.length el
                       = (List.length acc
                          + List.length (filter (kept c) (page_items c w first)))%nat)
          by (rewrite Hel; apply length_app).
        rewrite (firstn_all2 (filter (kept c) (page_items c w first))) by lia.
        rewrite Hel at 1. rewrite <- app_assoc. do 3 f_equal. lia.
Qed.

(** X5: the search returns exactly the first kept records of the pages it
    requested, as many as the requested number: among those pages no kept
    record is passed over in favour of a later one. *)
Theorem search_returns_first_kept (st st' : state) (eligible : list json) :
  form_ok c ->
  search c w st = (inr eligible, st') ->
  exists n,
    (n <= total_pages_to_check)%nat /\
    search_requests (trace st') = search_requests (trace st) ++ seq 1 n /\
    eligible = firstn (Z.to_nat (num_videos_to_download c))
                      (filter (kept c) (flat_map (page_items c w) (seq 1 n))).
Proof.
  intros (_ & _ & Hnum & _) H. unfold search in H.
  destruct (page_loop_pages _ _ _ _ _ _ H) as (n & Hn & Htr & _ & Hres).
  exists n. repeat split; [exact Hn | exact Htr | ].
  rewrite (Hres ltac:(cbn; lia) eligible eq_refl). cbn [app List.length].
  now rewrite Nat.sub_0_r.
Qed.

(** X6: a page without hit records is the last page requested: the pages
    requested are 1..n and each of them before the n-th had hit records. *)
Theorem empty_page_ends_paging (st st' : state) (r : py (list json)) :
  search c w st = (r, st') ->
  exists n,
    (n <= total_pages_to_check)%nat /\
    search_requests (trace st') = search_requests (trace st) ++ seq 1 n /\
    forall page, (1 <= page < n)%nat -> page_items c w page <> [].
Proof.
  intros H. unfold search in H.
  destruct (page_loop_pages _ _ _ _ _ _ H) as (n & Hn & Htr & Hpages & _).
  exists n. repeat split; [exact Hn | exact Htr | ].
  intros page Hpage. apply Hpages; lia.
Qed.

End SearchMore.

(** ** The filter's rule and the records it cannot read *)

Section FilterRule.

Variable c : criteria.
Variable w : world.

(** The test of line 123 holds exactly of a number within the bounds. *)
Lemma duration_in_range_true (duration : json) :
  duration_in_range c duration = inr true <->
  exists n, Py.as_number duration = inr n /\
            between (min_duration c) (max_duration c) n.
Proof.
  unfold duration_in_range, Py.int_le, Py.le_int.
  destruct duration as [ | b | n | x text | s | l | d]; cbn [Py.as_number bind ret raise];
    try (split; [discriminate | intros (n0 & [=] & _)]).
  - split.
    + intros H. exists (Py.Int (if b then 1 else 0)). split; [reflexivity | ]. cbn in *.
      destruct (min_duration c <=? (if b then 1 else 0)) eqn:Hlo; [ | discriminate].
      injection H as Hhi. apply Z.leb_le in Hlo, Hhi. lia.
    + intros (n0 & [= <-] & [Hlo Hhi]). cbn.
      apply Z.leb_le in Hlo, Hhi. now rewrite Hlo, Hhi.
  - split.
    + intros H. exists (Py.Int n). split; [reflexivity | ]. cbn in *.
      destruct (min_duration c <=? n) eqn:Hlo; [ | discriminate].
      injection H as Hhi. apply Z.leb_le in Hlo, Hhi. lia.
    + intros (n0 & [= <-] & [Hlo Hhi]). cbn.
      apply Z.leb_le in Hlo, Hhi. now rewrite Hlo, Hhi.
  - split.
    + intros H. exists (Py.Float x). split; [reflexivity | ].
      destruct x as [m e | [ | ] | ]; cbn in H; try discriminate. cbn [between].
      destruct (0 <=? e) eqn:He.
      * apply Z.leb_le in He.
        replace (Z.max 0 (- e)) with 0 by lia. replace (Z.max 0 e) with e by lia.
        destruct (min_duration c <=? m * 2 ^ e) eqn:Hlo; [ | discriminate].
        injection H as Hhi. apply Z.leb_le in Hlo, Hhi. cbn. lia.
      * apply Z.leb_gt in He.
        replace (Z.max 0 (- e)) with (- e) by lia. replace (Z.max 0 e) with 0 by lia.
        destruct (min_duration c * 2 ^ (- e) <=? m) eqn:Hlo; [ | discriminate].
        injection H as Hhi. apply Z.leb_le in Hlo, Hhi. cbn. lia.
    + intros (n0 & [= <-] & Hb).
      destruct x as [m e | negative | ]; cbn [between] in Hb; try contradiction.
      cbn [Py.int_le_number Py.number_le_int].
      destruct (0 <=? e) eqn:He.
      * apply Z.leb_le in He.
        replace (Z.max 0 (- e)) with 0 in Hb by lia.
        replace (Z.max 0 e) with e in Hb by lia. cbn in Hb.
        replace (min_duration c <=? m * 2 ^ e) with true by (symmetry; apply Z.leb_le; lia).
        unfold bind, ret. f_equal. apply Z.leb_le. lia.
      * apply Z.leb_gt in He.
        replace (Z.max 0 (- e)) with (- e) in Hb by lia.
        replace (Z.max 0 e) with 0 in Hb by lia. cbn in Hb.
        replace (min_duration c * 2 ^ (- e) <=? m) with true
          by (symmetry; apply Z.leb_le; lia).
        unfold bind, ret. f_equal. apply Z.leb_le. lia.
Qed.

(** X7: the rule of the filter as the code has it: a record is kept
    exactly when it is a dict whose duration is a number within the bounds
    (an int, a bool, which counts as 0 or 1, or a finite float), whose
    [videos] is a dict, and whose entry under the quality tag is
    true-valued (a non-empty dict, for a rendition). *)
Theorem kept_iff (video : json) :
  kept c video = true <->
  exists d duration n videos rendition,
    video = JDict d /\
    Py.lookup d "duration" = Some duration /\
    Py.as_number duration = inr n /\
    between (min_duration c) (max_duration c) n /\
    Py.lookup d "videos" = Some (JDict videos) /\
    Py.lookup videos (quality_tag (video_quality c)) = Some rendition /\
    Py.truthy rendition = true.
Proof.
  split.
  - intros H. apply kept_inv in H as (d & duration & videos & r & -> & Hd & Hrange & Hrest).
    apply duration_in_range_true in Hrange as (n & Hn & Hb).
    exists d, duration, n, videos, r. repeat split; try assumption; apply Hrest.
  - intros (d & duration & n & videos & rendition & -> & Hd & Hn & Hb & Hv & Hr & Ht).
    apply kept_true. unfold keeps, Py.get, Py.get_default, Py.getitem.
    cbn [bind ret]. rewrite Hd.
    assert (Hrange : duration_in_range c duration = inr true)
      by (apply duration_in_range_true; now exists n).
    rewrite Hrange. cbn [bind ret]. rewrite Hv. cbn [bind ret]. rewrite Hr.
    cbn [bind ret]. now rewrite Ht.
Qed.

(** X8: the records on which the filter raises: it raises exactly on a
    record that is not a dict ([AttributeError]), on one whose duration is
    neither null nor a number ([TypeError]), and on one whose duration is
    within the bounds and whose [videos] is missing ([KeyError]) or not a
    dict ([AttributeError]).  A record whose duration is missing, null or
    out of the bounds never raises, whatever else it holds. *)
Theorem keeps_raises_iff (video : json) (e : exn) :
  keeps c video = inl e <->
  (is_dict video = false /\ e = AttributeError) \/
  (exists d duration,
     video = JDict d /\ Py.lookup d "duration" = Some duration /\
     duration <> JNull /\ Py.as_number duration = inl TypeError /\ e = TypeError) \/
  (exists d duration,
     video = JDict d /\ Py.lookup d "duration" = Some duration /\
     duration_in_range c duration = inr true /\
     ((Py.lookup d "videos" = None /\ e = KeyError "videos") \/
      (exists videos, Py.lookup d "videos" = Some videos /\
                      is_dict videos = false /\ e = AttributeError))).
Proof.
  split.
  - intros H. unfold keeps, Py.get, Py.get_default in H.
    destruct video as [ | | | | | | d]; try (injection H as <-; now left).
    cbn [bind ret] in H. right.
    destruct (Py.lookup d "duration") as [duration | ] eqn:Hd; [ | discriminate H].
    destruct (duration_in_range c duration) as [e' | in_range] eqn:Hrange.
    + cbn [bind] in H. injection H as <-. left. exists d, duration.
      unfold duration_in_range, Py.int_le, Py.le_int in Hrange.
      destruct duration; try discriminate Hrange; cbn [Py.as_number bind ret] in Hrange;
        try (destruct (Py.int_le_number _ _); discriminate Hrange);
        injection Hrange as <-; repeat split; first [exact Hd | discriminate].
    + cbn [bind] in H. destruct in_range; [ | discriminate H]. right. exists d, duration.
      unfold Py.getitem in H.
      destruct (Py.lookup d "videos") as [videos | ] eqn:Hv.
      * cbn [bind] in H.
        destruct videos as [ | | | | | | vs]; unfold bind, ret, raise in H;
          try discriminate H;
          injection H as <-;
          (split; [reflexivity | split; [exact Hd | split; [exact Hrange | ]]]);
          right; eexists; repeat split.
      * injection H as <-.
        split; [reflexivity | split; [exact Hd | split; [exact Hrange | ]]].
        now left.
  - intros [[Hnot ->] | [(d & duration & -> & Hd & Hnn & Hint & ->)
                        | (d & duration & -> & Hd & Hrange & Hv)]].
    + destruct video; try reflexivity. discriminate.
    + unfold keeps, Py.get, Py.get_default. cbn [bind ret]. rewrite Hd.
      unfold duration_in_range, Py.int_le.
      destruct duration; try contradiction; try discriminate; reflexivity.
    + unfold keeps, Py.get, Py.get_default, Py.getitem. cbn [bind ret].
      rewrite Hd, Hrange. cbn [bind].
      destruct Hv as [[Hv ->] | (videos & Hv & Hnot & ->)]; rewrite Hv; [reflexivity | ].
      destruct videos; try reflexivity. discriminate.
Qed.

(** X9: a record that the filter rejects without raising has no effect on
    the loop over its page: with the record taken out the loop returns the
    same. *)
Theorem rejected_record_has_no_effect (pre post acc : list json) (video : json) :
  keeps c video = inr false ->
  filter_loop c (pre ++ video :: post) acc = filter_loop c (pre ++ post) acc.
Proof.
  intros Hk. revert acc. induction pre as [ | hit pre IH]; intros acc; cbn.
  - now rewrite Hk.
  - destruct (keeps c hit) as [e | keep]; [reflexivity | ]. cbn [bind].
    destruct keep; [ | apply IH].
    destruct (enough c (acc ++ [hit])); [reflexivity | apply IH].
Qed.

(** X10: any record on which the filter raises, on a page that is fetched
    and with fewer kept records before it than the requested number, ends
    the run in the search's exception handler: nothing is fetched and no
    archive is made or offered.  The exception shown is that record's when
    no record before it on its page raises. *)
Theorem record_that_raises_is_fatal (files : list string) (page : nat)
        (pre post : list json) (bad : json) (e0 : exn) :
  min_duration c < max_duration c ->
  In page (search_requests (trace (snd (run c w files)))) ->
  page_items c w page = pre ++ bad :: post ->
  keeps c bad = inl e0 ->
  Z.of_nat (List.length (filter (kept c)
              (flat_map (page_items c w) (seq 1 (page - 1)) ++ pre)))
  < num_videos_to_download c ->
  exists e,
    fst (run c w files) = SearchFailed e /\
    ((forall video, In video pre -> exists b, keeps c video = inr b) -> e = e0) /\
    (exists tr, trace (snd (run c w files)) = tr ++ [Status (search_error e)]) /\
    no_download (trace (snd (run c w files))) /\
    no_archive (trace (snd (run c w files))) /\
    zip_file (snd (run c w files)) = [].
Proof.
  intros Hv Hin Hitems Hbad Hfew.
  rewrite (run_search_requests c w _ Hv) in Hin.
  destruct (search c w (started files)) as [r st1] eqn:Hs. cbn [snd] in Hin.
  pose proof Hs as Hloop. unfold search in Hloop.
  destruct (page_loop_requests c w _ _ _ _ _ _ Hloop) as (n & _ & Htr & _ & Hraise).
  rewrite Htr in Hin. cbn [started log trace search_requests flat_map app] in Hin.
  apply in_seq in Hin.
  destruct (Hraise page pre bad post _ Hin Hitems Hbad Hfew) as (e & -> & Hclean).
  exists e.
  destruct (failed_search_ends_run c w _ _ _ Hv Hs) as (Hrun & Hq1 & Hq2 & Hz & _).
  apply page_loop_error_last in Hloop.
  rewrite Hrun. cbn [fst snd]. repeat split; assumption.
Qed.

(** X11: what the body of the first page makes of the run when it has no
    hits to go through: a body that is not a dict, or whose [hits] is null,
    a boolean or a number, ends the run in the search's handler; a body
    without [hits], or with an empty one, ends it on the warning that no
    video was found.  In each case page 1 is the only request. *)
Theorem first_page_without_hits (files : list string) (data : json) :
  min_duration c < max_duration c ->
  search_api w (search_keyword c) 1 = inr data ->
  let shown m :=
    {| trace := [Status InfoStarting; SearchRequest (search_keyword c) 1; Status m];
       downloaded_files := []; zip_file := [] |} in
  (is_dict data = false ->
   run c w files = (SearchFailed AttributeError, shown (ErrSearchUnexpected AttributeError))) /\
  (forall d hits,
     data = JDict d -> Py.lookup d "hits" = Some hits -> Py.len hits = inl TypeError ->
     run c w files = (SearchFailed TypeError, shown (ErrSearchUnexpected TypeError))) /\
  (forall d,
     data = JDict d ->
     Py.lookup d "hits" = None \/
     (exists hits, Py.lookup d "hits" = Some hits /\ Py.len hits = inr 0%nat) ->
     run c w files = (NoVideosFound, shown WarnNoVideos)).
Proof.
  intros Hv Hapi. cbn zeta.
  assert (Hrun : forall r,
             search_page c w 1 [] = r ->
             run c w files
             = match r with
               | inl e => (SearchFailed e,
                           log (Status (search_error e))
                               (log (SearchRequest (search_keyword c) 1) (started files)))
               | inr (true, []) =>
                   (NoVideosFound,
                    log (Status WarnNoVideos)
                        (log (SearchRequest (search_keyword c) 1) (started files)))
               | inr _ => run c w files
               end).
  { intros r Hr. unfold run. apply Z.leb_gt in Hv. rewrite Hv.
    unfold search. change (seq 1 total_pages_to_check) with [1; 2]%nat.
    cbn [page_loop]. rewrite Hr. destruct r as [e | [[ | ] [ | ? ?]]]; reflexivity. }
  unfold search_page in Hrun. rewrite Hapi in Hrun. cbn [bind] in Hrun.
  repeat split.
  - intros Hnot. rewrite (Hrun _ eq_refl).
    destruct data; try reflexivity. discriminate.
  - intros d hits -> Hhits Hlen. rewrite (Hrun _ eq_refl).
    unfold Py.get_default. cbn [bind ret]. rewrite Hhits, Hlen. reflexivity.
  - intros d -> [Hnone | (hits & Hhits & Hlen)]; rewrite (Hrun _ eq_refl);
      unfold Py.get, Py.get_default; cbn [bind ret].
    + rewrite Hnone. reflexivity.
    + rewrite Hhits, Hlen. cbn [bind].
      replace (Py.truthy hits) with false; [reflexivity | ].
      destruct hits as [ | | | | text | l | d']; try discriminate; cbn in Hlen |- *.
      * now destruct text.
      * now destruct l.
      * now destruct d'.
Qed.

End FilterRule.

(** ** What a run asks of the network *)

Section Requests.

Variable c : criteria.

Lemma attempt_requests_length (w : world) (ivs : list (nat * json)) :
  (List.length (download_requests (attempt_events c w ivs)) <= List.length ivs)%nat.
Proof.
  induction ivs as [ | iv ivs IH]; [constructor | ].
  rewrite attempt_events_cons, download_requests_app, length_app. cbn [List.length].
  destruct (attempt c w iv) as [e | [[url name] [e | entry]]]; cbn; lia.
Qed.

(** The requests for videos that a run makes are those of the attempts of
    the first [k] selected videos, for some [k]. *)
Lemma run_download_requests (w : world) (files : list string) (eligible : list json)
      (st1 : state) :
  form_ok c ->
  min_duration c < max_duration c ->
  search c w (started files) = (inr eligible, st1) ->
  exists k,
    (k <= List.length eligible)%nat /\
    download_requests (trace (snd (run c w files)))
    = download_requests (attempt_events c w (enumerate_from 0 (firstn k eligible))).
Proof.
  intros Hform Hv Hs.
  destruct (run_shape c w _ _ _ Hform Hv Hs) as (k & Hk & _ & _ & _ & Hend).
  exists k. split; [exact Hk | ]. now apply (run_shape_events c w _ _ _ k Hs).
Qed.

(** X12: a run asks the search API for at most two pages and the video
    host for at most as many videos as were requested, so it makes at most
    22 requests in all. *)
Theorem requests_bounded (w : world) (files : list string) :
  form_ok c ->
  (List.length (search_requests (trace (snd (run c w files)))) <= total_pages_to_check)%nat /\
  Z.of_nat (List.length (download_requests (trace (snd (run c w files)))))
  <= num_videos_to_download c /\
  (List.length (filter is_request (trace (snd (run c w files)))) <= 22)%nat.
Proof.
  intros Hform. pose proof Hform as (_ & _ & Hnum & Hmax).
  assert (Hsplit : forall tr,
             List.length (filter is_request tr)
             = (List.length (search_requests tr) + List.length (download_requests tr))%nat).
  { induction tr as [ | ev tr IH]; [reflexivity | ].
    unfold search_requests, download_requests in *.
    destruct ev; cbn [filter is_request flat_map app List.length]; lia. }
  assert (Hboth :
            (List.length (search_requests (trace (snd (run c w files))))
             <= total_pages_to_check)%nat /\
            Z.of_nat (List.length (download_requests (trace (snd (run c w files)))))
            <= num_videos_to_download c).
  { destruct (Z.le_gt_cases (max_duration c) (min_duration c)) as [Hbad | Hv].
    { rewrite (run_invalid c w _ Hbad). cbn. split; lia. }
    split.
    - rewrite (run_search_requests c w _ Hv).
      destruct (search c w (started files)) as [r st1] eqn:Hs. unfold search in Hs.
      destruct (page_loop_pages c w _ _ _ _ _ _ Hs) as (n & Hn & Htr & _).
      cbn [snd]. rewrite Htr. cbn. rewrite length_seq. exact Hn.
    - destruct (search c w (started files)) as [[e | eligible] st1] eqn:Hs.
      + destruct (failed_search_ends_run c w _ _ _ Hv Hs) as (Hrun & _).
        destruct (search_started c w _ _ _ Hs) as (_ & _ & evs & Hevs & Hall).
        apply search_events_quiet in Hall as (_ & _ & Hnone).
        assert (Hst1 : download_requests (trace st1) = []) by (rewrite Hevs; exact Hnone).
        rewrite Hrun. cbn [snd]. rewrite Hst1. cbn. lia.
      + destruct (run_download_requests w _ _ _ Hform Hv Hs) as (k & Hk & ->).
        pose proof (attempt_requests_length w (enumerate_from 0 (firstn k eligible))) as Hle.
        rewrite enumerate_from_length in Hle.
        pose proof (firstn_le_length k eligible).
        pose proof (search_length c w _ _ _ Hnum Hs). lia. }
  destruct Hboth as [Hs Hd]. repeat split; [exact Hs | exact Hd | ].
  rewrite Hsplit. unfold total_pages_to_check in Hs. lia.
Qed.

(** X13: for durations that pass the validation, the session's list of
    downloaded files and the archive go together, however the run ends: the
    list has one file name for each entry, in the order of the entries, and
    an entry is filed under that file name cut at its first NUL character
    (under the file name itself when it has none). *)
Theorem session_list_mirrors_archive (w : world) (files : list string) :
  form_ok c ->
  min_duration c < max_duration c ->
  map fst (zip_file (snd (run c w files)))
  = map arcname (downloaded_files (snd (run c w files))) /\
  (Forall (fun filename => Py.contains Ascii.zero filename = false)
          (downloaded_files (snd (run c w files))) ->
   map fst (zip_file (snd (run c w files))) = downloaded_files (snd (run c w files))).
Proof.
  intros Hform Hv.
  assert (Hcut : map fst (zip_file (snd (run c w files)))
                 = map arcname (downloaded_files (snd (run c w files)))).
  { destruct (search c w (started files)) as [[e | eligible] st1] eqn:Hs.
    - destruct (failed_search_ends_run c w _ _ _ Hv Hs) as (Hrun & _ & _ & Hz & Hd).
      rewrite Hrun. cbn [snd]. now rewrite Hz, Hd.
    - destruct (run_shape c w _ _ _ Hform Hv Hs) as (k & _ & Hz & Hd & _).
      rewrite Hz, Hd. apply noted_entries. }
  split; [exact Hcut | ].
  rewrite Hcut. generalize (downloaded_files (snd (run c w files))) as filenames.
  induction 1 as [ | filename filenames Hname _ IH]; [reflexivity | ].
  cbn [map]. now rewrite (arcname_no_nul _ Hname), IH.
Qed.

Lemma search_page_ext (w1 w2 : world) (page : nat) (acc : list json) :
  search_api w1 (search_keyword c) page = search_api w2 (search_keyword c) page ->
  search_page c w1 page acc = search_page c w2 page acc.
Proof. unfold search_page. now intros ->. Qed.

Lemma page_loop_ext (w1 w2 : world) (pages : list nat) (acc : list json) (st : state) :
  (forall page, In page pages ->
     search_api w1 (search_keyword c) page = search_api w2 (search_keyword c) page) ->
  page_loop c w1 pages acc st = page_loop c w2 pages acc st.
Proof.
  revert acc st. induction pages as [ | page pages IH]; intros acc st Hsame;
    [reflexivity | ].
  cbn [page_loop].
  rewrite (search_page_ext w1 w2 page acc (Hsame page (or_introl eq_refl))).
  destruct (search_page c w2 page acc) as [e | [[ | ] el]]; try reflexivity.
  destruct (enough c el); [reflexivity | ].
  apply IH. intros p Hp. apply Hsame. now right.
Qed.

Lemma download_loop_ext (w1 w2 : world) (videos : list json) (i : nat) (st : state) :
  (forall j url, video_host w1 j url = video_host w2 j url) ->
  download_loop c w1 i videos st = download_loop c w2 i videos st.
Proof.
  intros Hsame. revert i st. induction videos as [ | video videos IH]; intros i st;
    [reflexivity | ].
  cbn [download_loop].
  destruct (enough_downloaded c st); [reflexivity | ].
  destruct (url <- download_url c video ;; id <- video_id i video ;; ret (url, id))
    as [e | [url id]]; [reflexivity | ].
  assert (Hfetch : fetch w1 i url = fetch w2 i url).
  { unfold fetch. destruct (String.eqb (Py.str url) ""); [reflexivity | apply Hsame]. }
  unfold download. rewrite Hfetch.
  destruct (data <- fetch w2 i url ;; _) as [e | st']; apply IH.
Qed.

(** X14: a run depends on the network only through the first two pages
    of the search for its keyword and through the video host: two networks
    that agree on those give the same run, whatever the search would answer
    for page 3 and beyond or for another keyword. *)
Theorem pages_beyond_cap_ignored (w1 w2 : world) (files : list string) :
  (forall page, (1 <= page <= total_pages_to_check)%nat ->
     search_api w1 (search_keyword c) page = search_api w2 (search_keyword c) page) ->
  (forall i url, video_host w1 i url = video_host w2 i url) ->
  run c w1 files = run c w2 files.
Proof.
  intros Hpages Hhost. unfold run.
  destruct (max_duration c <=? min_duration c); [reflexivity | ].
  unfold search. rewrite (page_loop_ext w1 w2).
  2:{ intros page Hin. apply in_seq in Hin. apply Hpages. lia. }
  destruct (page_loop c w2 _ _ _) as [[e | [ | video eligible]] st1]; try reflexivity.
  rewrite (download_loop_ext w1 w2 _ _ _ Hhost). reflexivity.
Qed.

End Requests.

(** ** The exception that no handler catches *)

Section Uncaught.

Variable c : criteria.
Variable w : world.

Lemma attempt_url_raises (i : nat) (video : json) (e : exn) :
  download_url c video = inl e -> attempt c w (i, video) = inl e.
Proof. unfold attempt. cbn [fst snd]. now intros ->. Qed.

(** X15: line 156 is outside the [try]: when it raises on a selected
    video (its rendition has no URL to read), the run ends there by an
    uncaught exception.  The videos before it were attempted, and those of
    them that were fetched and written are in the archive, but the archive is
    never offered; the video and those after it are not requested. *)
Theorem missing_url_is_uncaught (files : list string) (pre post : list json)
        (bad : json) (e : exn) (st1 : state) :
  form_ok c ->
  min_duration c < max_duration c ->
  search c w (started files) = (inr (pre ++ bad :: post), st1) ->
  Forall (fun iv => exists x, attempt c w iv = inr x) (enumerate_from 0 pre) ->
  download_url c bad = inl e ->
  fst (run c w files) = Uncaught e /\
  zip_file (snd (run c w files)) = entries c w (enumerate_from 0 pre) /\
  trace (snd (run c w files))
  = trace st1 ++ Status (InfoFound (List.length (pre ++ bad :: post)))
              :: attempt_events c w (enumerate_from 0 pre) /\
  Forall2 (fun req iv => fst req = fst iv /\ download_url c (snd iv) = inr (snd req))
          (download_requests (trace (snd (run c w files)))) (enumerate_from 0 pre) /\
  no_archive (trace (snd (run c w files))).
Proof.
  intros Hform Hv Hs Hpre Hurl.
  pose proof (attempt_url_raises (List.length pre) bad e Hurl) as Hbad.
  destruct (search_started c w _ _ _ Hs) as (_ & _ & evs & Hevs & Hall).
  apply search_events_quiet in Hall as (_ & Hquiet & Hnone).
  rewrite (run_downloads c w _ _ _ Hv Hs) by (now destruct pre).
  destruct (download_loop c w 0 (pre ++ bad :: post) _) as [r st2] eqn:Hd.
  destruct (run_download_inv c w _ _ _ _ _ Hform Hs Hd) as (k & Hk & Hr & Hz & _ & Ht & Hok).
  rewrite length_app in Hk. cbn [List.length] in Hk.
  (* the loop did not get past the video *)
  assert (Hstop : (k <= List.length pre)%nat).
  { destruct (Nat.le_gt_cases k (List.length pre)) as [Hle | Hgt]; [exact Hle | exfalso].
    assert (Hfirst : firstn k (pre ++ bad :: post)
                     = pre ++ bad :: firstn (k - S (List.length pre)) post).
    { rewrite firstn_app, firstn_all2 by lia.
      replace (k - List.length pre)%nat with (S (k - S (List.length pre))) by lia.
      reflexivity. }
    rewrite Hfirst, enumerate_from_app, enumerate_from_cons in Hok.
    apply Forall_app in Hok as [_ Hok]. apply Forall_inv in Hok as [x Hx].
    cbn [Nat.add] in Hx. congruence. }
  destruct r as [e' | u].
  2:{ rewrite Hr, length_app in Hstop. cbn [List.length] in Hstop. lia. }
  destruct Hr as (video & Hnth & Hraise).
  assert (Hk' : k = List.length pre).
  { destruct (Nat.eq_dec k (List.length pre)) as [Heq | Hne]; [exact Heq | exfalso].
    rewrite nth_error_app1 in Hnth by lia.
    apply (enumerate_from_nth 0) in Hnth. cbn [Nat.add] in Hnth.
    rewrite Forall_forall in Hpre. destruct (Hpre _ Hnth) as [x Hx]. congruence. }
  subst k. rewrite nth_error_app2, Nat.sub_diag in Hnth by lia.
  injection Hnth as <-.
  assert (Hfirst : firstn (List.length pre) (pre ++ bad :: post) = pre).
  { rewrite firstn_app, firstn_all, Nat.sub_diag. cbn. apply app_nil_r. }
  rewrite Hfirst in Hz, Ht. cbn [fst snd].
  repeat split; [congruence | exact Hz | exact Ht | | ].
  - rewrite Ht, Hevs. cbn [download_requests flat_map app].
    fold (download_requests (evs ++ Status (InfoFound (List.length (pre ++ bad :: post)))
                             :: attempt_events c w (enumerate_from 0 pre))).
    rewrite download_requests_app, Hnone. cbn [app download_requests flat_map].
    now apply attempt_requests.
  - pose proof (attempt_events_download c w (enumerate_from 0 pre)) as Hdl.
    apply download_events_quiet in Hdl as [Hquiet' _].
    rewrite Ht, Hevs. unfold no_archive in *. cbn [forallb app].
    rewrite forallb_app. cbn [forallb]. now rewrite Hquiet, Hquiet'.
Qed.

(** An exception that leaves the loop over the videos is that of lines
    156-157 on one of them. *)
Lemma download_loop_raises (videos : list json) (i : nat) (st st' : state) (e : exn) :
  download_loop c w i videos st = (inl e, st') ->
  exists j video, nth_error videos j = Some video /\
                  attempt c w ((i + j)%nat, video) = inl e.
Proof.
  revert i st. induction videos as [ | video videos IH]; intros i st H;
    cbn [download_loop] in H.
  - discriminate.
  - destruct (enough_downloaded c st); [discriminate | ].
    destruct (url <- download_url c video ;; id <- video_id i video ;; ret (url, id))
      as [e' | [url id]] eqn:Hline.
    + injection H as -> <-. exists 0%nat, video. split; [reflexivity | ].
      rewrite Nat.add_0_r. now apply attempt_raises.
    + assert (Hnext : exists st1, download_loop c w (S i) videos st1 = (inl e, st'))
        by (destruct (download w i url (filename_of id) _); eauto).
      destruct Hnext as [st1 Hnext].
      destruct (IH _ _ Hnext) as (j & v & Hnth & Hv).
      exists (S j), v. split; [exact Hnth | ]. now rewrite Nat.add_succ_r.
Qed.

(** X16: the only exceptions that can leave a run uncaught come from
    reading the URL of a selected video's rendition on line 156: the
    [KeyError] of a rendition without [url], or the [TypeError] of a
    true-valued entry that is not a dict.  The filter guarantees the rest of
    the path ([videos] and the entry under the quality tag are there). *)
Theorem uncaught_only_from_url (files : list string) (e : exn) :
  fst (run c w files) = Uncaught e ->
  exists eligible st1 video rendition,
    search c w (started files) = (inr eligible, st1) /\
    In video eligible /\
    (videos <- Py.getitem video "videos" ;;
     Py.getitem videos (quality_tag (video_quality c))) = inr rendition /\
    Py.truthy rendition = true /\
    Py.getitem rendition "url" = inl e /\
    (e = KeyError "url" \/ e = TypeError).
Proof.
  intros Hrun.
  destruct (Z.le_gt_cases (max_duration c) (min_duration c)) as [Hbad | Hv].
  { rewrite (run_invalid c w _ Hbad) in Hrun. discriminate. }
  destruct (search c w (started files)) as [[e' | eligible] st1] eqn:Hs.
  { rewrite (run_search_failed c w _ _ _ Hv Hs) in Hrun. discriminate. }
  destruct eligible as [ | first eligible].
  { rewrite (run_no_videos c w _ _ Hv Hs) in Hrun. discriminate. }
  rewrite (run_downloads c w _ _ _ Hv Hs) in Hrun by discriminate.
  destruct (download_loop c w 0 (first :: eligible) _) as [[e' | u] st2] eqn:Hd;
    [ | discriminate].
  injection Hrun as ->.
  destruct (download_loop_raises _ _ _ _ _ Hd) as (j & video & Hnth & Hat).
  apply nth_error_In in Hnth.
  pose proof (search_returns_kept c w _ _ _ Hs) as Hkept.
  rewrite Forall_forall in Hkept. specialize (Hkept _ Hnth).
  apply kept_inv in Hkept
    as (d & duration & videos & rendition & -> & _ & _ & Hvs & Hr & Ht).
  exists (first :: eligible), st1, (JDict d), rendition.
  assert (Hpath : (videos <- Py.getitem (JDict d) "videos" ;;
                   Py.getitem videos (quality_tag (video_quality c))) = inr rendition).
  { cbn [Py.getitem]. rewrite Hvs. cbn [bind ret Py.getitem]. now rewrite Hr. }
  assert (Hurl : download_url c (JDict d) = Py.getitem rendition "url").
  { unfold download_url. cbn [Py.getitem]. rewrite Hvs. cbn [bind ret Py.getitem].
    now rewrite Hr. }
  unfold attempt in Hat. cbn [fst snd] in Hat. rewrite Hurl in Hat.
  destruct (Py.getitem rendition "url") as [e' | url] eqn:Hget.
  - cbn [bind] in Hat. injection Hat as ->.
    repeat split; try assumption; try reflexivity.
    unfold Py.getitem in Hget.
    destruct rendition as [ | | | | | | r]; try (injection Hget as <-; now right).
    destruct (Py.lookup r "url"); [discriminate | ]. injection Hget as <-. now left.
  - cbn in Hat. destruct (Py.lookup d "id"); discriminate.
Qed.

End Uncaught.

(** ** Names of the videos without an identifier *)

Section Fallback.

Lemma str_of_Z_parses (n : Z) :
  NilZero.int_of_string (Py.str_of_Z n) = Some (Z.to_int n).
Proof.
  unfold Py.str_of_Z. apply NilZero.isi.
  - destruct n as [ | p | p]; cbn; try discriminate.
    intros [= Hp]. now apply (DecimalPos.Unsigned.to_uint_nonnil p).
  - destruct n as [ | p | p]; cbn; try discriminate.
    intros [= Hp]. now apply (DecimalPos.Unsigned.to_uint_nonnil p).
Qed.

(** No integer is written as the name given in place of a missing
    identifier. *)
Lemma str_of_Z_not_fallback (n : Z) (s : string) :
  Py.str_of_Z n <> ("unknown_id_" ++ s)%string.
Proof.
  intros H. pose proof (str_of_Z_parses n) as Hparse. rewrite H in Hparse.
  unfold NilZero.int_of_string, NilZero.uint_of_string in Hparse.
  cbn [append Ascii.eqb Bool.eqb] in Hparse.
  cbn [NilEmpty.uint_of_string] in Hparse.
  destruct (uint_of_char "n" _) in Hparse; discriminate.
Qed.

Lemma filename_of_str_inj (a b : string) :
  filename_of (JStr a) = filename_of (JStr b) -> a = b.
Proof.
  unfold filename_of. cbn [Py.str]. intros H.
  now apply string_app_inv_head, string_app_inv_tail in H.
Qed.

Lemma filename_int_not_fallback (n : Z) (s : string) :
  filename_of (JNum n) <> filename_of (JStr ("unknown_id_" ++ s)%string).
Proof.
  unfold filename_of. cbn [Py.str Py.repr]. intros H.
  apply string_app_inv_head, string_app_inv_tail in H.
  now apply str_of_Z_not_fallback in H.
Qed.

Lemma name_of_fallback (i : nat) (d : list (string * json)) :
  Py.lookup d "id" = None ->
  name_of (i, JDict d) = filename_of (JStr ("unknown_id_" ++ Py.str_of_nat i)%string).
Proof.
  intros H. unfold name_of, video_id, Py.get_default. cbn [fst snd]. now rewrite H.
Qed.

Lemma names_shape (videos : list json) (i : nat) (name : string) :
  Forall plain_id videos ->
  In name (map name_of (enumerate_from i videos)) ->
  (exists n, In n (integer_ids videos) /\ name = filename_of (JNum n)) \/
  (exists j, (i <= j)%nat /\
             name = filename_of (JStr ("unknown_id_" ++ Py.str_of_nat j)%string)).
Proof.
  intros Hplain. revert i. induction Hplain as [ | video videos [Hdict Hid] _ IH];
    intros i Hin; [contradiction | ].
  rewrite enumerate_from_cons in Hin. cbn [map] in Hin.
  destruct Hin as [<- | Hin].
  - destruct video as [ | | | | | | d]; try discriminate. cbn [identifier] in Hid.
    destruct Hid as [Hnone | [n Hn]].
    + right. exists i. split; [lia | now apply name_of_fallback].
    + left. exists n. split.
      * unfold integer_ids. cbn [flat_map identifier]. rewrite Hn. now left.
      * now apply name_of_identifier.
  - destruct (IH (S i) Hin) as [(n & Hn & ->) | (j & Hj & ->)].
    + left. exists n. split; [ | reflexivity].
      unfold integer_ids. cbn [flat_map]. apply in_or_app. now right.
    + right. exists j. split; [lia | reflexivity].
Qed.

Lemma mixed_names_distinct (videos : list json) (i : nat) :
  Forall plain_id videos ->
  NoDup (integer_ids videos) ->
  NoDup (map name_of (enumerate_from i videos)).
Proof.
  intros Hplain. revert i.
  induction Hplain as [ | video videos Hvideo Hplain IH]; intros i Hids; [constructor | ].
  rewrite enumerate_from_cons. cbn [map].
  pose proof Hvideo as [Hdict Hid].
  destruct video as [ | | | | | | d]; try discriminate. cbn [identifier] in Hid.
  unfold integer_ids in Hids. cbn [flat_map identifier] in Hids.
  fold (integer_ids videos) in Hids.
  destruct Hid as [Hnone | [n Hn]].
  - rewrite Hnone in Hids. cbn [app] in Hids.
    constructor; [ | now apply IH].
    rewrite (name_of_fallback i d Hnone). intros Hin.
    destruct (names_shape _ _ _ Hplain Hin) as [(m & _ & Hm) | (j & Hj & Hname)].
    + symmetry in Hm. now apply filename_int_not_fallback in Hm.
    + apply filename_of_str_inj, string_app_inv_head in Hname.
      apply str_of_Z_inj, Nat2Z.inj in Hname. lia.
  - rewrite Hn in Hids. cbn [app] in Hids. apply NoDup_cons_iff in Hids as [Hfresh Hrest].
    constructor; [ | now apply IH].
    rewrite (name_of_identifier i (JDict d) (JNum n) Hn). intros Hin.
    destruct (names_shape _ _ _ Hplain Hin) as [(m & Hm & Hname) | (j & _ & Hname)].
    + apply filename_of_inj in Hname. congruence.
    + now apply filename_int_not_fallback in Hname.
Qed.

(** The names of videos with an integer identifier or none are filed as
    they are. *)
Lemma plain_names_uncut (videos : list json) (i : nat) :
  Forall plain_id videos ->
  map (fun iv => arcname (name_of iv)) (enumerate_from i videos)
  = map name_of (enumerate_from i videos).
Proof.
  intros Hplain. revert i.
  induction Hplain as [ | video videos [Hdict Hid] _ IH]; intros i; [reflexivity | ].
  rewrite enumerate_from_cons. cbn [map]. rewrite IH. f_equal.
  destruct video as [ | | | | | | d]; try discriminate. cbn [identifier] in Hid.
  destruct Hid as [Hnone | [n Hn]].
  - rewrite (name_of_fallback i d Hnone). apply arcname_fallback_name.
  - rewrite (name_of_identifier i (JDict d) (JNum n) Hn). apply arcname_int_name.
Qed.

Lemma firstn_Forall {A} (P : A -> Prop) (k : nat) (l : list A) :
  Forall P l -> Forall P (firstn k l).
Proof.
  intros H. rewrite Forall_forall in *. intros x Hx.
  apply H. now apply (proj1 (firstn_incl_NoDup k l)).
Qed.

Lemma integer_ids_firstn (k : nat) (videos : list json) :
  NoDup (integer_ids videos) -> NoDup (integer_ids (firstn k videos)).
Proof.
  intros H. rewrite <- (firstn_skipn k videos) in H.
  unfold integer_ids in *. rewrite flat_map_app in H.
  now apply NoDup_app_remove_r in H.
Qed.

Variable c : criteria.
Variable w : world.

(** X17: a selected video without an identifier is named after its
    position in the list ([pixabay_video_unknown_id_<i>.mp4]); such names
    differ from one another and from every name made of an integer
    identifier, so the names in the archive are pairwise distinct when the
    selected videos that carry an identifier carry pairwise distinct
    integers. *)
Theorem fallback_names_distinct (files : list string) (eligible : list json)
        (st1 : state) :
  form_ok c ->
  search c w (started files) = (inr eligible, st1) ->
  (forall video, In video eligible ->
     identifier video = None \/ exists n, identifier video = Some (JNum n)) ->
  NoDup (integer_ids eligible) ->
  NoDup (map fst (zip_file (snd (run c w files)))) /\
  (forall i d, nth_error eligible i = Some (JDict d) -> Py.lookup d "id" = None ->
     name_of (i, JDict d)
     = ("pixabay_video_unknown_id_" ++ Py.str_of_nat i ++ ".mp4")%string).
Proof.
  intros Hform Hs Hid Hids. split.
  2:{ intros i d _ Hnone. now rewrite (name_of_fallback i d Hnone). }
  assert (Hplain : Forall plain_id eligible).
  { pose proof (search_returns_kept c w _ _ _ Hs) as Hkept.
    rewrite Forall_forall in *. intros video Hin. split; [ | now apply Hid].
    apply Hkept, kept_inv in Hin as (d & _ & _ & _ & -> & _). reflexivity. }
  destruct (run_entries c w _ _ _ Hform Hs) as (k & ->).
  apply archived_names_distinct.
  rewrite plain_names_uncut by now apply firstn_Forall.
  apply mixed_names_distinct.
  - now apply firstn_Forall.
  - now apply integer_ids_firstn.
Qed.

End Fallback.

(** ** When the archive is offered *)

Section Offer.

Variable c : criteria.
Variable w : world.

Lemma noted_length (ivs : list (nat * json)) :
  List.length (noted c w ivs) = List.length (entries c w ivs).
Proof. unfold noted. now rewrite length_map, entries_length. Qed.

(** X18: an archive is offered for download exactly when the run reaches
    its last line with at least one entry in the archive, and the archive
    offered is the one the run built.  The run then ends with the offer, a
    rule, a caption and one line for each downloaded file, in that order,
    and makes no other offer. *)
Theorem archive_offered_iff (files : list string) :
  form_ok c ->
  min_duration c < max_duration c ->
  ((exists data, In (DownloadButton data) (trace (snd (run c w files)))) <->
   fst (run c w files) = Finished /\ zip_file (snd (run c w files)) <> []) /\
  (forall data, In (DownloadButton data) (trace (snd (run c w files))) ->
     data = zip_file (snd (run c w files))) /\
  (fst (run c w files) = Finished -> zip_file (snd (run c w files)) <> [] ->
   exists tr,
     trace (snd (run c w files))
     = tr ++ offer (zip_file (snd (run c w files)))
                   (downloaded_files (snd (run c w files))) /\
     no_archive tr).
Proof.
  intros Hform Hv.
  destruct (search c w (started files)) as [[e | eligible] st1] eqn:Hs.
  { destruct (failed_search_ends_run c w _ _ _ Hv Hs) as (Hrun & _ & Hno & _).
    rewrite Hrun. cbn [fst snd]. split; [split | split].
    - intros [data Hin]. now apply no_archive_not_in in Hin.
    - intros [H _]. discriminate.
    - intros data Hin. now apply no_archive_not_in in Hin.
    - discriminate. }
  destruct (search_started c w _ _ _ Hs) as (_ & _ & evs & Hevs & Hall).
  apply search_events_quiet in Hall as (_ & Hsearch & _).
  destruct (run_shape c w _ _ _ Hform Hv Hs) as (k & _ & Hz & Hd & _ & Hend).
  destruct (run_shape_events c w _ _ _ k Hs Hend) as [_ Hbtn].
  assert (Hsame : zip_file (snd (run c w files)) <> []
                  <-> downloaded_files (snd (run c w files)) <> []).
  { pose proof (noted_length (enumerate_from 0 (firstn k eligible))) as Hlen.
    rewrite <- Hz, <- Hd in Hlen.
    destruct (zip_file (snd (run c w files))), (downloaded_files (snd (run c w files)));
      try discriminate; split; intros H; try discriminate; now contradiction H. }
  assert (Hlast : fst (run c w files) = Finished ->
                  zip_file (snd (run c w files)) <> [] ->
                  exists tr,
                    trace (snd (run c w files))
                    = tr ++ offer (zip_file (snd (run c w files)))
                                  (downloaded_files (snd (run c w files))) /\
                    no_archive tr).
  { intros Hfin Hsome. apply Hsame in Hsome. rewrite Hfin in Hend.
    destruct Hend as [(H & _) | [(e & bad & H & _) | (_ & _ & Ht)]];
      [discriminate | discriminate | ].
    destruct (downloaded_files (snd (run c w files))) as [ | name names] eqn:Hnames;
      [now contradiction Hsome | ].
    exists (trace st1 ++ Status (InfoFound (List.length eligible))
                      :: attempt_events c w (enumerate_from 0 (firstn k eligible))
                      ++ [Status (SuccessDownloaded (List.length (name :: names)))]).
    split.
    - rewrite Ht, <- !app_assoc. cbn [app]. rewrite <- !app_assoc. reflexivity.
    - pose proof (attempt_events_download c w (enumerate_from 0 (firstn k eligible))) as Hdl.
      apply download_events_quiet in Hdl as [Hquiet' _].
      rewrite Hevs. unfold no_archive in *. cbn [forallb app].
      rewrite forallb_app. cbn [forallb]. rewrite forallb_app.
      now rewrite Hsearch, Hquiet'. }
  split; [split | split].
  - intros [data Hin]. apply Hbtn in Hin as (_ & Hfin & Hsome).
    split; [exact Hfin | now apply Hsame].
  - intros [Hfin Hsome]. destruct (Hlast Hfin Hsome) as (tr & Ht & _).
    exists (zip_file (snd (run c w files))). rewrite Ht. apply in_or_app. right. now left.
  - intros data Hin. now apply Hbtn in Hin.
  - exact Hlast.
Qed.

End Offer.

(** ** The further properties on the sample data *)

Lemma main_needs_login_key_click_witness :
  let net := fun _ : json => Sample.one_page Sample.host_ok in
  let stored := Scenario.logged_in [] in
  let wd := Scenario.typing "" false 2 true in
  let ev := SearchRequest "nature" 1 in
  In (Main ev) (snd (script Scenario.secrets net stored wd)) /\
  stored_authenticated stored = Some true /\
  (exists v, Py.lookup Scenario.secrets access_key_name = Some v) /\
  download_button_clicked wd = true /\
  exists key,
    Py.lookup Scenario.secrets api_key_name = Some key /\
    fst (fst (script Scenario.secrets net stored wd))
    = Ran (fst (run (form wd) (net key) (files (init_session stored)))) /\
    In ev (trace (snd (run (form wd) (net key) (files (init_session stored))))).
Proof.
  cbv zeta.
  assert (Hin : In (Main (SearchRequest "nature" 1))
                   (snd (script Scenario.secrets
                                (fun _ : json => Sample.one_page Sample.host_ok)
                                (Scenario.logged_in []) (Scenario.typing "" false 2 true))))
    by (vm_compute; do 2 right; now left).
  split; [exact Hin | ].
  exact (main_needs_login_key_click Scenario.secrets _ _ _ _ Hin).
Defined.

Lemma login_then_download_witness :
  let net := fun _ : json => Sample.one_page Sample.host_ok in
  let stored := Scenario.new_session in
  let wd1 := Scenario.typing "open sesame" true 2 false in
  let wd2 := Scenario.typing "open sesame" false 2 true in
  let key := JStr "0123-abcdef" in
  let first := script Scenario.secrets net stored wd1 in
  let r := run (form wd2) (net key) (files (init_session stored)) in
  login_succeeds Scenario.secrets stored wd1 /\
  Py.lookup Scenario.secrets api_key_name = Some key /\
  download_button_clicked wd2 = true /\
  first = (Rerun,
           {| files := files (init_session stored); authenticated := true |},
           [Sidebar LoggedIn]) /\
  script Scenario.secrets net (store (snd (fst first))) wd2
  = (Ran (fst r),
     {| files := downloaded_files (snd r); authenticated := true |},
     Sidebar ApiKeyLoaded :: map Main (trace (snd r))).
Proof.
  cbv zeta.
  assert (Hlogin : login_succeeds Scenario.secrets Scenario.new_session
                                  (Scenario.typing "open sesame" true 2 false))
    by (repeat split; discriminate).
  split; [exact Hlogin | ]. do 2 (split; [reflexivity | ]).
  exact (login_then_download Scenario.secrets _ _ _ (Scenario.typing "open sesame" false 2 true)
           _ Hlogin eq_refl eq_refl).
Defined.

Lemma files_replaced_only_by_valid_run_witness :
  let net := fun _ : json => Sample.one_page Sample.host_ok in
  let stored := Scenario.logged_in ["pixabay_video_7.mp4"] in
  let wd := Scenario.typing "" false 2 true in
  files (snd (fst (script Scenario.secrets net stored wd))) <> files (init_session stored) /\
  stored_authenticated stored = Some true /\
  download_button_clicked wd = true /\
  min_duration (form wd) < max_duration (form wd) /\
  exists key,
    Py.lookup Scenario.secrets api_key_name = Some key /\
    files (snd (fst (script Scenario.secrets net stored wd)))
    = downloaded_files (snd (run (form wd) (net key) [])).
Proof.
  cbv zeta.
  assert (Hnew : files (snd (fst (script Scenario.secrets
                                         (fun _ : json => Sample.one_page Sample.host_ok)
                                         (Scenario.logged_in ["pixabay_video_7.mp4"])
                                         (Scenario.typing "" false 2 true))))
                 <> files (init_session (Scenario.logged_in ["pixabay_video_7.mp4"])))
    by (vm_compute; discriminate).
  split; [exact Hnew | ].
  exact (files_replaced_only_by_valid_run Scenario.secrets _ _ _ Hnew).
Defined.

Lemma search_returns_first_kept_witness :
  let c := Sample.nature medium 2 in
  let w := Sample.net (inr (Sample.body Sample.eight_hits))
                      (inr (Sample.body Sample.eight_hits)) Sample.host_ok in
  let st := started [] in
  let eligible := [Sample.hit 101 12; Sample.hit 103 20] in
  let st' := log (SearchRequest "nature" 1) st in
  form_ok c /\
  search c w st = (inr eligible, st') /\
  exists n,
    (n <= total_pages_to_check)%nat /\
    search_requests (trace st') = search_requests (trace st) ++ seq 1 n /\
    eligible = firstn (Z.to_nat (num_videos_to_download c))
                      (filter (kept c) (flat_map (page_items c w) (seq 1 n))).
Proof.
  cbv zeta. split; [form_bounds | ]. split; [reflexivity | ].
  apply search_returns_first_kept; [form_bounds | reflexivity].
Defined.

Lemma empty_page_ends_paging_witness :
  let c := Sample.nature medium 20 in
  let w := Sample.one_page Sample.host_ok in
  let st := started [] in
  let r := fst (search c w st) in
  let st' := snd (search c w st) in
  search c w st = (r, st') /\
  exists n,
    (n <= total_pages_to_check)%nat /\
    search_requests (trace st') = search_requests (trace st) ++ seq 1 n /\
    forall page, (1 <= page < n)%nat -> page_items c w page <> [].
Proof.
  cbv zeta. split; [reflexivity | ].
  apply (empty_page_ends_paging (Sample.nature medium 20) (Sample.one_page Sample.host_ok)
           (started [])
           (snd (search (Sample.nature medium 20) (Sample.one_page Sample.host_ok)
                        (started [])))
           (fst (search (Sample.nature medium 20) (Sample.one_page Sample.host_ok)
                        (started [])))).
  reflexivity.
Defined.

Lemma rejected_record_has_no_effect_witness :
  let c := Sample.nature medium 5 in
  let pre := [Sample.hit 101 12] in
  let video := Sample.hit_no_videos 102 45 in
  let post := [Sample.hit 103 20] in
  keeps c video = inr false /\
  filter_loop c (pre ++ video :: post) [] = filter_loop c (pre ++ post) [].
Proof.
  cbv zeta. split; [reflexivity | ].
  apply rejected_record_has_no_effect. reflexivity.
Defined.

Lemma record_that_raises_is_fatal_witness :
  let c := Sample.nature medium 5 in
  let bad := Scenario.hit_text_duration 110 in
  let w := Scenario.with_record bad in
  let pre := [Sample.hit 101 12] in
  let post := [Sample.hit 103 20] in
  min_duration c < max_duration c /\
  In 1%nat (search_requests (trace (snd (run c w [])))) /\
  page_items c w 1 = pre ++ bad :: post /\
  keeps c bad = inl TypeError /\
  Z.of_nat (List.length (filter (kept c)
              (flat_map (page_items c w) (seq 1 (1 - 1)) ++ pre)))
  < num_videos_to_download c /\
  exists e,
    fst (run c w []) = SearchFailed e /\
    ((forall video, In video pre -> exists b, keeps c video = inr b) -> e = TypeError) /\
    (exists tr, trace (snd (run c w [])) = tr ++ [Status (search_error e)]) /\
    no_download (trace (snd (run c w []))) /\
    no_archive (trace (snd (run c w []))) /\
    zip_file (snd (run c w [])) = [].
Proof.
  cbv zeta. split; [reflexivity | ]. split; [vm_compute; now left | ].
  do 3 (split; [reflexivity | ]).
  apply (record_that_raises_is_fatal (Sample.nature medium 5)
           (Scenario.with_record (Scenario.hit_text_duration 110)) [] 1
           [Sample.hit 101 12] [Sample.hit 103 20] (Scenario.hit_text_duration 110)
           TypeError);
    try reflexivity.
  vm_compute. now left.
Defined.

Lemma first_page_without_hits_witness :
  let c := Sample.nature medium 5 in
  let w := Scenario.no_hits_key in
  let data := JDict [("error", JStr "API rate limit exceeded")] in
  let shown m :=
    {| trace := [Status InfoStarting; SearchRequest (search_keyword c) 1; Status m];
       downloaded_files := []; zip_file := [] |} in
  min_duration c < max_duration c /\
  search_api w (search_keyword c) 1 = inr data /\
  (is_dict data = false ->
   run c w [] = (SearchFailed AttributeError, shown (ErrSearchUnexpected AttributeError))) /\
  (forall d hits,
     data = JDict d -> Py.lookup d "hits" = Some hits -> Py.len hits = inl TypeError ->
     run c w [] = (SearchFailed TypeError, shown (ErrSearchUnexpected TypeError))) /\
  (forall d,
     data = JDict d ->
     Py.lookup d "hits" = None \/
     (exists hits, Py.lookup d "hits" = Some hits /\ Py.len hits = inr 0%nat) ->
     run c w [] = (NoVideosFound, shown WarnNoVideos)).
Proof.
  cbv zeta. split; [reflexivity | ]. split; [reflexivity | ].
  apply (first_page_without_hits (Sample.nature medium 5) Scenario.no_hits_key []);
    reflexivity.
Defined.

Lemma requests_bounded_witness :
  let c := Sample.nature medium 5 in
  let w := Sample.one_page Sample.host_ok in
  form_ok c /\
  (List.length (search_requests (trace (snd (run c w [])))) <= total_pages_to_check)%nat /\
  Z.of_nat (List.length (download_requests (trace (snd (run c w [])))))
  <= num_videos_to_download c /\
  (List.length (filter is_request (trace (snd (run c w [])))) <= 22)%nat.
Proof.
  cbv zeta. split; [form_bounds | ]. apply requests_bounded. form_bounds.
Defined.

Lemma session_list_mirrors_archive_witness :
  let c := Sample.nature medium 5 in
  let w := Scenario.odd_named in
  form_ok c /\
  min_duration c < max_duration c /\
  map fst (zip_file (snd (run c w ["pixabay_video_7.mp4"])))
  = map arcname (downloaded_files (snd (run c w ["pixabay_video_7.mp4"]))) /\
  (Forall (fun filename => Py.contains Ascii.zero filename = false)
          (downloaded_files (snd (run c w ["pixabay_video_7.mp4"]))) ->
   map fst (zip_file (snd (run c w ["pixabay_video_7.mp4"])))
   = downloaded_files (snd (run c w ["pixabay_video_7.mp4"]))).
Proof.
  cbv zeta. split; [form_bounds | ]. split; [reflexivity | ].
  apply session_list_mirrors_archive; [form_bounds | reflexivity].
Defined.

Lemma pages_beyond_cap_ignored_witness :
  let c := Sample.nature medium 5 in
  let w1 := Scenario.three_pages (inr (Sample.body [Sample.hit 120 15])) in
  let w2 := Scenario.three_pages (inl (RequestException "Read timed out.")) in
  (forall page, (1 <= page <= total_pages_to_check)%nat ->
     search_api w1 (search_keyword c) page = search_api w2 (search_keyword c) page) /\
  (forall i url, video_host w1 i url = video_host w2 i url) /\
  run c w1 [] = run c w2 [].
Proof.
  cbv zeta.
  assert (Hpages : forall page, (1 <= page <= total_pages_to_check)%nat ->
            search_api (Scenario.three_pages (inr (Sample.body [Sample.hit 120 15])))
                       (search_keyword (Sample.nature medium 5)) page
            = search_api (Scenario.three_pages (inl (RequestException "Read timed out.")))
                         (search_keyword (Sample.nature medium 5)) page).
  { unfold total_pages_to_check. intros [ | [ | [ | page]]] H; try reflexivity; lia. }
  split; [exact Hpages | ]. split; [reflexivity | ].
  apply pages_beyond_cap_ignored; [exact Hpages | reflexivity].
Defined.

Lemma missing_url_is_uncaught_witness :
  let c := Sample.nature medium 5 in
  let bad := Scenario.hit_no_url 111 15 in
  let w := Scenario.with_record bad in
  let pre := [Sample.hit 101 12] in
  let post := [Sample.hit 103 20] in
  let st1 := snd (search c w (started [])) in
  form_ok c /\
  min_duration c < max_duration c /\
  search c w (started []) = (inr (pre ++ bad :: post), st1) /\
  Forall (fun iv => exists x, attempt c w iv = inr x) (enumerate_from 0 pre) /\
  download_url c bad = inl (KeyError "url") /\
  fst (run c w []) = Uncaught (KeyError "url") /\
  zip_file (snd (run c w [])) = entries c w (enumerate_from 0 pre) /\
  trace (snd (run c w []))
  = trace st1 ++ Status (InfoFound (List.length (pre ++ bad :: post)))
              :: attempt_events c w (enumerate_from 0 pre) /\
  Forall2 (fun req iv => fst req = fst iv /\ download_url c (snd iv) = inr (snd req))
          (download_requests (trace (snd (run c w [])))) (enumerate_from 0 pre) /\
  no_archive (trace (snd (run c w []))).
Proof.
  cbv zeta.
  assert (Hpre : Forall (fun iv => exists x,
                           attempt (Sample.nature medium 5)
                                   (Scenario.with_record (Scenario.hit_no_url 111 15)) iv
                           = inr x)
                        (enumerate_from 0 [Sample.hit 101 12])).
  { repeat constructor. eexists. reflexivity. }
  split; [form_bounds | ]. do 2 (split; [reflexivity | ]).
  split; [exact Hpre | ]. split; [reflexivity | ].
  apply (missing_url_is_uncaught (Sample.nature medium 5)
           (Scenario.with_record (Scenario.hit_no_url 111 15)) []
           [Sample.hit 101 12] [Sample.hit 103 20] (Scenario.hit_no_url 111 15)
           (KeyError "url")
           (snd (search (Sample.nature medium 5)
                        (Scenario.with_record (Scenario.hit_no_url 111 15)) (started []))));
    try reflexivity; [form_bounds | exact Hpre].
Defined.

Lemma uncaught_only_from_url_witness :
  let c := Sample.nature medium 5 in
  let w := Scenario.with_record (Scenario.hit_no_url 111 15) in
  let e := KeyError "url" in
  fst (run c w []) = Uncaught e /\
  exists eligible st1 video rendition,
    search c w (started []) = (inr eligible, st1) /\
    In video eligible /\
    (videos <- Py.getitem video "videos" ;;
     Py.getitem videos (quality_tag (video_quality c))) = inr rendition /\
    Py.truthy rendition = true /\
    Py.getitem rendition "url" = inl e /\
    (e = KeyError "url" \/ e = TypeError).
Proof.
  cbv zeta. split; [reflexivity | ].
  apply uncaught_only_from_url. reflexivity.
Defined.

Lemma fallback_names_distinct_witness :
  let c := Sample.nature medium 5 in
  let w := Scenario.two_without_id in
  let eligible := [Sample.hit 101 12; Scenario.hit_no_id 15; Scenario.hit_no_id 20] in
  let st1 := snd (search c w (started [])) in
  form_ok c /\
  search c w (started []) = (inr eligible, st1) /\
  (forall video, In video eligible ->
     identifier video = None \/ exists n, identifier video = Some (JNum n)) /\
  NoDup (integer_ids eligible) /\
  NoDup (map fst (zip_file (snd (run c w [])))) /\
  (forall i d, nth_error eligible i = Some (JDict d) -> Py.lookup d "id" = None ->
     name_of (i, JDict d)
     = ("pixabay_video_unknown_id_" ++ Py.str_of_nat i ++ ".mp4")%string).
Proof.
  cbv zeta.
  assert (Hid : forall video,
             In video [Sample.hit 101 12; Scenario.hit_no_id 15; Scenario.hit_no_id 20] ->
             identifier video = None \/ exists n, identifier video = Some (JNum n)).
  { intros video [<- | [<- | [<- | []]]];
      [right; eexists; reflexivity | left; reflexivity | left; reflexivity]. }
  assert (Hids : NoDup (integer_ids
                          [Sample.hit 101 12; Scenario.hit_no_id 15; Scenario.hit_no_id 20])).
  { cbn. distinct. }
  split; [form_bounds | ]. split; [reflexivity | ].
  split; [exact Hid | ]. split; [exact Hids | ].
  apply (fallback_names_distinct (Sample.nature medium 5) Scenario.two_without_id []
           [Sample.hit 101 12; Scenario.hit_no_id 15; Scenario.hit_no_id 20]
           (snd (search (Sample.nature medium 5) Scenario.two_without_id (started []))));
    [form_bounds | reflexivity | exact Hid | exact Hids].
Defined.

(** Two hits without an identifier, both fetched: the archive tells them
    apart by their positions. *)
Example names_of_hits_without_id :
  map fst (zip_file (snd (run (Sample.nature medium 5) Scenario.two_without_id [])))
  = ["pixabay_video_101.mp4"; "pixabay_video_unknown_id_1.mp4";
     "pixabay_video_unknown_id_2.mp4"].
Proof. reflexivity. Qed.

(** A body whose [hits] is null is not an empty page: the run ends in the
    search's handler. *)
Example hits_null_is_fatal :
  fst (run (Sample.nature medium 5)
           (Sample.net (inr (JDict [("hits", JNull)])) (inr (Sample.body []))
                       Sample.host_ok) [])
  = SearchFailed TypeError.
Proof. reflexivity. Qed.

Lemma archive_offered_iff_witness :
  let c := Sample.nature medium 5 in
  let w := Sample.one_page (Sample.host_failing 2) in
  form_ok c /\
  min_duration c < max_duration c /\
  ((exists data, In (DownloadButton data) (trace (snd (run c w [])))) <->
   fst (run c w []) = Finished /\ zip_file (snd (run c w [])) <> []) /\
  (forall data, In (DownloadButton data) (trace (snd (run c w []))) ->
     data = zip_file (snd (run c w []))) /\
  (fst (run c w []) = Finished -> zip_file (snd (run c w [])) <> [] ->
   exists tr,
     trace (snd (run c w []))
     = tr ++ offer (zip_file (snd (run c w []))) (downloaded_files (snd (run c w []))) /\
     no_archive tr).
Proof.
  cbv zeta. split; [form_bounds | ]. split; [reflexivity | ].
  apply archive_offered_iff; [form_bounds | reflexivity].
Defined.
